(** * os-brick initiator connectors (Liberty): a shallow embedding

    The development follows [drivers/os_brick/openstack/liberty/initiator/
    connector.py].  Python values are modelled as follows:

    - [str] is [string] (a sequence of 8-bit characters, the byte-string
      reading of the Python 2 code base);
    - [int] is [Z];
    - a [dict] with string keys is a [gmap string _];
    - a [set] is the list of its distinct members (Python's [==] is not
      Leibniz equality: [True == 1]) in the order in which the runtime
      iterates over it; that order depends on the hashes of the members
      and is left to the host;
    - code that runs external commands, sleeps or looks at the file system
      is written in a state-and-exception monad over an abstract host: the
      command runner, the SCSI and Fibre Channel utilities, the driver and
      the kernel device tree are collaborators of the connectors and make
      up the class [Host]; the state also keeps the log of what the
      connector did to the host;
    - log messages are left out. *)

From Stdlib Require Import ZArith Ascii String List DecimalString Lia.
From stdpp Require Import gmap strings list.

Open Scope string_scope.
Open Scope Z_scope.

(** ** Python string primitives *)

Module PyStr.

Definition chr (n : nat) : ascii := ascii_of_nat n.

Definition LF : ascii := chr 10.
Definition CR : ascii := chr 13.

(** [rev_string cur] turns the reversed character buffer [cur] into the
    string it stands for. *)
Fixpoint rev_string_onto (cur : list ascii) (acc : string) : string :=
  match cur with
  | [] => acc
  | c :: cur' => rev_string_onto cur' (String c acc)
  end.

Definition rev_string (cur : list ascii) : string := rev_string_onto cur "".

(** [str.splitlines()]: lines end at "\n", "\r" or "\r\n"; the line
    terminators are dropped and a trailing terminator opens no empty
    last line. *)
Fixpoint splitlines_from (cur : list ascii) (s : string) : list string :=
  match s with
  | EmptyString =>
      match cur with
      | [] => []
      | _ => [rev_string cur]
      end
  | String c rest =>
      if Ascii.eqb c CR then
        match rest with
        | String c' rest' =>
            if Ascii.eqb c' LF
            then rev_string cur :: splitlines_from [] rest'
            else rev_string cur :: splitlines_from [] rest
        | EmptyString => rev_string cur :: splitlines_from [] rest
        end
      else if Ascii.eqb c LF then rev_string cur :: splitlines_from [] rest
      else splitlines_from (c :: cur) rest
  end.

Definition splitlines (s : string) : list string := splitlines_from [] s.

(** The characters [str.split()] treats as white space. *)
Definition isspace (c : ascii) : bool :=
  let n := nat_of_ascii c in
  ((9 <=? n)%nat && (n <=? 13)%nat) || (n =? 32)%nat.

Definition flush (cur : list ascii) : list string :=
  match cur with
  | [] => []
  | _ => [rev_string cur]
  end.

(** [str.split()] without a separator: runs of white space separate the
    words and no empty word is produced. *)
Fixpoint split_from (cur : list ascii) (s : string) : list string :=
  match s with
  | EmptyString => flush cur
  | String c rest =>
      if isspace c then flush cur ++ split_from [] rest
      else split_from (c :: cur) rest
  end.

Definition split (s : string) : list string := split_from [] s.

(** [str.split(sep)] for a one-character separator: every occurrence
    separates, so empty fields are kept and the result is never empty. *)
Fixpoint split_on_from (sep : ascii) (cur : list ascii) (s : string)
  : list string :=
  match s with
  | EmptyString => [rev_string cur]
  | String c rest =>
      if Ascii.eqb c sep then rev_string cur :: split_on_from sep [] rest
      else split_on_from sep (c :: cur) rest
  end.

Definition split_on (sep : ascii) (s : string) : list string :=
  split_on_from sep [] s.

(** [s.startswith(p)] *)
Definition startswith (s p : string) : bool := String.prefix p s.

(** [sub in s] *)
Fixpoint contains (s sub : string) : bool :=
  String.prefix sub s ||
  match s with
  | EmptyString => false
  | String _ rest => contains rest sub
  end.

Definition map_string (f : ascii -> ascii) : string -> string :=
  fix go (s : string) : string :=
    match s with
    | EmptyString => EmptyString
    | String c rest => String (f c) (go rest)
    end.

Definition upper_char (c : ascii) : ascii :=
  let n := nat_of_ascii c in
  if ((97 <=? n)%nat && (n <=? 122)%nat) then chr (n - 32) else c.

Definition lower_char (c : ascii) : ascii :=
  let n := nat_of_ascii c in
  if ((65 <=? n)%nat && (n <=? 90)%nat) then chr (n + 32) else c.

(** [s.upper()] and [s.lower()] on the ASCII letters. *)
Definition upper : string -> string := map_string upper_char.
Definition lower : string -> string := map_string lower_char.

(** [str(n)] and ["%s" % n] for an integer. *)
Definition str_of_int (n : Z) : string :=
  NilZero.string_of_int (Z.to_int n).

Definition hex_digit (d : Z) : ascii :=
  match String.get (Z.to_nat d) "0123456789abcdef" with
  | Some c => c
  | None => "0"%char
  end.

(** The hexadecimal digits of a non-negative integer, most significant
    first, pushed in front of [acc]. *)
Fixpoint hex_digits (fuel : nat) (n : Z) (acc : string) : string :=
  match fuel with
  | O => acc
  | S fuel' =>
      let acc' := String (hex_digit (n mod 16)) acc in
      if n <? 16 then acc' else hex_digits fuel' (n / 16) acc'
  end.

Definition to_hex (n : Z) : string :=
  hex_digits (S (Z.to_nat (Z.log2 n))) n "".

Fixpoint zeros (k : nat) (acc : string) : string :=
  match k with
  | O => acc
  | S k' => String "0"%char (zeros k' acc)
  end.

Definition zfill (width : nat) (s : string) : string :=
  zeros (width - String.length s) s.

(** ["%0<width>x" % n]: lower-case hexadecimal, padded with zeros on the
    left up to [width] characters, the sign of a negative number counting
    as one of them. *)
Definition format_0x (width : nat) (n : Z) : string :=
  if n <? 0 then String "-"%char (zfill (width - 1) (to_hex (- n)))
  else zfill width (to_hex n).

End PyStr.

(** ** Python values found in connection properties *)

Module PyVal.

(** Scalars, and flat lists of scalars: what the connectors read out of
    the connection properties and out of an HBA descriptor. *)
Inductive atom : Type :=
| ANone
| ABool (b : bool)
| AInt (n : Z)
| AStr (s : string).

Inductive pyval : Type :=
| Atom (a : atom)
| PList (l : list atom).

Coercion Atom : atom >-> pyval.

Definition PStr (s : string) : pyval := Atom (AStr s).
Definition PInt (n : Z) : pyval := Atom (AInt n).

(** Truth value of an object, as [if x], [not x] and [x or y] take it. *)
Definition truthy (v : pyval) : bool :=
  match v with
  | Atom ANone => false
  | Atom (ABool b) => b
  | Atom (AInt n) => negb (n =? 0)
  | Atom (AStr s) => negb (String.eqb s "")
  | PList l => match l with [] => false | _ => true end
  end.

Definition int_of_bool (b : bool) : Z := if b then 1 else 0.

(** [a == b] on scalars: a bool is the integer 0 or 1. *)
Definition atom_eqb (a b : atom) : bool :=
  match a, b with
  | ANone, ANone => true
  | ABool x, ABool y => Bool.eqb x y
  | ABool x, AInt n | AInt n, ABool x => int_of_bool x =? n
  | AInt n, AInt m => n =? m
  | AStr s, AStr t => String.eqb s t
  | _, _ => false
  end.

Fixpoint atoms_eqb (l m : list atom) : bool :=
  match l, m with
  | [], [] => true
  | a :: l', b :: m' => atom_eqb a b && atoms_eqb l' m'
  | _, _ => false
  end.

Definition py_eqb (v w : pyval) : bool :=
  match v, w with
  | Atom a, Atom b => atom_eqb a b
  | PList l, PList m => atoms_eqb l m
  | _, _ => false
  end.

(** [str(x)], which is also what ["%s" % x] prints. *)
Definition str_atom (a : atom) : string :=
  match a with
  | ANone => "None"
  | ABool true => "True"
  | ABool false => "False"
  | AInt n => PyStr.str_of_int n
  | AStr s => s
  end.

(** [repr(x)] of a list member; a string is shown between single quotes
    (exact for strings without quotes, backslashes and control
    characters). *)
Definition repr_atom (a : atom) : string :=
  match a with
  | AStr s => "'" +:+ s +:+ "'"
  | _ => str_atom a
  end.

Fixpoint join (sep : string) (l : list string) : string :=
  match l with
  | [] => ""
  | [x] => x
  | x :: rest => x +:+ sep +:+ join sep rest
  end.

Definition py_str (v : pyval) : string :=
  match v with
  | Atom a => str_atom a
  | PList l => "[" +:+ join ", " (map repr_atom l) +:+ "]"
  end.

Fixpoint chars (s : string) : list atom :=
  match s with
  | EmptyString => []
  | String c rest => AStr (String c "") :: chars rest
  end.

(** The members a [for] loop or [zip] draws from an object; [None] when
    the object is not iterable. *)
Definition py_iter (v : pyval) : option (list atom) :=
  match v with
  | PList l => Some l
  | Atom (AStr s) => Some (chars s)
  | Atom _ => None
  end.

(** The distinct members of [l]: of members that are equal ([==]) the
    first one is kept, as a set keeps the member it got first. *)
Fixpoint distinct (l : list atom) : list atom :=
  match l with
  | [] => []
  | a :: rest =>
      a :: List.filter (fun b => negb (atom_eqb a b)) (distinct rest)
  end.

End PyVal.

Export PyVal.

(** ** Exceptions, the host and the monad of connector code *)

Module Effects.

Inductive exn : Type :=
| KeyError (key : string)
| IndexError
| TypeError
| AttributeError
| StopIteration
| ValueError (msg : string)
| ProcessExecutionError (exit_code : Z)
| TargetPortalNotFound (target_portal : pyval)
| VolumeDeviceNotFound (device : list string)
| NoFibreChannelHostsFound
| NoFibreChannelVolumeDeviceFound
| BlockDeviceReadOnly
| OtherError (name : string).

Inductive result (A : Type) : Type :=
| Ok (a : A)
| Raise (e : exn).

Arguments Ok {A} a.
Arguments Raise {A} e.

Definition and_then {A B} (r : result A) (k : A -> result B) : result B :=
  match r with
  | Ok a => k a
  | Raise e => Raise e
  end.

(** One call of [self._execute]: the command line and the keyword
    arguments the connectors pass ([run_as_root] and [root_helper] are
    the same in every call and left out). *)
Record command : Type := Command {
  argv : list string;
  check_exit_code : list Z;
  attempts : Z;
  delay_on_retry : bool
}.

(** A Fibre Channel HBA descriptor as far as the connector reads it:
    the ['device_path'] entry, if present. *)
Record hba : Type := Hba { device_path : option string }.

(** What a connector does to the host, in order. *)
Inductive event : Type :=
| Exec (c : command)
| Sleep (secs : Z)
| RemoveScsiDevice (dev : string)
| WaitForVolumeRemoval (path : string)
| RescanHosts (hbas : list hba)
| WaitForRw (wwn path : string).

(** The collaborators of the connectors: the command runner, the file
    system, the clock, the SCSI and Fibre Channel utilities and the
    driver that lists the block devices in use.  [World] is the state of
    the host; the kernel changes it while a command runs or the
    connector sleeps. *)
Class Host : Type := {
  World : Type;
  execute : command -> World -> result (option string * option string) * World;
  path_exists : World -> string -> bool;
  realpath : World -> string -> string;
  glob : World -> string -> list string;
  sleep : Z -> World -> World;
  get_all_block_devices : World -> list string;
  get_name_from_path : World -> string -> option string;
  remove_scsi_device : string -> World -> result unit * World;
  wait_for_volume_removal : string -> World -> result unit * World;
  get_scsi_wwn : World -> string -> result string;
  find_multipath_device_path : World -> string -> option string;
  find_multipath_device : World -> string -> option string;
  wait_for_rw : string -> string -> World -> result unit * World;
  get_fc_hbas_info : World -> list hba;
  rescan_hosts : list hba -> World -> result unit * World;
  (** The order in which the runtime iterates over the set that got the
      members [l] in this order (it follows the hashes of the members,
      not the insertions): a rearrangement of [l]. *)
  set_order : list atom -> list atom
}.

(** [set(l)], as the sequence an iteration over it yields. *)
Definition py_set `{Host} (l : list atom) : list atom :=
  set_order (distinct l).

(** How a run of connector code ends: it returns, it raises, or the
    model stops it because a loop used up its iteration bound.  The last
    case is no behaviour of the Python code; the loops below never reach
    it with the bound their callers give them. *)
Inductive outcome (A : Type) : Type :=
| Returns (a : A)
| Raises (e : exn)
| Diverges.

Arguments Returns {A} a.
Arguments Raises {A} e.
Arguments Diverges {A}.

Section Monad.
Context {H : Host}.

Record State : Type := MkState { world : World; log : list event }.

Definition M (A : Type) : Type := State -> outcome A * State.

Definition ret {A} (a : A) : M A := fun st => (Returns a, st).

Definition raise {A} (e : exn) : M A := fun st => (Raises e, st).

Definition diverge {A} : M A := fun st => (Diverges, st).

Definition bind {A B} (m : M A) (k : A -> M B) : M B :=
  fun st =>
    match m st with
    | (Returns a, st') => k a st'
    | (Raises e, st') => (Raises e, st')
    | (Diverges, st') => (Diverges, st')
    end.

(** [try: m  except: h e] *)
Definition catch {A} (m : M A) (h : exn -> M A) : M A :=
  fun st =>
    match m st with
    | (Raises e, st') => h e st'
    | other => other
    end.

Definition outcome_of {A} (r : result A) : outcome A :=
  match r with
  | Ok a => Returns a
  | Raise e => Raises e
  end.

Definition lift {A} (r : result A) : M A := fun st => (outcome_of r, st).

(** Look at the host without changing it. *)
Definition observe {A} (f : World -> A) : M A :=
  fun st => (Returns (f (world st)), st).

(** Record [e] and let the collaborator [f] act on the host. *)
Definition perform {A} (e : event) (f : World -> result A * World) : M A :=
  fun st =>
    let (r, w) := f (world st) in
    (outcome_of r, MkState w (log st ++ [e])).

Definition _execute (c : command) : M (option string * option string) :=
  perform (Exec c) (execute c).

Definition time_sleep (secs : Z) : M unit :=
  perform (Sleep secs) (fun w => (Ok tt, sleep secs w)).

(** [for x in l: body x] *)
Fixpoint for_each {A} (l : list A) (body : A -> M unit) : M unit :=
  match l with
  | [] => ret tt
  | x :: rest => bind (body x) (fun _ => for_each rest body)
  end.

End Monad.

Module Notations.
Notation "x <- m ;; k" := (bind m (fun x => k))
  (at level 100, m at next level, right associativity).
Notation "m ;;; k" := (bind m (fun _ => k))
  (at level 100, right associativity).
Notation "x <~ r ;; k" := (and_then r (fun x => k))
  (at level 100, r at next level, right associativity).
End Notations.

(** [d[key]] *)
Definition getitem (d : gmap string pyval) (key : string) : result pyval :=
  match d !! key with
  | Some v => Ok v
  | None => Raise (KeyError key)
  end.

(** [d.get(key, default)] *)
Definition get_default (d : gmap string pyval) (key : string) (default : pyval)
  : pyval :=
  match d !! key with
  | Some v => v
  | None => default
  end.

(** [key in d] *)
Definition has_key (d : gmap string pyval) (key : string) : bool :=
  match d !! key with
  | Some _ => true
  | None => false
  end.

(** [l[i]] for a non-negative index. *)
Definition index {A} (l : list A) (i : nat) : result A :=
  match nth_error l i with
  | Some x => Ok x
  | None => Raise IndexError
  end.

(** [out or ""] *)
Definition or_empty (out : option string) : string :=
  match out with
  | Some s => s
  | None => ""
  end.

End Effects.

Export Effects.
Import Effects.Notations.

(** ** The connector factory *)

Module Factory.

Definition S390X := "s390x".
Definition S390 := "s390".

Definition ISCSI := "ISCSI".
Definition ISER := "ISER".
Definition FIBRE_CHANNEL := "FIBRE_CHANNEL".
Definition AOE := "AOE".
Definition NFS := "NFS".
Definition GLUSTERFS := "GLUSTERFS".
Definition STORPOOL := "STORPOOL".
Definition LOCAL := "LOCAL".
Definition HUAWEISDSHYPERVISOR := "HUAWEISDSHYPERVISOR".
Definition HGST := "HGST".
Definition RBD := "RBD".
Definition SCALEIO := "SCALEIO".
Definition SCALITY := "SCALITY".

(** The fixed protocol enumeration: the identifiers [factory] has a
    branch for. *)
Definition protocols : list string :=
  [ISCSI; ISER; FIBRE_CHANNEL; AOE; NFS; GLUSTERFS; SCALITY; STORPOOL;
   LOCAL; HUAWEISDSHYPERVISOR; HGST; RBD; SCALEIO].

Inductive connector_class : Type :=
| ISCSIConnector
| FibreChannelConnectorS390X
| FibreChannelConnector
| AoEConnector
| RemoteFsConnector
| StorPoolConnector
| LocalConnector
| HuaweiStorHyperConnector
| HGSTConnector
| RBDConnector
| ScaleIOConnector.

(** [x in l] for strings *)
Definition str_in (x : string) (l : list string) : bool :=
  existsb (String.eqb x) l.

Section Factory.
Context {H : Host}.

(** What a constructor of a connector class builds. *)
Variable connector : Type.

(** [construct cls kwargs]: the call of the constructor of the class
    [cls] with the keyword arguments [kwargs].  It answers the new
    connector, or raises what [__init__] raises: the constructor of
    [ISCSIConnector] looks up its transport with iscsiadm, the one of
    [RemoteFsConnector] builds its RemoteFsClient, the one of
    [StorPoolConnector] loads the StorPool bindings.  [root_helper],
    [driver] and [execute] are handed on unchanged in every call and are
    left out, and so are extra positional arguments. *)
Variable construct : connector_class -> gmap string pyval -> M connector.

(** [InitiatorConnector.factory].  [machine] is what [platform.machine()]
    answers. *)
Definition factory (machine : string) (protocol : string)
    (use_multipath : bool) (device_scan_attempts : Z)
    (arch : option string) (kwargs : gmap string pyval) : M connector :=
  let arch := match arch with None => machine | Some a => a end in
  let protocol := PyStr.upper protocol in
  let scanning (kwargs : gmap string pyval) :=
    <["device_scan_attempts" := PInt device_scan_attempts]> kwargs in
  let multipath (kwargs : gmap string pyval) :=
    <["use_multipath" := Atom (ABool use_multipath)]> kwargs in
  if str_in protocol [ISCSI; ISER] then
    let kwargs :=
      if String.eqb protocol ISER
      then <["transport" := PStr "iser"]> kwargs
      else kwargs in
    construct ISCSIConnector (multipath (scanning kwargs))
  else if String.eqb protocol FIBRE_CHANNEL then
    if str_in arch [S390; S390X]
    then construct FibreChannelConnectorS390X (multipath (scanning kwargs))
    else construct FibreChannelConnector (multipath (scanning kwargs))
  else if String.eqb protocol AOE then
    construct AoEConnector (scanning kwargs)
  else if str_in protocol [NFS; GLUSTERFS; SCALITY] then
    (* a keyword argument given twice *)
    if has_key kwargs "mount_type" then raise TypeError
    else
      construct RemoteFsConnector
                (<["mount_type" := PStr (PyStr.lower protocol)]>
                   (scanning kwargs))
  else if String.eqb protocol STORPOOL then
    construct StorPoolConnector kwargs
  else if String.eqb protocol LOCAL then
    construct LocalConnector (scanning kwargs)
  else if String.eqb protocol HUAWEISDSHYPERVISOR then
    construct HuaweiStorHyperConnector (scanning kwargs)
  else if String.eqb protocol HGST then
    construct HGSTConnector (scanning kwargs)
  else if String.eqb protocol RBD then
    construct RBDConnector (scanning kwargs)
  else if String.eqb protocol SCALEIO then
    construct ScaleIOConnector (scanning kwargs)
  else
    raise (ValueError
             ("Invalid InitiatorConnector protocol specified " +:+ protocol)).

End Factory.

(** The class of an exception, by name. *)
Definition exn_class (e : exn) : string :=
  match e with
  | KeyError _ => "KeyError"
  | IndexError => "IndexError"
  | TypeError => "TypeError"
  | AttributeError => "AttributeError"
  | StopIteration => "StopIteration"
  | ValueError _ => "ValueError"
  | ProcessExecutionError _ => "ProcessExecutionError"
  | TargetPortalNotFound _ => "TargetPortalNotFound"
  | VolumeDeviceNotFound _ => "VolumeDeviceNotFound"
  | NoFibreChannelHostsFound => "NoFibreChannelHostsFound"
  | NoFibreChannelVolumeDeviceFound => "NoFibreChannelVolumeDeviceFound"
  | BlockDeviceReadOnly => "BlockDeviceReadOnly"
  | OtherError name => name
  end.

Definition exn_message (e : exn) : option string :=
  match e with
  | ValueError msg => Some msg
  | _ => None
  end.

End Factory.

(** ** The iSCSI connector *)

Module ISCSI.

Record connector : Type := Connector {
  use_multipath : bool;
  transport : string;
  device_scan_attempts : Z
}.

Definition DEVICE_SCAN_ATTEMPTS_DEFAULT : Z := 3.

(** A target: [(portal, iqn, lun)]. *)
Definition target : Type := (pyval * pyval * pyval)%type.

(** [zip(a, b, c)] *)
Fixpoint zip3 (a b c : list atom) : list target :=
  match a, b, c with
  | x :: a', y :: b', z :: c' => (Atom x, Atom y, Atom z) :: zip3 a' b' c'
  | _, _, _ => []
  end.

(** [zip(a, b)] *)
Fixpoint zip2 {A B} (a : list A) (b : list B) : list (A * B) :=
  match a, b with
  | x :: a', y :: b' => (x, y) :: zip2 a' b'
  | _, _ => []
  end.

Definition iter_of (v : pyval) : result (list atom) :=
  match py_iter v with
  | Some l => Ok l
  | None => Raise TypeError
  end.

Definition _get_all_targets (connection_properties : gmap string pyval)
  : result (list target) :=
  if forallb (has_key connection_properties)
             ["target_portals"; "target_iqns"; "target_luns"]
  then
    portals <~ getitem connection_properties "target_portals";;
    iqns <~ getitem connection_properties "target_iqns";;
    luns <~ getitem connection_properties "target_luns";;
    ps <~ iter_of portals;;
    qs <~ iter_of iqns;;
    ls <~ iter_of luns;;
    Ok (zip3 ps qs ls)
  else
    portal <~ getitem connection_properties "target_portal";;
    iqn <~ getitem connection_properties "target_iqn";;
    Ok [(portal, iqn,
         get_default connection_properties "target_lun" (PInt 0))].

Definition _iterate_all_targets (connection_properties : gmap string pyval)
  : result (list (gmap string pyval)) :=
  targets <~ _get_all_targets connection_properties;;
  Ok (map (fun '(ip, iqn, lun) =>
             let props := connection_properties in
             let props := <["target_portal" := ip]> props in
             let props := <["target_iqn" := iqn]> props in
             let props := <["target_lun" := lun]> props in
             delete "target_luns"
               (delete "target_iqns" (delete "target_portals" props)))
          targets).

(** ["ip-%s-iscsi-%s-lun-%s" % x] *)
Definition by_path_name (x : target) : string :=
  let '(ip, iqn, lun) := x in
  "ip-" +:+ py_str ip +:+ "-iscsi-" +:+ py_str iqn +:+ "-lun-" +:+ py_str lun.

Definition _get_target_portals_from_iscsiadm_output (output : string)
  : list (list string) :=
  fold_left
    (fun targets data =>
       if ((length data =? 2)%nat &&
           match nth_error data 1 with
           | Some iqn => PyStr.startswith iqn "iqn."
           | None => false
           end)%bool
       then (targets ++ [data])%list
       else targets)
    (map PyStr.split (PyStr.splitlines output))
    [].

(** [for ip, iqn in ips_iqns]: every member is unpacked into two. *)
Fixpoint unpack_pairs (l : list (list string)) : result (list (atom * pyval)) :=
  match l with
  | [] => Ok []
  | [ip; iqn] :: rest =>
      rest' <~ unpack_pairs rest;;
      Ok ((AStr ip, PStr iqn) :: rest')
  | _ :: _ => Raise (ValueError "wrong number of values to unpack")
  end.

(** [MULTIPATH_ERROR_REGEX], "\w{3} \d+ \d\d:\d\d:\d\d \|.*$", matched
    at the start of a line the way [re.match] does. *)
Definition is_digit (c : ascii) : bool :=
  let n := nat_of_ascii c in ((48 <=? n) && (n <=? 57))%nat.

Definition is_word (c : ascii) : bool :=
  let n := nat_of_ascii c in
  is_digit c || ((65 <=? n) && (n <=? 90))%nat
  || ((97 <=? n) && (n <=? 122))%nat || (n =? 95)%nat.

Fixpoint skip_digits (s : string) : string :=
  match s with
  | String c rest => if is_digit c then skip_digits rest else s
  | EmptyString => s
  end.

(** [expect ps s]: the characters of [s] satisfy the tests [ps] one by
    one; what follows them is returned. *)
Fixpoint expect (ps : list (ascii -> bool)) (s : string) : option string :=
  match ps, s with
  | [], _ => Some s
  | p :: ps', String c rest => if p c then expect ps' rest else None
  | _ :: _, EmptyString => None
  end.

Definition is_char (a c : ascii) : bool := Ascii.eqb a c.

Definition multipath_error_match (line : string) : bool :=
  match expect [is_word; is_word; is_word; is_char " "; is_digit] line with
  | Some rest =>
      match expect [is_char " "; is_digit; is_digit; is_char ":";
                    is_digit; is_digit; is_char ":"; is_digit; is_digit;
                    is_char " "; is_char "|"] (skip_digits rest) with
      | Some _ => true
      | None => false
      end
  | None => false
  end.

Section Connector.
Context {H : Host}.
Variable self : connector.

Definition _run_iscsiadm (connection_properties : gmap string pyval)
    (iscsi_command : list string) (check_exit_code : list Z)
    (attempts : Z) (delay_on_retry : bool)
  : M (option string * option string) :=
  iqn <- lift (getitem connection_properties "target_iqn");;
  portal <- lift (getitem connection_properties "target_portal");;
  _execute (Command (["iscsiadm"; "-m"; "node"; "-T"; py_str iqn;
                      "-p"; py_str portal] ++ iscsi_command)
                    check_exit_code attempts delay_on_retry).

Definition _iscsiadm_update (connection_properties : gmap string pyval)
    (property_key property_value : string) (check_exit_code : list Z)
  : M (option string * option string) :=
  _run_iscsiadm connection_properties
    ["--op"; "update"; "-n"; property_key; "-v"; property_value]
    check_exit_code 1 true.

Definition _run_iscsiadm_bare (iscsi_command : list string)
    (check_exit_code : list Z) : M (option string * option string) :=
  _execute (Command ("iscsiadm" :: iscsi_command) check_exit_code 1 true).

Definition _run_multipath (multipath_command : list string)
    (check_exit_code : list Z) : M (option string * option string) :=
  _execute (Command ("multipath" :: multipath_command) check_exit_code
                    1 true).

Definition _rescan_iscsi : M unit :=
  _run_iscsiadm_bare ["-m"; "node"; "--rescan"] [0; 1; 21; 255];;;
  _run_iscsiadm_bare ["-m"; "session"; "--rescan"] [0; 1; 21; 255];;;
  ret tt.

Definition _rescan_multipath : M unit :=
  _run_multipath ["-r"] [0; 1; 21];;; ret tt.

Definition _get_device_path (connection_properties : gmap string pyval)
  : M (list string) :=
  targets <- lift (_get_all_targets connection_properties);;
  if String.eqb (transport self) "default" then
    ret (map (fun x => "/dev/disk/by-path/" +:+ by_path_name x) targets)
  else
    observe (fun w =>
               flat_map (fun x => glob w ("/dev/disk/by-path/*"
                                          +:+ by_path_name x))
                        targets).

Definition _run_iscsiadm_update_discoverydb
    (connection_properties : gmap string pyval)
  : M (option string * option string) :=
  portal <- lift (getitem connection_properties "target_portal");;
  method <- lift (getitem connection_properties "discovery_auth_method");;
  username <-
    lift (getitem connection_properties "discovery_auth_username");;
  password <-
    lift (getitem connection_properties "discovery_auth_password");;
  _execute (Command ["iscsiadm"; "-m"; "discoverydb"; "-t"; "sendtargets";
                     "-p"; py_str portal; "--op"; "update";
                     "-n"; "discovery.sendtargets.auth.authmethod";
                     "-v"; py_str method;
                     "-n"; "discovery.sendtargets.auth.username";
                     "-v"; py_str username;
                     "-n"; "discovery.sendtargets.auth.password";
                     "-v"; py_str password]
                    [0] 1 true).

Definition _discover_iscsi_portals
    (connection_properties : gmap string pyval)
  : M (list (atom * pyval)) :=
  if forallb (has_key connection_properties)
             ["target_portals"; "target_iqns"]
  then
    lift (portals <~ getitem connection_properties "target_portals";;
          iqns <~ getitem connection_properties "target_iqns";;
          ps <~ iter_of portals;;
          qs <~ iter_of iqns;;
          Ok (zip2 ps (map Atom qs)))
  else
    out <-
      (if truthy (get_default connection_properties
                              "discovery_auth_method" ANone)
       then
         catch
           (_run_iscsiadm_update_discoverydb connection_properties;;;
            ret tt)
           (fun exception =>
              match exception with
              | ProcessExecutionError exit_code =>
                  if exit_code =? 6 then
                    portal <-
                      lift (getitem connection_properties "target_portal");;
                    _run_iscsiadm_bare
                      ["-m"; "discoverydb"; "-t"; "sendtargets";
                       "-p"; py_str portal; "--op"; "new"] [0; 255];;;
                    _run_iscsiadm_update_discoverydb
                      connection_properties;;;
                    ret tt
                  else raise exception
              | _ => raise exception
              end);;;
         portal <- lift (getitem connection_properties "target_portal");;
         r <- _run_iscsiadm_bare
                ["-m"; "discoverydb"; "-t"; "sendtargets";
                 "-p"; py_str portal; "--discover"] [0; 255];;
         ret (or_empty (fst r))
       else
         portal <- lift (getitem connection_properties "target_portal");;
         r <- _run_iscsiadm_bare
                ["-m"; "discovery"; "-t"; "sendtargets";
                 "-p"; py_str portal] [0; 255];;
         ret (or_empty (fst r)));;
    lift (unpack_pairs (_get_target_portals_from_iscsiadm_output out)).

(** The first part of [_connect_to_iscsi_portal]: make sure the node
    record exists, push the authentication settings and list the active
    sessions.  The listing is returned. *)
Definition node_record_and_sessions
    (connection_properties : gmap string pyval) : M string :=
  catch
    (_run_iscsiadm connection_properties [] [0] 1 true;;; ret tt)
    (fun exc =>
       match exc with
       | ProcessExecutionError exit_code =>
           if existsb (Z.eqb exit_code) [21; 255] then
             _run_iscsiadm connection_properties
               ["--interface"; transport self; "--op"; "new"] [0] 1 true;;;
             ret tt
           else raise exc
       | _ => raise exc
       end);;;
  (if truthy (get_default connection_properties "auth_method" ANone) then
     method <- lift (getitem connection_properties "auth_method");;
     _iscsiadm_update connection_properties "node.session.auth.authmethod"
       (py_str method) [0];;;
     username <- lift (getitem connection_properties "auth_username");;
     _iscsiadm_update connection_properties "node.session.auth.username"
       (py_str username) [0];;;
     password <- lift (getitem connection_properties "auth_password");;
     _iscsiadm_update connection_properties "node.session.auth.password"
       (py_str password) [0];;;
     ret tt
   else ret tt);;;
  r <- _run_iscsiadm_bare ["-m"; "session"] [0; 1; 21];;
  ret (or_empty (fst r)).

(** [portals]: the portal and the iqn of every "tcp:" line of the session
    listing (the third and fourth fields between single spaces). *)
Fixpoint session_entries (lines : list string)
  : result (list (string * string)) :=
  match lines with
  | [] => Ok []
  | p :: rest =>
      if PyStr.startswith p "tcp:" then
        portal <~ index (PyStr.split_on " " p) 2;;
        iqn <~ index (PyStr.split_on " " p) 3;;
        rest' <~ session_entries rest;;
        Ok ((portal, iqn) :: rest')
      else session_entries rest
  end.

(** [x.split(",")[0]] *)
Definition up_to_comma (x : string) : string :=
  match PyStr.split_on "," x with
  | first :: _ => first
  | [] => ""
  end.

(** The sessions on the target: same portal up to the first comma, same
    iqn. *)
Fixpoint sessions_on_target (stripped_portal : string)
    (connection_properties : gmap string pyval)
    (portals : list (string * string)) : result (list (string * string)) :=
  match portals with
  | [] => Ok []
  | s :: rest =>
      keep <~ (if String.eqb stripped_portal (up_to_comma (fst s)) then
                 iqn <~ getitem connection_properties "target_iqn";;
                 Ok (py_eqb (PStr (snd s)) iqn)
               else Ok false);;
      rest' <~ sessions_on_target stripped_portal connection_properties rest;;
      Ok (if keep : bool then s :: rest' else rest')
  end.

(** [connection_properties['target_portal'].split(",")[0]] *)
Definition stripped_portal_of (connection_properties : gmap string pyval)
  : result string :=
  portal <~ getitem connection_properties "target_portal";;
  match portal with
  | Atom (AStr p) => Ok (up_to_comma p)
  | _ => Raise AttributeError
  end.

(** Whether the session listing [out] shows no session on the target. *)
Definition not_logged_in (connection_properties : gmap string pyval)
    (out : string) : result bool :=
  portals <~ session_entries (PyStr.splitlines out);;
  stripped_portal <~ stripped_portal_of connection_properties;;
  if (length portals =? 0)%nat then Ok true
  else
    found <~ sessions_on_target stripped_portal connection_properties portals;;
    Ok (length found =? 0)%nat.

Definition login_command (connection_properties : gmap string pyval)
  : M (option string * option string) :=
  _run_iscsiadm connection_properties ["--login"] [0; 255] 1 true.

(** The second part of [_connect_to_iscsi_portal]: log in unless the
    session listing [out] shows a session on the target. *)
Definition login_unless_logged_in (connection_properties : gmap string pyval)
    (out : string) : M bool :=
  needed <- lift (not_logged_in connection_properties out);;
  if needed : bool then
    logged_in <-
      catch
        (login_command connection_properties;;; ret true)
        (fun err =>
           match err with
           | ProcessExecutionError exit_code =>
               if negb (existsb (Z.eqb exit_code) [15])
               then ret false
               else ret true
           | _ => raise err
           end);;
    if logged_in : bool then
      _iscsiadm_update connection_properties "node.startup" "automatic" [0];;;
      ret true
    else ret false
  else ret true.

Definition _connect_to_iscsi_portal (connection_properties : gmap string pyval)
  : M bool :=
  out <- node_record_and_sessions connection_properties;;
  login_unless_logged_in connection_properties out.

Definition _disconnect_from_iscsi_portal
    (connection_properties : gmap string pyval) : M unit :=
  _iscsiadm_update connection_properties "node.startup" "manual"
    [0; 21; 255];;;
  _run_iscsiadm connection_properties ["--logout"] [0; 21; 255] 1 true;;;
  _run_iscsiadm connection_properties ["--op"; "delete"] [0; 21; 255] 5 true;;;
  ret tt.

Definition _get_multipath_device_name (single_path_device : string)
  : M (option string) :=
  device <- observe (fun w => realpath w single_path_device);;
  r <- _run_multipath ["-ll"; device] [0; 1];;
  match fst r with
  | None => raise AttributeError
  | Some out =>
      let mpath_line :=
        List.filter (fun line => negb (multipath_error_match line))
                    (PyStr.splitlines out) in
      match mpath_line with
      | first :: _ =>
          if (0 <? String.length first)%nat then
            ret (Some ("/dev/mapper/" +:+
                       match PyStr.split_on " " first with
                       | name :: _ => name
                       | [] => ""
                       end))
          else ret None
      | [] => ret None
      end
  end.

(** [all(map(lambda x: not os.path.exists(x), host_devices))] *)
Definition none_exists (host_devices : list string) : M bool :=
  observe (fun w => forallb (fun x => negb (path_exists w x)) host_devices).

(** The [while] loop of [connect_volume] that waits for a device node,
    from the values [tries] and [host_devices] have when the loop test is
    evaluated.  It answers the values they have after the loop.  [fuel]
    bounds the number of iterations. *)
Fixpoint wait_for_device (fuel : nat) (target_props : gmap string pyval)
    (tries : Z) (host_devices : list string) : M (list string * Z) :=
  missing <- none_exists host_devices;;
  if missing : bool then
    if tries >=? device_scan_attempts self then
      raise (VolumeDeviceNotFound host_devices)
    else
      match fuel with
      | O => diverge
      | S fuel' =>
          host_devices <-
            (if use_multipath self then
               _rescan_iscsi;;; ret host_devices
             else
               host_devices <-
                 (if negb (tries =? 0) then _get_device_path target_props
                  else ret host_devices);;
               _run_iscsiadm target_props ["--rescan"] [0] 1 true;;;
               ret host_devices);;
          let tries := tries + 1 in
          missing <- none_exists host_devices;;
          if missing : bool then
            time_sleep (tries ^ 2);;;
            wait_for_device fuel' target_props tries host_devices
          else ret (host_devices, tries)
      end
  else ret (host_devices, tries).

(** The iterations the loop can take: one per allowed rescan, and the one
    that gives up. *)
Definition wait_fuel : nat := S (Z.to_nat (device_scan_attempts self)).

(** The caller's iqn paired with every discovered portal, or the
    discovered pairs as they are (the multipath branch of [connect_volume],
    when no [target_iqns] were given). *)
Definition fan_out (main_iqn : pyval) (ips_iqns : list (atom * pyval))
  : list (atom * pyval) :=
  let all_portals := py_set (map fst ips_iqns) in
  let match_portals :=
    py_set (map fst (List.filter (fun x => py_eqb (snd x) main_iqn)
                                 ips_iqns)) in
  if (length all_portals =? length match_portals)%nat
  then zip2 all_portals (repeat main_iqn (length all_portals))
  else ips_iqns.

Definition multipath_targets (connection_properties : gmap string pyval)
    (ips_iqns : list (atom * pyval)) : result (list (atom * pyval)) :=
  if negb (truthy (get_default connection_properties "target_iqns" ANone))
  then
    main_iqn <~ getitem connection_properties "target_iqn";;
    Ok (fan_out main_iqn ips_iqns)
  else Ok ips_iqns.

(** [for ip, iqn in ips_iqns: ... self._connect_to_iscsi_portal(props)] *)
Definition connect_to_all (connection_properties : gmap string pyval)
    (ips_iqns : list (atom * pyval)) : M unit :=
  for_each ips_iqns
    (fun x =>
       let props := connection_properties in
       let props := <["target_portal" := Atom (fst x)]> props in
       let props := <["target_iqn" := snd x]> props in
       _connect_to_iscsi_portal props;;; ret tt).

(** The non-multipath loop over the targets: the properties of the first
    target whose portal could be connected to, [target_props] if none. *)
Fixpoint first_connected (target_props : gmap string pyval)
    (targets : list (gmap string pyval)) : M (gmap string pyval) :=
  match targets with
  | [] => ret target_props
  | props :: rest =>
      connected <- _connect_to_iscsi_portal props;;
      if connected : bool then ret props
      else first_connected target_props rest
  end.

Definition connect_volume (connection_properties : gmap string pyval)
  : M (gmap string pyval) :=
  let device_info : gmap string pyval := {["type" := PStr "block"]} in
  found <-
    (if use_multipath self then
       ips_iqns <-
         catch (_discover_iscsi_portals connection_properties)
               (fun _ =>
                  portal <-
                    lift (getitem connection_properties "target_portal");;
                  raise (TargetPortalNotFound portal));;
       ips_iqns <- lift (multipath_targets connection_properties ips_iqns);;
       connect_to_all connection_properties ips_iqns;;;
       _rescan_iscsi;;;
       host_devices <- _get_device_path connection_properties;;
       ret (connection_properties, host_devices)
     else
       targets <- lift (_iterate_all_targets connection_properties);;
       target_props <- first_connected connection_properties targets;;
       host_devices <- _get_device_path target_props;;
       ret (target_props, host_devices));;
  waited <- wait_for_device wait_fuel (fst found) 0 (snd found);;
  let host_devices := fst waited in
  existing <- observe (fun w => List.find (path_exists w) host_devices);;
  match existing with
  | None => raise StopIteration
  | Some host_device =>
      host_device <-
        (if use_multipath self then
           _rescan_multipath;;;
           multipath_device <- _get_multipath_device_name host_device;;
           match multipath_device with
           | Some d => ret d
           | None => ret host_device
           end
         else ret host_device);;
      ret (<["path" := PStr host_device]> device_info)
  end.

Definition remove_device_node (host_device : string) : M unit :=
  dev_name <- observe (fun w => get_name_from_path w host_device);;
  match dev_name with
  | Some name =>
      if truthy (PStr name) then
        perform (RemoveScsiDevice name) (remove_scsi_device name);;;
        perform (WaitForVolumeRemoval host_device)
                (wait_for_volume_removal host_device)
      else ret tt
  | None => ret tt
  end.

(** ["ip-%(portal)s-iscsi-%(iqn)s-lun-"] *)
Definition device_byname_of (connection_properties : gmap string pyval)
  : result string :=
  portal <~ getitem connection_properties "target_portal";;
  iqn <~ getitem connection_properties "target_iqn";;
  Ok ("ip-" +:+ py_str portal +:+ "-iscsi-" +:+ py_str iqn +:+ "-lun-").

(** The block devices of the driver that keep the target in use. *)
Definition devices_in_use (device_byname : string) (w : World) : list string :=
  List.filter
    (fun dev =>
       (PyStr.contains dev device_byname
        && PyStr.startswith dev "/dev/disk/by-path/")
       && path_exists w dev)
    (get_all_block_devices w).

Definition _disconnect_volume_iscsi (connection_properties : gmap string pyval)
  : M unit :=
  host_devices <- _get_device_path connection_properties;;
  match host_devices with
  | [] => ret tt
  | host_device :: _ =>
      remove_device_node host_device;;;
      device_byname <- lift (device_byname_of connection_properties);;
      devices <- observe (devices_in_use device_byname);;
      match devices with
      | [] => _disconnect_from_iscsi_portal connection_properties
      | _ :: _ => ret tt
      end
  end.

(** What [disconnect_volume] does without multipath (and with multipath
    when no multipath device is found): every target is disconnected. *)
Definition disconnect_all_targets (connection_properties : gmap string pyval)
  : M unit :=
  targets <- lift (_iterate_all_targets connection_properties);;
  for_each targets _disconnect_volume_iscsi.

End Connector.

End ISCSI.

(** ** The Fibre Channel connector *)

Module FibreChannel.

Record connector : Type := Connector {
  use_multipath : bool;
  device_scan_attempts : Z
}.

(** The loop of [_get_pci_num] over [enumerate(device_path)]: the entry
    before the first one that starts with "net" or "host"; index [-1] is
    the last entry. *)
Fixpoint entry_before_host (device_path : list string) (rest : list string)
    (index : nat) : option string :=
  match rest with
  | [] => None
  | value :: rest' =>
      if PyStr.startswith value "net" || PyStr.startswith value "host" then
        match index with
        | O => List.last (map Some device_path) None
        | S i => nth_error device_path i
        end
      else entry_before_host device_path rest' (S index)
  end.

Definition _get_pci_num (hba : option hba) : option string :=
  match hba with
  | Some h =>
      match device_path h with
      | Some path =>
          let device_path := PyStr.split_on "/" path in
          entry_before_host device_path device_path 0
      | None => None
      end
  | None => None
  end.

(** The wwn "can either be string or list of strings": it is made a
    list. *)
Definition wwn_list (wwnports : pyval) : list string :=
  match wwnports with
  | PList l => map str_atom l
  | Atom (AStr s) => [s]
  | Atom _ => []
  end.

Fixpoint _get_possible_devices_from (hbas : list hba) (wwns : list string)
  : list (string * string) :=
  match hbas with
  | [] => []
  | hba :: rest =>
      match _get_pci_num (Some hba) with
      | Some pci_num =>
          map (fun wwn => (pci_num, "0x" +:+ PyStr.lower wwn)) wwns
          ++ _get_possible_devices_from rest wwns
      | None => _get_possible_devices_from rest wwns
      end
  end.

Definition _get_possible_devices (hbas : list hba) (wwnports : pyval)
  : list (string * string) :=
  _get_possible_devices_from hbas (wwn_list wwnports).

Definition _get_host_devices (possible_devs : list (string * string))
    (lun : pyval) : list string :=
  map (fun dev =>
         "/dev/disk/by-path/pci-" +:+ fst dev +:+ "-fc-" +:+ snd dev
         +:+ "-lun-" +:+ py_str lun)
      possible_devs.

Definition _get_possible_volume_paths
    (connection_properties : gmap string pyval) (hbas : list hba)
  : result (list string) :=
  ports <~ getitem connection_properties "target_wwn";;
  let possible_devs := _get_possible_devices hbas ports in
  let lun := get_default connection_properties "target_lun" (PInt 0) in
  Ok (_get_host_devices possible_devs lun).

Section Connector.
Context {H : Host}.
Variable self : connector.

(** [_wait_for_device_discovery], called again and again by the looping
    call (two seconds apart) until it finds a device or gives up.  It
    answers [host_device], [device_name] and [tries]. *)
Fixpoint _wait_for_device_discovery (fuel : nat) (hbas : list hba)
    (host_devices : list string) (tries : Z) : M (string * string * Z) :=
  found <- observe (fun w => List.find (path_exists w) host_devices);;
  match found with
  | Some device =>
      device_name <- observe (fun w => realpath w device);;
      ret (device, device_name, tries)
  | None =>
      if tries >=? device_scan_attempts self then
        raise NoFibreChannelVolumeDeviceFound
      else
        match fuel with
        | O => diverge
        | S fuel' =>
            perform (RescanHosts hbas) (rescan_hosts hbas);;;
            time_sleep 2;;;
            _wait_for_device_discovery fuel' hbas host_devices (tries + 1)
        end
  end.

Definition wait_fuel : nat := S (Z.to_nat (device_scan_attempts self)).

Definition connect_volume (connection_properties : gmap string pyval)
  : M (gmap string pyval) :=
  let device_info : gmap string pyval := {["type" := PStr "block"]} in
  hbas <- observe get_fc_hbas_info;;
  host_devices <- lift (_get_possible_volume_paths connection_properties hbas);;
  if (length host_devices =? 0)%nat then raise NoFibreChannelHostsFound
  else
    found <- _wait_for_device_discovery wait_fuel hbas host_devices 0;;
    let '(host_device, device_name, tries) := found in
    device_wwn <- bind (observe (fun w => get_scsi_wwn w host_device)) lift;;
    if use_multipath self then
      path <- observe (fun w => find_multipath_device_path w device_wwn);;
      chosen <-
        match path with
        | Some path =>
            ret (path, <["multipath_id" := PStr device_wwn]> device_info)
        | None =>
            mpath_info <-
              observe (fun w => find_multipath_device w device_name);;
            match mpath_info with
            | Some device =>
                ret (device,
                     <["multipath_id" := PStr device_wwn]> device_info)
            | None => ret (host_device, device_info)
            end
        end;;
      let device_path := fst chosen in
      (if negb (py_eqb (get_default connection_properties "access_mode"
                                    (PStr ""))
                       (PStr "ro"))
       then
         catch (perform (WaitForRw device_wwn device_path)
                        (wait_for_rw device_wwn device_path))
               (fun e =>
                  match e with
                  | BlockDeviceReadOnly => ret tt
                  | _ => raise e
                  end)
       else ret tt);;;
      ret (<["path" := PStr device_path]> (snd chosen))
    else
      ret (<["path" := PStr host_device]> device_info).

End Connector.

End FibreChannel.

(** ** The Fibre Channel connector for S390X *)

Module FibreChannelS390X.

Definition _get_lun_string (lun : Z) : pyval :=
  let target_lun := PInt 0 in
  if lun <=? 65535 then
    PStr ("0x" +:+ PyStr.format_0x 4 lun +:+ "000000000000")
  else if lun <=? 4294967295 then
    PStr ("0x" +:+ PyStr.format_0x 8 lun +:+ "00000000")
  else target_lun.

Definition _get_device_file_path (pci_num target_wwn : string)
    (target_lun : pyval) : string :=
  "/dev/disk/by-path/ccw-" +:+ pci_num +:+ "-zfcp-" +:+ target_wwn +:+ ":"
  +:+ py_str target_lun.

End FibreChannelS390X.

(** ** Notions used in the statements *)

Module Notions.

(** The [k] lowest hexadecimal digits of [n], most significant first, in
    front of [acc]: the [k]-digit zero-padded numeral of [n] when
    [0 <= n < 16 ^ k]. *)
Fixpoint hex_fixed (k : nat) (n : Z) (acc : string) : string :=
  match k with
  | O => acc
  | S k' => hex_fixed k' (n / 16) (String (PyStr.hex_digit (n mod 16)) acc)
  end.

(** The value of a lower-case hexadecimal digit, and of a numeral. *)
Definition hex_digit_value (c : ascii) : Z :=
  let n := Z.of_nat (nat_of_ascii c) in
  if (48 <=? n) && (n <=? 57) then n - 48 else n - 87.

Fixpoint hex_value_from (acc : Z) (s : string) : Z :=
  match s with
  | EmptyString => acc
  | String c rest => hex_value_from (16 * acc + hex_digit_value c) rest
  end.

Definition hex_value (s : string) : Z := hex_value_from 0 s.

(** A line of discovery output that names a target: exactly two words, the
    second one starting with "iqn.". *)
Definition is_target_line (words : list string) : bool :=
  match words with
  | [_; iqn] => PyStr.startswith iqn "iqn."
  | _ => false
  end.

(** The PCI addresses of the HBAs that have one. *)
Definition pci_addresses (hbas : list hba) : list string :=
  flat_map (fun h =>
              match FibreChannel._get_pci_num (Some h) with
              | Some pci => [pci]
              | None => []
              end)
           hbas.

(** /dev/disk/by-path/pci-{pci}-fc-0x{wwn lowercased}-lun-{lun} *)
Definition fc_candidate (lun : pyval) (pci wwn : string) : string :=
  "/dev/disk/by-path/pci-" +:+ pci +:+ "-fc-0x" +:+ PyStr.lower wwn
  +:+ "-lun-" +:+ py_str lun.

(** An active session on the target: the same portal up to the first
    comma, and the same iqn. *)
Definition session_matches (portal : string) (iqn : pyval)
    (session : string * string) : bool :=
  String.eqb (ISCSI.up_to_comma portal) (ISCSI.up_to_comma (fst session))
  && py_eqb (PStr (snd session)) iqn.

(** What stands before the first comma of [x]. *)
Fixpoint before_comma (x : string) : string :=
  match x with
  | EmptyString => EmptyString
  | String c rest =>
      if Ascii.eqb c "," then EmptyString else String c (before_comma rest)
  end.

(** A line of the session listing that shows a session on the target: it
    starts with "tcp:", and of its fields (what single spaces separate)
    the third is the target's portal, both taken up to the first comma,
    and the fourth is the target's iqn. *)
Definition session_line_matches (portal : string) (iqn : pyval)
    (line : string) : bool :=
  PyStr.startswith line "tcp:"
  && match PyStr.split_on " " line with
     | _ :: _ :: p :: q :: _ =>
         String.eqb (before_comma portal) (before_comma p)
         && py_eqb (PStr q) iqn
     | _ => false
     end.

(** A "tcp:" line with fewer than four fields. *)
Definition session_line_short (line : string) : bool :=
  PyStr.startswith line "tcp:"
  && (length (PyStr.split_on " " line) <? 4)%nat.

(** The class [factory] instantiates for a protocol in upper case on the
    architecture [arch]. *)
Definition class_table : list (string * Factory.connector_class) :=
  [("ISCSI", Factory.ISCSIConnector); ("ISER", Factory.ISCSIConnector);
   ("AOE", Factory.AoEConnector); ("NFS", Factory.RemoteFsConnector);
   ("GLUSTERFS", Factory.RemoteFsConnector);
   ("SCALITY", Factory.RemoteFsConnector);
   ("STORPOOL", Factory.StorPoolConnector);
   ("LOCAL", Factory.LocalConnector);
   ("HUAWEISDSHYPERVISOR", Factory.HuaweiStorHyperConnector);
   ("HGST", Factory.HGSTConnector); ("RBD", Factory.RBDConnector);
   ("SCALEIO", Factory.ScaleIOConnector)].

Definition class_of (arch protocol : string)
  : option Factory.connector_class :=
  if String.eqb protocol "FIBRE_CHANNEL" then
    Some (if String.eqb arch "s390" || String.eqb arch "s390x"
          then Factory.FibreChannelConnectorS390X
          else Factory.FibreChannelConnector)
  else
    option_map snd
      (List.find (fun row => String.eqb protocol (fst row)) class_table).

(** iscsiadm -m node -T {iqn} -p {portal} {arguments} *)
Definition iscsiadm_node (iqn portal : pyval) (arguments : list string)
    (check_exit_code : list Z) (attempts : Z) : command :=
  Command (["iscsiadm"; "-m"; "node"; "-T"; py_str iqn; "-p"; py_str portal]
           ++ arguments)
          check_exit_code attempts true.

Definition login_of (iqn portal : pyval) : command :=
  iscsiadm_node iqn portal ["--login"] [0; 255] 1.

Definition startup_of (iqn portal : pyval) (mode : string)
    (check_exit_code : list Z) : command :=
  iscsiadm_node iqn portal
    ["--op"; "update"; "-n"; "node.startup"; "-v"; mode] check_exit_code 1.

Definition logout_of (iqn portal : pyval) : command :=
  iscsiadm_node iqn portal ["--logout"] [0; 21; 255] 1.

Definition delete_of (iqn portal : pyval) : command :=
  iscsiadm_node iqn portal ["--op"; "delete"] [0; 21; 255] 5.

(** No command with a command line of eight words, as the login has. *)
Definition not_a_login (e : event) : Prop :=
  forall c : command, e = Exec c -> length (argv c) <> 8%nat.

(** Python's [==] on scalars is equality of what the scalar stands for. *)
Definition atom_key (a : atom) : unit + (Z + string) :=
  match a with
  | ANone => inl tt
  | ABool b => inr (inl (int_of_bool b))
  | AInt n => inr (inl n)
  | AStr s => inr (inr s)
  end.

(** The properties [connect_volume] hands to [_connect_to_iscsi_portal]
    for the pair [x]. *)
Definition pair_props (props : gmap string pyval) (x : atom * pyval)
  : gmap string pyval :=
  <["target_iqn" := snd x]> (<["target_portal" := Atom (fst x)]> props).

(** The first command of [_connect_to_iscsi_portal] for the pair [x]: the
    look-up of the node record. *)
Definition probe_of (x : atom * pyval) : command :=
  iscsiadm_node (snd x) (Atom (fst x)) [] [0] 1.

(** A login command: iscsiadm -m node -T {iqn} -p {portal} --login. *)
Definition is_login (e : event) : bool :=
  match e with
  | Exec c =>
      match argv c with
      | [_; _; _; _; _; _; _; last] => String.eqb last "--login"
      | _ => false
      end
  | _ => false
  end.

(** The sessions of [targets] are established one after the other, from
    the state [st] to the state [st']: for every pair the node record is
    looked up first and the sessions are listed; then the login of the
    pair is issued, unless the listing shows a session on it, in which
    case nothing more is done for the pair. *)
Fixpoint sessions_established `{H : Host} (self : ISCSI.connector)
    (props : gmap string pyval) (targets : list (atom * pyval))
    (st st' : State) : Prop :=
  match targets with
  | [] => st' = st
  | x :: rest =>
      exists (portal out : string) (st1 st2 : State) (new : list event),
        fst x = AStr portal
        /\ ISCSI.node_record_and_sessions self (pair_props props x) st
           = (Returns out, st1)
        /\ log st1 = (log st ++ Exec (probe_of x) :: new)%list
        /\ List.filter is_login new = []
        /\ (if existsb (session_line_matches portal (snd x))
                       (PyStr.splitlines out)
            then st2 = st1
            else exists after : list event,
                log st2
                = (log st1 ++ Exec (login_of (snd x) (PStr portal)) :: after)%list)
        /\ sessions_established self props rest st2 st'
  end.

(** One rescan of the device-materialization loop: the node and session
    rescans with multipath, the rescan of the target's node otherwise. *)
Definition node_rescan : command :=
  Command ["iscsiadm"; "-m"; "node"; "--rescan"] [0; 1; 21; 255] 1 true.

Definition session_rescan : command :=
  Command ["iscsiadm"; "-m"; "session"; "--rescan"] [0; 1; 21; 255] 1 true.

Definition target_rescan (iqn portal : pyval) : command :=
  iscsiadm_node iqn portal ["--rescan"] [0] 1.

Definition rescan_round (multipath : bool) (iqn portal : pyval) : list event :=
  if multipath then [Exec node_rescan; Exec session_rescan]
  else [Exec (target_rescan iqn portal)].

(** [k] rounds of rescan and sleep, the loop counter being [tries] before
    the first of them. *)
Fixpoint rounds (multipath : bool) (iqn portal : pyval) (k : nat) (tries : Z)
  : list event :=
  match k with
  | O => []
  | S k' =>
      (rescan_round multipath iqn portal ++ [Sleep ((tries + 1) ^ 2)]
       ++ rounds multipath iqn portal k' (tries + 1))%list
  end.

Fixpoint strings_eqb (l m : list string) : bool :=
  match l, m with
  | [], [] => true
  | x :: l', y :: m' => String.eqb x y && strings_eqb l' m'
  | _, _ => false
  end.

(** The command that completes a rescan. *)
Definition completes_rescan (multipath : bool) (iqn portal : pyval)
    (e : event) : bool :=
  match e with
  | Exec c =>
      strings_eqb (argv c)
        (argv (if multipath then session_rescan else target_rescan iqn portal))
  | _ => false
  end.

Definition count_rescans (multipath : bool) (iqn portal : pyval)
    (l : list event) : nat :=
  length (List.filter (completes_rescan multipath iqn portal) l).

(** The sleeps of a log, in order, and their sum. *)
Fixpoint sleeps (l : list event) : list Z :=
  match l with
  | [] => []
  | Sleep secs :: rest => secs :: sleeps rest
  | _ :: rest => sleeps rest
  end.

Definition total_sleep (l : list event) : Z := fold_right Z.add 0 (sleeps l).

(** The candidate paths on the default transport. *)
Definition default_paths (targets : list ISCSI.target) : list string :=
  map (fun x => "/dev/disk/by-path/" +:+ ISCSI.by_path_name x) targets.

(** The candidates [hd'] are the candidates [hd] again, when they do not
    come from a glob. *)
Definition same_candidates (self : ISCSI.connector)
    (targets : list ISCSI.target) (hd hd' : list string) : Prop :=
  (ISCSI.use_multipath self = true -> hd' = hd)
  /\ (ISCSI.transport self = "default" -> hd = default_paths targets ->
      hd' = hd).

(** [1^2 + 2^2 + ... + n^2] *)
Fixpoint sum_of_squares (n : nat) : Z :=
  match n with
  | O => 0
  | S n' => sum_of_squares n' + Z.of_nat n * Z.of_nat n
  end.

(** [adds P m]: whatever [m] does, it only appends events to the log,
    and every event it appends satisfies [P]. *)
Definition adds `{H : Host} {A} (P : event -> Prop) (m : M A) : Prop :=
  forall st : State,
    exists new : list event,
      log (snd (m st)) = (log st ++ new)%list /\ Forall P new.

Definition anything (e : event) : Prop := True.


(** [starts_with e m]: whatever [m] does, it appends events to the log,
    the first of which is [e]. *)
Definition starts_with `{H : Host} {A} (e : event) (m : M A) : Prop :=
  forall st : State,
    exists new : list event, log (snd (m st)) = (log st ++ e :: new)%list.

(** [terminates m]: [m] never uses up a loop bound of the model. *)
Definition terminates `{H : Host} {A} (m : M A) : Prop :=
  forall st : State, fst (m st) <> Diverges.

End Notions.

Import Notions.

(** ** Concrete inputs used in examples *)

Module Inputs.

Definition plural_props : gmap string pyval :=
  <["target_portals" := PList [AStr "10.0.0.5:3260"; AStr "10.0.0.6:3260"]]>
  (<["target_iqns" := PList [AStr "iqn.2010-x:vol1"; AStr "iqn.2010-x:vol2"]]>
   (<["target_luns" := PList [AInt 1; AInt 2]]>
    (<["target_portal" := PStr "10.0.0.5:3260"]> ∅))).

Definition singular_props : gmap string pyval :=
  <["target_portal" := PStr "10.0.0.5:3260"]>
  (<["target_iqn" := PStr "iqn.2010-x:vol1"]> ∅).

Definition uneven_props : gmap string pyval :=
  <["target_portals" :=
      PList [AStr "10.0.0.5:3260"; AStr "10.0.0.6:3260"; AStr "10.0.0.7:3260"]]>
  (<["target_iqns" := PList [AStr "iqn.2010-x:vol1"; AStr "iqn.2010-x:vol2"]]>
   (<["target_luns" := PList [AInt 1]]> ∅)).

(** A host for examples.  Its state counts the rescans (of the Fibre
    Channel hosts, or iSCSI rescan commands) made so far; the paths in
    [nodes] exist once [appear_after] rescans have been made, and never if
    [appear_after] is [None].  A command prints [stdout], or fails with the
    exit code [failure] gives it.  A set is iterated over from the member
    it got last to the one it got first. *)
Record fake : Type := Fake {
  appear_after : option nat;
  nodes : list string;
  hbas : list hba;
  block_devices : list string;
  globbed : list string;
  stdout : command -> string;
  failure : command -> option Z
}.

Definition is_rescan (c : command) : bool :=
  existsb (String.eqb "--rescan") (argv c).

Definition fake_host (f : fake) : Host := {|
  World := nat;
  execute := fun c w =>
               (match failure f c with
                | Some code => Raise (ProcessExecutionError code)
                | None => Ok (Some (stdout f c), Some "")
                end,
                if is_rescan c then S w else w);
  path_exists := fun w p =>
                   match appear_after f with
                   | Some k => (k <=? w)%nat && Factory.str_in p (nodes f)
                   | None => false
                   end;
  realpath := fun _ p => p;
  glob := fun _ _ => globbed f;
  sleep := fun _ w => w;
  get_all_block_devices := fun _ => block_devices f;
  get_name_from_path := fun _ p => Some p;
  remove_scsi_device := fun _ w => (Ok tt, w);
  wait_for_volume_removal := fun _ w => (Ok tt, w);
  get_scsi_wwn := fun _ _ => Ok "36001405b0c7a2fa4";
  find_multipath_device_path := fun _ _ => None;
  find_multipath_device := fun _ _ => None;
  wait_for_rw := fun _ _ w => (Ok tt, w);
  get_fc_hbas_info := fun _ => hbas f;
  rescan_hosts := fun _ w => (Ok tt, S w);
  set_order := @rev atom
|}.

Definition fake_state {f : fake} (w : nat) (l : list event)
  : @State (fake_host f) :=
  @MkState (fake_host f) w l.

Definition no_output (c : command) : string := "".

Definition no_failure (c : command) : option Z := None.

Definition one_hba : list hba :=
  [Hba (Some "/sys/devices/pci0000:00/0000:00:03.0/0000:05:00.3/host2/fc_host/host2")].

Definition fc_props : gmap string pyval :=
  <["target_wwn" := PList [AStr "5000ABC1"; AStr "5000abc2"]]>
  (<["target_lun" := PInt 1]> ∅).

Definition fc_paths : list string :=
  ["/dev/disk/by-path/pci-0000:05:00.3-fc-0x5000abc1-lun-1";
   "/dev/disk/by-path/pci-0000:05:00.3-fc-0x5000abc2-lun-1"].

(** A Fibre Channel host with one HBA where [paths] exist after [k]
    rescans ([None]: never). *)
Definition fc_fake (k : option nat) (paths : list string) : fake :=
  Fake k paths one_hba [] [] no_output no_failure.

(** An iSCSI host that lists one session, on another target, and where a
    login fails with the exit code [code]. *)
Definition other_session (c : command) : string :=
  if existsb (String.eqb "session") (argv c)
  then "tcp: [1] 10.0.0.9:3260,1 iqn.2010-x:other"
  else "".

Definition login_fails (code : Z) (c : command) : option Z :=
  if existsb (String.eqb "--login") (argv c) then Some code else None.

Definition login_fake (code : Z) : fake :=
  Fake None [] [] [] [] other_session (login_fails code).

Definition iscsi_props : gmap string pyval :=
  <["target_portal" := PStr "10.0.0.5:3260"]>
  (<["target_iqn" := PStr "iqn.2010-x:vol1"]>
   (<["target_lun" := PInt 0]> ∅)).

Definition probe_cmd : command :=
  iscsiadm_node (PStr "iqn.2010-x:vol1") (PStr "10.0.0.5:3260") [] [0] 1.

Definition sessions_cmd : command :=
  Command ["iscsiadm"; "-m"; "session"] [0; 1; 21] 1 true.

Definition login_cmd : command :=
  login_of (PStr "iqn.2010-x:vol1") (PStr "10.0.0.5:3260").

Definition startup_cmd : command :=
  startup_of (PStr "iqn.2010-x:vol1") (PStr "10.0.0.5:3260") "automatic" [0].

(** Discovery answers: one iqn on three portals, and three portals with
    an iqn each. *)
Definition shared_iqn : list (atom * pyval) :=
  [(AStr "10.0.0.5:3260", PStr "iqn.2010-x:vol1");
   (AStr "10.0.0.6:3260", PStr "iqn.2010-x:vol1");
   (AStr "10.0.0.7:3260", PStr "iqn.2010-x:vol1")].

Definition distinct_iqns : list (atom * pyval) :=
  [(AStr "10.0.0.5:3260", PStr "iqn.2010-x:vol1");
   (AStr "10.0.0.6:3260", PStr "iqn.2010-x:vol2");
   (AStr "10.0.0.7:3260", PStr "iqn.2010-x:vol3")].

Definition one_pair : list (atom * pyval) :=
  [(AStr "10.0.0.5:3260", PStr "iqn.2010-x:vol1")].

(** An iSCSI host without sessions where every command succeeds. *)
Definition quiet_fake : fake :=
  Fake None [] [] [] [] no_output no_failure.

(** Two LUNs of one target: the node of LUN 1 is still there and in use
    while LUN 0 is disconnected. *)
Definition lun1_node : string :=
  "/dev/disk/by-path/ip-10.0.0.5:3260-iscsi-iqn.2010-x:vol1-lun-1".

Definition lun0_node : string :=
  "/dev/disk/by-path/ip-10.0.0.5:3260-iscsi-iqn.2010-x:vol1-lun-0".

Definition two_luns_fake : fake :=
  Fake (Some 0%nat) [lun1_node] [] [lun1_node; "/dev/sda"] [] no_output
       no_failure.

Definition manual_cmd : command :=
  startup_of (PStr "iqn.2010-x:vol1") (PStr "10.0.0.5:3260") "manual"
             [0; 21; 255].

Definition logout_cmd : command :=
  logout_of (PStr "iqn.2010-x:vol1") (PStr "10.0.0.5:3260").

Definition delete_cmd : command :=
  delete_of (PStr "iqn.2010-x:vol1") (PStr "10.0.0.5:3260").

(** An iSCSI host that lists a session on the target of [iscsi_props]
    (and one on another target). *)
Definition own_session (c : command) : string :=
  if existsb (String.eqb "session") (argv c)
  then "tcp: [1] 10.0.0.9:3260,1 iqn.2010-x:other" +:+ String PyStr.LF
         "tcp: [3] 10.0.0.5:3260,1 iqn.2010-x:vol1"
  else "".

Definition logged_in_fake : fake :=
  Fake None [] [] [] [] own_session no_failure.

(** An iSCSI host that lists a session on each of the three portals of
    [shared_iqn]. *)
Definition three_sessions (c : command) : string :=
  if existsb (String.eqb "session") (argv c)
  then "tcp: [1] 10.0.0.5:3260,1 iqn.2010-x:vol1" +:+ String PyStr.LF
         ("tcp: [2] 10.0.0.6:3260,1 iqn.2010-x:vol1" +:+ String PyStr.LF
            "tcp: [3] 10.0.0.7:3260,1 iqn.2010-x:vol1")
  else "".

Definition three_sessions_fake : fake :=
  Fake None [] [] [] [] three_sessions no_failure.

(** An iSCSI host where the look-up of the node record of the portal
    10.0.0.6 fails with the exit code 6. *)
Definition second_lookup_fails (c : command) : option Z :=
  if ((length (argv c) =? 7)%nat
      && existsb (String.eqb "10.0.0.6:3260") (argv c))%bool
  then Some 6 else None.

Definition second_lookup_fake : fake :=
  Fake None [] [] [] [] no_output second_lookup_fails.

(** An event that names the portal 10.0.0.7. *)
Definition names_third_portal (e : event) : bool :=
  match e with
  | Exec c => existsb (String.eqb "10.0.0.7:3260") (argv c)
  | _ => false
  end.

(** Constructors for examples: one that answers the class and the keyword
    arguments it was called with, and one where the constructor of
    [RemoteFsConnector] fails as its RemoteFsClient does without a mount
    point base. *)
Definition recording {f : fake} (cls : Factory.connector_class)
    (kwargs : gmap string pyval)
  : @M (fake_host f) (Factory.connector_class * gmap string pyval) :=
  ret (cls, kwargs).

Definition no_mount_point {f : fake} (cls : Factory.connector_class)
    (kwargs : gmap string pyval)
  : @M (fake_host f) (Factory.connector_class * gmap string pyval) :=
  match cls with
  | Factory.RemoteFsConnector => raise (OtherError "InvalidParameterValue")
  | _ => ret (cls, kwargs)
  end.

Definition no_kwargs : gmap string pyval := ∅.

End Inputs.

Import Inputs.

(** ** More concrete inputs *)

Module MoreInputs.

Definition no_props : gmap string pyval := ∅.

Definition portal_only_props : gmap string pyval :=
  <["target_portal" := PStr "10.0.0.5:3260"]> ∅.

(** The plural fields, with a number where the list of luns should be. *)
Definition scalar_luns_props : gmap string pyval :=
  <["target_portals" := PList [AStr "10.0.0.5:3260"]]>
  (<["target_iqns" := PList [AStr "iqn.2010-x:vol1"]]>
   (<["target_luns" := PInt 1]> ∅)).

(** An iSCSI host where the look-up of a node record (the command line
    of seven words) fails with the exit code [code]. *)
Definition probe_fails (code : Z) (c : command) : option Z :=
  if (length (argv c) =? 7)%nat then Some code else None.

Definition no_record_fake (code : Z) : fake :=
  Fake None [] [] [] [] no_output (probe_fails code).

(** An iSCSI host where the discovery prints two targets, and one where
    every discovery fails with the exit code [code]. *)
Definition discovery_output (c : command) : string :=
  if existsb (String.eqb "discovery") (argv c)
  then "10.0.0.5:3260,1 iqn.2010-x:vol1" +:+ String PyStr.LF
         ("not a target" +:+ String PyStr.LF
            "10.0.0.6:3260,1 iqn.2010-x:vol2")
  else "".

Definition discovery_fake : fake :=
  Fake None [] [] [] [] discovery_output no_failure.



End MoreInputs.

Import MoreInputs.

(** ** More notions used in the statements *)

Module MoreNotions.

Definition not_a_sleep (e : event) : Prop := forall secs : Z, e <> Sleep secs.

(** The portals of [targets] are tried in order from the state [st], every
    one answers False, and the last attempt ends in [st']. *)
Fixpoint all_refused `{H : Host} (self : ISCSI.connector)
    (targets : list (gmap string pyval)) (st st' : State) : Prop :=
  match targets with
  | [] => st = st'
  | props :: rest =>
      exists st1 : State,
        ISCSI._connect_to_iscsi_portal self props st = (Returns false, st1)
        /\ all_refused self rest st1 st'
  end.

(** iscsiadm -m node -T {iqn} -p {portal} --interface {transport} --op new *)
Definition new_node_of (transport : string) (iqn portal : pyval) : command :=
  iscsiadm_node iqn portal ["--interface"; transport; "--op"; "new"] [0] 1.

(** One pass of the waiting loop of [connect_volume], up to the increment
    of [tries]: the rescan, and the candidate paths looked up again on a
    later pass without multipath. *)
Definition rescan_step `{H : Host} (self : ISCSI.connector)
    (target_props : gmap string pyval) (tries : Z)
    (host_devices : list string) : M (list string) :=
  if ISCSI.use_multipath self then
    ISCSI._rescan_iscsi;;; ret host_devices
  else
    host_devices <-
      (if negb (tries =? 0) then ISCSI._get_device_path self target_props
       else ret host_devices);;
    ISCSI._run_iscsiadm target_props ["--rescan"] [0] 1 true;;;
    ret host_devices.

(** iscsiadm -m discovery -t sendtargets -p {portal} *)
Definition discovery_of (portal : pyval) : command :=
  Command ["iscsiadm"; "-m"; "discovery"; "-t"; "sendtargets";
           "-p"; py_str portal] [0; 255] 1 true.

(** The portal and the iqn of a line of two words. *)
Definition pair_of_words (data : list string) : atom * pyval :=
  (AStr (nth 0 data ""), PStr (nth 1 data "")).

(** The targets a discovery output names. *)
Definition discovered (out : string) : list (atom * pyval) :=
  map pair_of_words
      (List.filter is_target_line (map PyStr.split (PyStr.splitlines out))).

(** A component of an HBA's device path that names a host or a network
    interface. *)
Definition host_like (value : string) : bool :=
  PyStr.startswith value "net" || PyStr.startswith value "host".

(** [n] rounds of the Fibre Channel discovery: a rescan of the hosts and
    the two seconds to the next look. *)
Fixpoint fc_rounds (hbas : list hba) (n : nat) : list event :=
  match n with
  | O => []
  | S n' => RescanHosts hbas :: Sleep 2 :: fc_rounds hbas n'
  end.

(** The device the Fibre Channel connector hands out with multipath: the
    multipath device of the wwn, else the one of the device name, else the
    single path. *)
Definition fc_multipath_choice `{H : Host} (w : World)
    (host_device wwn : string) : string * bool :=
  match find_multipath_device_path w wwn with
  | Some path => (path, true)
  | None =>
      match find_multipath_device w (realpath w host_device) with
      | Some device => (device, true)
      | None => (host_device, false)
      end
  end.

Definition fc_device_info (wwn : string) (choice : string * bool)
  : gmap string pyval :=
  <["path" := PStr (fst choice)]>
    (if snd choice
     then <["multipath_id" := PStr wwn]> {["type" := PStr "block"]}
     else {["type" := PStr "block"]}).

End MoreNotions.

Import MoreNotions.

(** ** More Python string primitives *)

Module PyStrMore.

Import PyStr.

(** [s.lstrip()], [s.rstrip()] and [s.strip()]: white space is removed at
    the ends. *)
Fixpoint lstrip (s : string) : string :=
  match s with
  | String c rest => if isspace c then lstrip rest else s
  | EmptyString => s
  end.

Fixpoint rstrip (s : string) : string :=
  match s with
  | EmptyString => EmptyString
  | String c rest =>
      match rstrip rest with
      | EmptyString => if isspace c then EmptyString else String c EmptyString
      | kept => String c kept
      end
  end.

Definition strip (s : string) : string := rstrip (lstrip s).

(** [s.find(c)] for a character: the index of its first occurrence. *)
Fixpoint find_char (c : ascii) (s : string) : option nat :=
  match s with
  | EmptyString => None
  | String d rest =>
      if Ascii.eqb d c then Some O else option_map S (find_char c rest)
  end.

(** [s[n:]] *)
Fixpoint drop (n : nat) (s : string) : string :=
  match n, s with
  | O, _ => s
  | S n', String _ rest => drop n' rest
  | S _, EmptyString => EmptyString
  end.

(** [s[:n]] *)
Fixpoint take (n : nat) (s : string) : string :=
  match n, s with
  | O, _ => EmptyString
  | S n', String c rest => String c (take n' rest)
  | S _, EmptyString => EmptyString
  end.

End PyStrMore.

(** ** The iSCSI connector: the transport and the initiator name *)

Module ISCSIMore.

Import PyStr PyStrMore ISCSI.

Definition supported_transports : list string :=
  ["be2iscsi"; "bnx2i"; "cxgb3i"; "default"; "cxgb4i"; "qla4xxx"; "ocs";
   "iser"].

(** The loop of [_validate_iface_transport] over the lines of the iface
    record, each split into words, and the fall-back after it. *)
Fixpoint scan_iface (transport_iface : string) (lines : list (list string))
  : result string :=
  match lines with
  | [] => Ok "default"
  | data :: rest =>
      first <~ index data 0;;
      if String.eqb first "iface.transport_name" then
        third <~ index data 2;;
        if Factory.str_in third supported_transports then Ok transport_iface
        else scan_iface transport_iface rest
      else scan_iface transport_iface rest
  end.

(** The loop of [get_initiator] over the lines of the file; [None] when
    it ends without a [return]. *)
Fixpoint initiator_name_in (lines : list string) : result (option string) :=
  match lines with
  | [] => Ok None
  | l :: rest =>
      if startswith l "InitiatorName=" then
        match find_char "=" l with
        | Some i => Ok (Some (strip (drop (i + 1) l)))
        | None => Raise (ValueError "substring not found")
        end
      else initiator_name_in rest
  end.

Section Connector.
Context {H : Host}.

Definition _validate_iface_transport (transport_iface : string) : M string :=
  if Factory.str_in transport_iface ["default"; "iser"] then
    ret transport_iface
  else
    r <- _run_iscsiadm_bare ["-m"; "iface"; "-I"; transport_iface] [0; 2; 6];;
    let out := or_empty (fst r) in
    lift (scan_iface transport_iface (map split (splitlines out))).

Definition get_initiator : M (option string) :=
  let file_path := "/etc/iscsi/initiatorname.iscsi" in
  catch
    (r <- _execute (Command ["cat"; file_path] [0] 1 true);;
     match fst r with
     | Some lines => lift (initiator_name_in (split_on LF lines))
     | None => raise AttributeError
     end)
    (fun e =>
       match e with
       | ProcessExecutionError _ => ret None
       | _ => raise e
       end).

End Connector.

End ISCSIMore.

(** ** The AoE connector *)

Module AoE.

Record connector : Type := Connector { device_scan_attempts : Z }.

Definition _get_aoe_info (connection_properties : gmap string pyval)
  : result (string * string) :=
  shelf <~ getitem connection_properties "target_shelf";;
  lun <~ getitem connection_properties "target_lun";;
  let aoe_device := "e" +:+ py_str shelf +:+ "." +:+ py_str lun in
  let aoe_path := "/dev/etherd/" +:+ aoe_device in
  Ok (aoe_device, aoe_path).

Section Connector.
Context {H : Host}.
Variable self : connector.

Definition _aoe_discover : M unit :=
  _execute (Command ["aoe-discover"] [0] 1 true);;; ret tt.

Definition _aoe_revalidate (aoe_device : string) : M unit :=
  _execute (Command ["aoe-revalidate"; aoe_device] [0] 1 true);;; ret tt.

Definition _aoe_flush (aoe_device : string) : M unit :=
  _execute (Command ["aoe-flush"; aoe_device] [0] 1 true);;; ret tt.

(** [_wait_for_discovery], called again and again by the looping call
    (two seconds apart) until the path is there or the attempts are used
    up.  It answers the number of rediscoveries.  The exception carries
    the path; the list of one path stands for it. *)
Fixpoint _wait_for_discovery (fuel : nat) (aoe_path : string) (tries : Z)
  : M Z :=
  found <- observe (fun w => path_exists w aoe_path);;
  if found : bool then ret tries
  else if tries >=? device_scan_attempts self then
    raise (VolumeDeviceNotFound [aoe_path])
  else
    match fuel with
    | O => diverge
    | S fuel' =>
        _aoe_discover;;;
        time_sleep 2;;;
        _wait_for_discovery fuel' aoe_path (tries + 1)
    end.

Definition wait_fuel : nat := S (Z.to_nat (device_scan_attempts self)).

Definition connect_volume (connection_properties : gmap string pyval)
  : M (gmap string pyval) :=
  info <- lift (_get_aoe_info connection_properties);;
  let aoe_device := fst info in
  let aoe_path := snd info in
  let device_info : gmap string pyval :=
    <["type" := PStr "block"]>
      (<["device" := PStr aoe_device]> {["path" := PStr aoe_path]}) in
  found <- observe (fun w => path_exists w aoe_path);;
  (if found : bool then _aoe_revalidate aoe_device else _aoe_discover);;;
  _wait_for_discovery wait_fuel aoe_path 0;;;
  ret device_info.

Definition disconnect_volume (connection_properties : gmap string pyval)
  : M unit :=
  info <- lift (_get_aoe_info connection_properties);;
  let aoe_device := fst info in
  let aoe_path := snd info in
  found <- observe (fun w => path_exists w aoe_path);;
  if found : bool then _aoe_flush aoe_device else ret tt.

End Connector.

End AoE.

(** ** The Huawei SDSHypervisor connector *)

Module HuaweiStorHyper.

Import PyStr PyStrMore.

Definition attached_success_code : Z := 0.
Definition has_been_attached_code : Z := 50151401.
Definition attach_mnid_done_code : Z := 50151405.
Definition vbs_unnormal_code : Z := 50151209.
Definition not_mount_node_code : Z := 50155007.

(** [cli_path] and [iscliexist] as the constructor leaves them. *)
Record connector : Type := Connector {
  cli_path : string;
  iscliexist : bool
}.

(** [exception.BrickException] *)
Definition BrickException : exn := OtherError "BrickException".

Fixpoint digits_value (acc : Z) (s : string) : option Z :=
  match s with
  | EmptyString => Some acc
  | String c rest =>
      if ISCSI.is_digit c
      then digits_value (10 * acc + (Z.of_nat (nat_of_ascii c) - 48)) rest
      else None
  end.

(** [int(s)] for a string: white space around the numeral is skipped, a
    sign may come first, and the rest must be decimal digits, at least
    one.  (The L suffix Python 2 accepts after a numeral that does not fit
    a machine word is not modelled; the message is exact for strings whose
    [repr] is the string between single quotes.) *)
Definition py_int (s : string) : result Z :=
  let t := strip s in
  let signed :=
    match t with
    | String "-"%char rest => (true, rest)
    | String "+"%char rest => (false, rest)
    | _ => (false, t)
    end in
  let invalid :=
    ValueError ("invalid literal for int() with base 10: '" +:+ s +:+ "'") in
  match snd signed with
  | EmptyString => Raise invalid
  | body =>
      match digits_value 0 body with
      | Some n => Ok (if fst signed : bool then - n else n)
      | None => Raise invalid
      end
  end.

(** The result of an analysis: [None], or a dict of strings. *)
Definition analysis : Type := option (gmap string string).

Definition _analyze_output (out : option string) : analysis :=
  match out with
  | Some text =>
      if negb (String.eqb text "") then
        Some
          (fold_left
             (fun (analyse_result : gmap string string) line =>
                match find_char "=" line with
                | Some i =>
                    let key := take i line in
                    let val := drop (i + 1) line in
                    if Factory.str_in key ["ret_code"; "ret_desc"; "dev_addr"]
                    then <[key := val]> analyse_result
                    else analyse_result
                | None => analyse_result
                end)
             (split_on LF text) ∅)
      else None
  | None => None
  end.

(** [not out] *)
Definition falsy (out : analysis) : bool :=
  match out with
  | None => true
  | Some d => bool_decide (d = ∅)
  end.

(** [out[key]] *)
Definition subscript (out : analysis) (key : string) : result string :=
  match out with
  | None => Raise TypeError
  | Some d =>
      match d !! key with
      | Some v => Ok v
      | None => Raise (KeyError key)
      end
  end.

(** [not out or int(out['ret_code']) not in accepted] *)
Definition rejected (out : analysis) (accepted : list Z) : result bool :=
  if falsy out then Ok true
  else
    code <~ subscript out "ret_code";;
    n <~ py_int code;;
    Ok (negb (existsb (Z.eqb n) accepted)).

Section Connector.
Context {H : Host}.
Variable self : connector.

(** The command is run with [run_as_root=False]; the command record does
    not keep that flag. *)
Definition _cli_cmd (method : string) (volume_name : pyval) : M analysis :=
  if negb (iscliexist self) then raise BrickException
  else if negb (truthy (PStr method))
          || match volume_name with Atom ANone => true | _ => false end
  then ret None
  else
    r <- _execute (Command [cli_path self; "-c"; method; "-v";
                            py_str volume_name] [0] 1 true);;
    ret (_analyze_output (fst r)).

Definition _attach_volume (volume_name : pyval) : M analysis :=
  _cli_cmd "attach" volume_name.

Definition _detach_volume (volume_name : pyval) : M analysis :=
  _cli_cmd "detach" volume_name.

Definition _query_attached_volume (volume_name : pyval) : M analysis :=
  _cli_cmd "querydev" volume_name.

Definition connect_volume (connection_properties : gmap string pyval)
  : M (gmap string pyval) :=
  volume_id <- lift (getitem connection_properties "volume_id");;
  out <- _attach_volume volume_id;;
  failed <- lift (rejected out [attached_success_code;
                                has_been_attached_code;
                                attach_mnid_done_code]);;
  if failed : bool then
    lift (subscript out "ret_code");;;
    raise BrickException
  else
    volume_id <- lift (getitem connection_properties "volume_id");;
    out <- _query_attached_volume volume_id;;
    failed <- lift (if falsy out then Ok true
                    else
                      code <~ subscript out "ret_code";;
                      n <~ py_int code;;
                      Ok (negb (n =? 0)));;
    if failed : bool then raise BrickException
    else
      dev_addr <- lift (subscript out "dev_addr");;
      ret (<["type" := PStr "block"]> {["path" := PStr dev_addr]}).

Definition disconnect_volume (connection_properties : gmap string pyval)
  : M unit :=
  volume_id <- lift (getitem connection_properties "volume_id");;
  out <- _detach_volume volume_id;;
  failed <- lift (rejected out [attached_success_code;
                                vbs_unnormal_code;
                                not_mount_node_code]);;
  if failed : bool then
    lift (subscript out "ret_code");;;
    raise BrickException
  else ret tt.

Definition is_volume_connected (volume_name : pyval) : M bool :=
  out <- _query_attached_volume volume_name;;
  if negb (falsy out) then
    code <- lift (subscript out "ret_code");;
    n <- lift (py_int code);;
    ret (n =? 0)
  else ret false.

End Connector.

End HuaweiStorHyper.

(** ** Notions and inputs for the further connectors *)

Module ConnectorNotions.

(** iscsiadm -m iface -I {iface} *)
Definition iface_of (transport_iface : string) : command :=
  Command ["iscsiadm"; "-m"; "iface"; "-I"; transport_iface] [0; 2; 6] 1 true.

(** A line of an iface record that names a supported transport, and a
    line the loop cannot read: an empty one, or the transport name without
    a third word. *)
Definition iface_line_accepts (data : list string) : bool :=
  match data with
  | first :: _ :: third :: _ =>
      String.eqb first "iface.transport_name"
      && Factory.str_in third ISCSIMore.supported_transports
  | _ => false
  end.

Definition iface_line_breaks (data : list string) : bool :=
  match data with
  | [] => true
  | first :: rest =>
      String.eqb first "iface.transport_name" && (length rest <? 2)%nat
  end.

(** cat /etc/iscsi/initiatorname.iscsi *)
Definition cat_initiatorname : command :=
  Command ["cat"; "/etc/iscsi/initiatorname.iscsi"] [0] 1 true.

Definition aoe_discover : command := Command ["aoe-discover"] [0] 1 true.

Definition aoe_revalidate (aoe_device : string) : command :=
  Command ["aoe-revalidate"; aoe_device] [0] 1 true.

Definition aoe_flush (aoe_device : string) : command :=
  Command ["aoe-flush"; aoe_device] [0] 1 true.

(** [n] rounds of the AoE waiting loop: a rediscovery and the two
    seconds to the next look. *)
Fixpoint aoe_rounds (n : nat) : list event :=
  match n with
  | O => []
  | S n' => Exec aoe_discover :: Sleep 2 :: aoe_rounds n'
  end.

Definition aoe_device_info (aoe_device aoe_path : string)
  : gmap string pyval :=
  <["type" := PStr "block"]>
    (<["device" := PStr aoe_device]> {["path" := PStr aoe_path]}).

End ConnectorNotions.

Import ConnectorNotions.

Module ConnectorInputs.

(** An iface record as iscsiadm prints it. *)
Definition iface_record (c : command) : string :=
  "# BEGIN RECORD 2.0-873" +:+ String PyStr.LF
    ("iface.iscsi_ifacename = bnx2i.00:05:b5:d2:a0:c2" +:+ String PyStr.LF
       ("iface.transport_name = bnx2i" +:+ String PyStr.LF
          "# END RECORD")).

Definition iface_fake : fake :=
  Fake None [] [] [] [] iface_record no_failure.

(** The initiator name file. *)
Definition initiatorname_file (c : command) : string :=
  "## DO NOT EDIT OR REMOVE THIS FILE!" +:+ String PyStr.LF
    ("InitiatorName=iqn.1993-08.org.debian:01:5e1f5b2a7c " +:+ String PyStr.LF
       "").

Definition initiator_fake : fake :=
  Fake None [] [] [] [] initiatorname_file no_failure.

Definition aoe_props : gmap string pyval :=
  <["target_shelf" := PInt 7]> (<["target_lun" := PInt 1]> ∅).

End ConnectorInputs.

Import ConnectorInputs.

(** ** Notions and inputs for the Huawei connector *)

Module HuaweiNotions.

Import PyStr PyStrMore HuaweiStorHyper.

(** What stands before the first "=" of a line, and what stands after
    it. *)
Definition line_key (line : string) : option string :=
  option_map (fun i => take i line) (find_char "=" line).

Definition line_val (line : string) : string :=
  match find_char "=" line with
  | Some i => drop (i + 1) line
  | None => ""
  end.

(** The value an output reports for [key]: that of its last line
    "key=value". *)
Definition reported (key text : string) : option string :=
  option_map line_val
    (List.find (fun line => bool_decide (line_key line = Some key))
               (rev (split_on LF text))).

(** {cli_path} -c {method} -v {volume} *)
Definition sds_cli (self : connector) (method : string) (volume : pyval)
  : command :=
  Command [cli_path self; "-c"; method; "-v"; py_str volume] [0] 1 true.

Definition huawei_device_info (dev_addr : string) : gmap string pyval :=
  <["type" := PStr "block"]> {["path" := PStr dev_addr]}.

(** Inputs: a CLI that answers every command with the code 0 and a device
    address, and one that answers with the code [code] alone. *)
Definition sds : connector := Connector "/usr/local/bin/sds/sds_cli" true.

Definition volume_props : gmap string pyval :=
  <["volume_id" := PStr "volume-0001"]> ∅.

Definition sds_ok (c : command) : string :=
  "ret_code=0" +:+ String LF ("dev_addr=/dev/vdb" +:+ String LF "").

Definition sds_ok_fake : fake := Fake None [] [] [] [] sds_ok no_failure.

Definition sds_code (code : string) (c : command) : string :=
  "ret_code=" +:+ code.

Definition sds_code_fake (code : string) : fake :=
  Fake None [] [] [] [] (sds_code code) no_failure.

End HuaweiNotions.

Import HuaweiNotions.

(** ** The StorPool connector *)

Module StorPool.

(** [exception.BrickException] *)
Definition BrickException : exn := OtherError "BrickException".

(** What the connector asks of the StorPool attachment database
    ([spopenstack.AttachDB], the object in [self._attach]). *)
Inductive call : Type :=
| VolumeName (volume_id : pyval)
| Add (req_id : string) (req : gmap string pyval)
| Sync (req_id : string) (detached : option string)
| Remove (req_id : string).

(** The attachment database is a collaborator of the connector: what its
    methods answer, and what they do to it, is left to it.  [volumeName]
    answers the name of a volume as a string. *)
Class AttachDB : Type := {
  Db : Type;
  volumeName : pyval -> Db -> result string * Db;
  add : string -> gmap string pyval -> Db -> result unit * Db;
  sync : string -> option string -> Db -> result unit * Db;
  remove : string -> Db -> result unit * Db
}.

Section Monad.
Context {D : AttachDB}.

(** The database, and the calls made to it so far. *)
Record state : Type := MkState { db : Db; calls : list call }.

Definition A (X : Type) : Type := state -> result X * state.

Definition ret {X} (x : X) : A X := fun st => (Ok x, st).

Definition raise {X} (e : exn) : A X := fun st => (Raise e, st).

Definition bind {X Y} (m : A X) (k : X -> A Y) : A Y :=
  fun st =>
    match m st with
    | (Ok x, st') => k x st'
    | (Raise e, st') => (Raise e, st')
    end.

(** One call of a method of the database. *)
Definition ask {X} (c : call) (f : Db -> result X * Db) : A X :=
  fun st =>
    let (r, d) := f (db st) in (r, MkState d (calls st ++ [c])).

End Monad.

Notation "x <-- m ;; k" := (bind m (fun x => k))
  (at level 100, m at next level, right associativity).
Notation "m ;;;; k" := (bind m (fun _ => k))
  (at level 100, right associativity).

(** [x is None] *)
Definition is_none (v : pyval) : bool :=
  match v with
  | Atom ANone => true
  | _ => false
  end.

(** ['brick-%s-%s' % (client_id, volume_id)] *)
Definition request_id (client_id volume_id : pyval) : string :=
  "brick-" +:+ py_str client_id +:+ "-" +:+ py_str volume_id.

Section Connector.
Context {D : AttachDB}.

Definition connect_volume (connection_properties : gmap string pyval)
  : A (gmap string pyval) :=
  let client_id := get_default connection_properties "client_id" (Atom ANone) in
  if is_none client_id then raise BrickException
  else
    let volume_id := get_default connection_properties "volume" (Atom ANone) in
    if is_none volume_id then raise BrickException
    else
      volume <-- ask (VolumeName volume_id) (volumeName volume_id);;
      let mode :=
        get_default connection_properties "access_mode" (Atom ANone) in
      if is_none mode
         || negb (py_eqb mode (PStr "rw") || py_eqb mode (PStr "ro"))
      then raise BrickException
      else
        let req_id := request_id client_id volume_id in
        ask (Add req_id
               (<["volume" := PStr volume]>
                (<["type" := PStr "brick"]>
                 (<["id" := PStr req_id]>
                  (<["rights" := PInt (if py_eqb mode (PStr "ro")
                                       then 1 else 2)]>
                   {["volsnap" := Atom (ABool false)]})))))
            (add req_id
               (<["volume" := PStr volume]>
                (<["type" := PStr "brick"]>
                 (<["id" := PStr req_id]>
                  (<["rights" := PInt (if py_eqb mode (PStr "ro")
                                       then 1 else 2)]>
                   {["volsnap" := Atom (ABool false)]})))));;;;
        ask (Sync req_id None) (sync req_id None);;;;
        ret (<["type" := PStr "block"]>
               {["path" := PStr ("/dev/storpool/" +:+ volume)]}).

Definition disconnect_volume (connection_properties : gmap string pyval)
  : A unit :=
  let client_id := get_default connection_properties "client_id" (Atom ANone) in
  if is_none client_id then raise BrickException
  else
    let volume_id := get_default connection_properties "volume" (Atom ANone) in
    if is_none volume_id then raise BrickException
    else
      volume <-- ask (VolumeName volume_id) (volumeName volume_id);;
      let req_id := request_id client_id volume_id in
      ask (Sync req_id (Some volume)) (sync req_id (Some volume));;;;
      ask (Remove req_id) (remove req_id).

End Connector.

End StorPool.

(** ** Notions and inputs for the StorPool connector *)

Module StorPoolNotions.

Import StorPool.

(** The request [connect_volume] files under [req_id]. *)
Definition attach_request (volume req_id : string) (rights : Z)
  : gmap string pyval :=
  <["volume" := PStr volume]>
  (<["type" := PStr "brick"]>
   (<["id" := PStr req_id]>
    (<["rights" := PInt rights]> {["volsnap" := Atom (ABool false)]}))).

Definition storpool_device_info (volume : string) : gmap string pyval :=
  <["type" := PStr "block"]> {["path" := PStr ("/dev/storpool/" +:+ volume)]}.

(** A value the properties give: there, and not None. *)
Definition given (props : gmap string pyval) (key : string) (v : pyval)
  : Prop :=
  props !! key = Some v /\ v <> Atom ANone.

(** A database for examples: the requests by their id; the name of the
    volume [id] is os--volume-{id}; a request cannot be removed unless it
    is there. *)
Definition requests_db : AttachDB := {|
  Db := gmap string (gmap string pyval);
  volumeName := fun volume_id d => (Ok ("os--volume-" +:+ py_str volume_id), d);
  add := fun req_id req d => (Ok tt, <[req_id := req]> d);
  sync := fun _ _ d => (Ok tt, d);
  remove := fun req_id d =>
              match d !! req_id with
              | Some _ => (Ok tt, delete req_id d)
              | None => (Raise (KeyError req_id), d)
              end
|}.

Definition no_requests : @state requests_db := @MkState requests_db ∅ [].

Definition storpool_props (mode : string) : gmap string pyval :=
  <["client_id" := PInt 7]>
  (<["volume" := PStr "0001"]> (<["access_mode" := PStr mode]> ∅)).

Definition no_mode_props : gmap string pyval :=
  <["client_id" := PInt 7]> (<["volume" := PStr "0001"]> ∅).

Definition no_client_props : gmap string pyval :=
  <["volume" := PStr "0001"]> ∅.

Definition none_volume_props : gmap string pyval :=
  <["client_id" := PInt 7]> (<["volume" := Atom ANone]> ∅).

(** The database after the volume "0001" was connected read-only for the
    client 7. *)
Definition one_request : gmap string (gmap string pyval) :=
  <["brick-7-0001" := attach_request "os--volume-0001" "brick-7-0001" 1]> ∅.

End StorPoolNotions.

Import StorPoolNotions.

(** ** The RBD connector *)

Module RBDConnector.

(** [exception.BrickException] *)
Definition BrickException : exn := OtherError "BrickException".

(** [pool, volume = l]: the unpacking of a list into two names (the
    messages are those of Python 2). *)
Definition unpack_two (l : list string) : result (string * string) :=
  match l with
  | [] => Raise (ValueError "need more than 0 values to unpack")
  | [_] => Raise (ValueError "need more than 1 value to unpack")
  | [pool; volume] => Ok (pool, volume)
  | _ => Raise (ValueError "too many values to unpack")
  end.

(** The body of the [try]: the user, and the pool and the volume of the
    name. *)
Definition user_pool_volume (connection_properties : gmap string pyval)
  : result (pyval * (string * string)) :=
  user <~ getitem connection_properties "auth_username";;
  name <~ getitem connection_properties "name";;
  match name with
  | Atom (AStr s) =>
      pool_volume <~ unpack_two (PyStr.split_on "/" s);;
      Ok (user, pool_volume)
  | _ => Raise AttributeError
  end.

Section Connector.

(** The Ceph cluster, and the handle of an open volume: [open_volume user
    pool volume] stands for the three constructors of [linuxrbd], what
    [RBDVolumeIOWrapper(RBDVolume(RBDClient(user, pool), volume))]
    answers or raises. *)
Variable cluster : Type.
Variable handle : Type.
Variable open_volume :
  pyval -> string -> string -> cluster -> result handle * cluster.

(** The device information is the dict with the handle as its "path". *)
Definition connect_volume (connection_properties : gmap string pyval)
    (c : cluster) : result handle * cluster :=
  match
    match user_pool_volume connection_properties with
    | Raise IndexError => Raise BrickException
    | r => r
    end
  with
  | Ok (user, (pool, volume)) => open_volume user pool volume c
  | Raise e => (Raise e, c)
  end.

End Connector.

End RBDConnector.

(** ** Notions and inputs for the RBD connector *)

Module RBDNotions.

(** How often the character [c] occurs in [s]. *)
Fixpoint count_char (c : ascii) (s : string) : nat :=
  match s with
  | EmptyString => O
  | String x rest =>
      if Ascii.eqb x c then S (count_char c rest) else count_char c rest
  end.

(** A cluster for examples: opening a volume answers its user, pool and
    name, and counts the volumes opened so far. *)
Definition counting (user : pyval) (pool volume : string) (opened : nat)
  : result (pyval * string * string) * nat :=
  (Ok (user, pool, volume), S opened).

Definition rbd_props (name : pyval) : gmap string pyval :=
  <["auth_username" := PStr "cinder"]> (<["name" := name]> ∅).

Definition nameless_props : gmap string pyval :=
  <["auth_username" := PStr "cinder"]> ∅.

Definition userless_props : gmap string pyval :=
  <["name" := PStr "volumes/volume-0001"]> ∅.

End RBDNotions.

Import RBDNotions.

(** * Properties *)

(** ** String primitives *)

Module PyStrFacts.

Import PyStr.

Example splitlines_ex :
  splitlines ("a b" +:+ String CR (String LF (String LF "c")))
  = ["a b"; ""; "c"].
Proof. reflexivity. Qed.

Example split_ex :
  split "  10.0.0.5:3260,1   iqn.2010-x:vol1 "
  = ["10.0.0.5:3260,1"; "iqn.2010-x:vol1"].
Proof. reflexivity. Qed.

Example split_on_ex : split_on " " "tcp: [1]  a" = ["tcp:"; "[1]"; ""; "a"].
Proof. reflexivity. Qed.

Example format_0x_ex :
  format_0x 4 255 = "00ff" /\ format_0x 4 (-1) = "-001" /\
  format_0x 4 1048576 = "100000" /\ format_0x 8 0 = "00000000".
Proof. repeat split; reflexivity. Qed.

Lemma zeros_push (k : nat) (acc : string) :
  zeros k (String "0"%char acc) = String "0"%char (zeros k acc).
Proof. induction k as [|k IH]; simpl; [reflexivity | now rewrite IH]. Qed.

Lemma hex_fixed_zero (k : nat) (acc : string) :
  hex_fixed k 0 acc = zeros k acc.
Proof.
  revert acc; induction k as [|k IH]; intros acc; simpl; [reflexivity|].
  change (hex_digit 0) with "0"%char.
  now rewrite IH, zeros_push.
Qed.

Lemma length_zeros (k : nat) (acc : string) :
  String.length (zeros k acc) = (k + String.length acc)%nat.
Proof. induction k as [|k IH]; simpl; [reflexivity | now rewrite IH]. Qed.

Lemma length_hex_fixed (k : nat) (n : Z) (acc : string) :
  String.length (hex_fixed k n acc) = (k + String.length acc)%nat.
Proof.
  revert n acc; induction k as [|k IH]; intros n acc; simpl; [reflexivity|].
  rewrite IH; simpl; lia.
Qed.

(** Padding a [j]-digit numeral up to [k] digits. *)
Lemma hex_fixed_pad (j : nat) :
  forall (k : nat) (n : Z) (acc : string),
    (j <= k)%nat -> 0 <= n < 16 ^ Z.of_nat j ->
    hex_fixed k n acc = zeros (k - j) (hex_fixed j n acc).
Proof.
  induction j as [|j IH]; intros k n acc Hjk Hn.
  - assert (n = 0) by (simpl in Hn; lia); subst n.
    rewrite Nat.sub_0_r; simpl. apply hex_fixed_zero.
  - destruct k as [|k]; [lia|].
    simpl. apply IH; [lia|].
    rewrite Nat2Z.inj_succ, Z.pow_succ_r in Hn by lia.
    split; [apply Z.div_pos; lia | apply Z.div_lt_upper_bound; lia].
Qed.

(** With enough fuel the digit loop writes the shortest numeral. *)
Lemma hex_digits_fixed (fuel : nat) :
  forall (n : Z) (acc : string),
    (1 <= fuel)%nat -> 0 <= n < 16 ^ Z.of_nat fuel ->
    exists j : nat,
      (1 <= j <= fuel)%nat /\
      hex_digits fuel n acc = hex_fixed j n acc /\
      n < 16 ^ Z.of_nat j /\
      (j = 1%nat \/ 16 ^ Z.of_nat (j - 1) <= n).
Proof.
  induction fuel as [|fuel IH]; intros n acc Hf Hn; [lia|].
  simpl. destruct (n <? 16) eqn:Hlt.
  - apply Z.ltb_lt in Hlt. exists 1%nat. simpl. repeat split; lia.
  - apply Z.ltb_ge in Hlt.
    rewrite Nat2Z.inj_succ, Z.pow_succ_r in Hn by lia.
    destruct fuel as [|fuel]; [simpl in Hn; lia|].
    destruct (IH (n / 16) (String (hex_digit (n mod 16)) acc)) as
      (j & Hj & Heq & Hub & Hlb).
    + lia.
    + split; [apply Z.div_pos; lia | apply Z.div_lt_upper_bound; lia].
    + exists (S j). rewrite Heq. repeat split; try lia.
      * rewrite Nat2Z.inj_succ, Z.pow_succ_r by lia.
        pose proof (Z.div_mod n 16 ltac:(lia)) as Hdm.
        pose proof (Z.mod_pos_bound n 16 ltac:(lia)). lia.
      * right. replace (S j - 1)%nat with j by lia.
        destruct Hlb as [->|Hlb]; [simpl; lia|].
        replace (Z.of_nat j) with (Z.succ (Z.of_nat (j - 1))) by lia.
        rewrite Z.pow_succ_r by lia.
        pose proof (Z.div_mod n 16 ltac:(lia)) as Hdm.
        pose proof (Z.mod_pos_bound n 16 ltac:(lia)). lia.
Qed.

Lemma to_hex_fuel (n : Z) :
  0 <= n -> n < 16 ^ Z.of_nat (S (Z.to_nat (Z.log2 n))).
Proof.
  intros Hn. rewrite Nat2Z.inj_succ, Z2Nat.id by apply Z.log2_nonneg.
  destruct (Z.eq_dec n 0) as [->|Hne]; [reflexivity|].
  pose proof (Z.log2_spec n ltac:(lia)) as [_ Hub].
  eapply Z.lt_le_trans; [exact Hub|].
  apply Z.pow_le_mono_l. lia.
Qed.

(** Zero-padded formatting of a number that fits in [k] digits. *)
Lemma format_0x_fixed (k : nat) (n : Z) :
  (1 <= k)%nat -> 0 <= n < 16 ^ Z.of_nat k ->
  format_0x k n = hex_fixed k n "".
Proof.
  intros Hk Hn. unfold format_0x.
  destruct (n <? 0) eqn:Hneg; [apply Z.ltb_lt in Hneg; lia|].
  unfold zfill, to_hex.
  destruct (hex_digits_fixed (S (Z.to_nat (Z.log2 n))) n "") as
    (j & Hj & Heq & Hub & Hlb).
  - lia.
  - split; [lia | apply to_hex_fuel; lia].
  - rewrite Heq, length_hex_fixed. simpl String.length.
    rewrite Nat.add_0_r. symmetry. apply hex_fixed_pad; [|lia].
    destruct Hlb as [->|Hlb].
    + lia.
    + assert (16 ^ Z.of_nat (j - 1) < 16 ^ Z.of_nat k) as Hpow by lia.
      apply Z.pow_lt_mono_r_iff in Hpow; lia.
Qed.

End PyStrFacts.

(** ** The S390X LUN string *)

Module S390XFacts.

Import PyStr PyStrFacts FibreChannelS390X.

Lemma hex_digit_value_digit (d : Z) :
  0 <= d < 16 -> hex_digit_value (hex_digit d) = d.
Proof.
  intros Hd.
  assert (d = 0 \/ d = 1 \/ d = 2 \/ d = 3 \/ d = 4 \/ d = 5 \/ d = 6 \/
          d = 7 \/ d = 8 \/ d = 9 \/ d = 10 \/ d = 11 \/ d = 12 \/ d = 13 \/
          d = 14 \/ d = 15) as Hcases by lia.
  repeat (destruct Hcases as [->|Hcases]; [reflexivity|]).
  subst d; reflexivity.
Qed.

(** Reading a fixed-width numeral back gives the number it was written
    from. *)
Lemma hex_value_fixed (k : nat) :
  forall (n a : Z) (acc : string),
    hex_value_from a (hex_fixed k n acc)
    = hex_value_from (a * 16 ^ Z.of_nat k + n mod 16 ^ Z.of_nat k) acc.
Proof.
  induction k as [|k IH]; intros n a acc.
  - simpl. rewrite Z.mod_1_r. f_equal. lia.
  - cbn [hex_fixed]. rewrite IH. cbn [hex_value_from].
    rewrite hex_digit_value_digit by (apply Z.mod_pos_bound; lia).
    f_equal. rewrite Nat2Z.inj_succ, Z.pow_succ_r by lia.
    rewrite (Z.rem_mul_r n 16 (16 ^ Z.of_nat k)) by lia. lia.
Qed.

Lemma hex_value_fixed_small (k : nat) (n : Z) :
  0 <= n < 16 ^ Z.of_nat k -> hex_value (hex_fixed k n "") = n.
Proof.
  intros Hn. unfold hex_value. rewrite hex_value_fixed. simpl.
  now apply Z.mod_small.
Qed.

Lemma length_append (s t : string) :
  String.length (s +:+ t) = (String.length s + String.length t)%nat.
Proof. induction s as [|c s IH]; simpl; [reflexivity | now rewrite IH]. Qed.

(** C10. For [0 <= lun <= 0xffff] the S390X LUN string is "0x", the four
    hexadecimal digits of [lun] and twelve zeros; for
    [0xffff < lun <= 0xffffffff] it is "0x", the eight hexadecimal digits
    of [lun] and eight zeros; both have 18 characters, and the digits read
    back as [lun].  For [lun > 0xffffffff] the answer is the integer 0 and
    not a string. *)
Theorem get_lun_string_encoding (lun : Z) :
  (0 <= lun <= 0xffff ->
   _get_lun_string lun = PStr ("0x" +:+ hex_fixed 4 lun "" +:+ "000000000000")
   /\ String.length ("0x" +:+ hex_fixed 4 lun "" +:+ "000000000000") = 18%nat
   /\ hex_value (hex_fixed 4 lun "") = lun)
  /\ (0xffff < lun <= 0xffffffff ->
      _get_lun_string lun = PStr ("0x" +:+ hex_fixed 8 lun "" +:+ "00000000")
      /\ String.length ("0x" +:+ hex_fixed 8 lun "" +:+ "00000000") = 18%nat
      /\ hex_value (hex_fixed 8 lun "") = lun)
  /\ (0xffffffff < lun -> _get_lun_string lun = PInt 0).
Proof.
  unfold _get_lun_string. split; [|split].
  - intros Hlun. split; [|split].
    + destruct (lun <=? 65535) eqn:E; [|apply Z.leb_gt in E; lia].
      rewrite format_0x_fixed; [reflexivity | lia | simpl; lia].
    + rewrite !length_append, length_hex_fixed. reflexivity.
    + apply hex_value_fixed_small. simpl; lia.
  - intros Hlun. split; [|split].
    + destruct (lun <=? 65535) eqn:E; [apply Z.leb_le in E; lia|].
      destruct (lun <=? 4294967295) eqn:E'; [|apply Z.leb_gt in E'; lia].
      rewrite format_0x_fixed; [reflexivity | lia | simpl; lia].
    + rewrite !length_append, length_hex_fixed. reflexivity.
    + apply hex_value_fixed_small. simpl; lia.
  - intros Hlun.
    destruct (lun <=? 65535) eqn:E; [apply Z.leb_le in E; lia|].
    destruct (lun <=? 4294967295) eqn:E'; [apply Z.leb_le in E'; lia|].
    reflexivity.
Qed.

Lemma get_lun_string_encoding_witness :
  _get_lun_string 0x1a2b = PStr "0x1a2b000000000000"
  /\ _get_lun_string 0x10000 = PStr "0x0001000000000000"
  /\ _get_lun_string 0x100000000 = PInt 0.
Proof.
  destruct (get_lun_string_encoding 0x1a2b) as (H1 & _ & _).
  destruct (get_lun_string_encoding 0x10000) as (_ & H2 & _).
  destruct (get_lun_string_encoding 0x100000000) as (_ & _ & H3).
  split; [exact (proj1 (H1 ltac:(lia)))|].
  split; [exact (proj1 (H2 ltac:(lia))) | exact (H3 ltac:(lia))].
Defined.

End S390XFacts.

(** ** iSCSI: parsing and target enumeration *)

Module ISCSIPureFacts.

Import ISCSI.

Lemma scan_lines_from (lines : list (list string)) :
  forall targets : list (list string),
    fold_left
      (fun targets data =>
         if ((length data =? 2)%nat &&
             match nth_error data 1 with
             | Some iqn => PyStr.startswith iqn "iqn."
             | None => false
             end)%bool
         then (targets ++ [data])%list
         else targets)
      lines targets
    = (targets ++ List.filter is_target_line lines)%list.
Proof.
  induction lines as [|data lines IH]; intros targets; simpl.
  - now rewrite app_nil_r.
  - rewrite IH.
    destruct data as [|a [|b [|c rest]]]; simpl; try reflexivity.
    destruct (PyStr.startswith b "iqn."); simpl; [|reflexivity].
    now rewrite <- app_assoc.
Qed.

(** C7. The parser of the discovery output answers, in line order, the
    lines that split into exactly two words whose second word starts with
    "iqn."; every other line is left out, and nothing is raised (the parser
    is a total function).  Each answer is a [portal; iqn] pair. *)
Theorem get_target_portals_filters_lines (output : string) :
  _get_target_portals_from_iscsiadm_output output
  = List.filter is_target_line (map PyStr.split (PyStr.splitlines output))
  /\ (forall data : list string,
        In data (_get_target_portals_from_iscsiadm_output output) <->
        exists line portal iqn : string,
          In line (PyStr.splitlines output) /\
          PyStr.split line = [portal; iqn] /\ data = [portal; iqn] /\
          PyStr.startswith iqn "iqn." = true).
Proof.
  assert (_get_target_portals_from_iscsiadm_output output
          = List.filter is_target_line
                        (map PyStr.split (PyStr.splitlines output))) as Heq.
  { unfold _get_target_portals_from_iscsiadm_output.
    now rewrite scan_lines_from. }
  split; [exact Heq|].
  intros data. rewrite Heq, filter_In, in_map_iff. split.
  - intros [(line & Hsplit & Hin) Hline].
    destruct data as [|portal [|iqn [|c rest]]]; try discriminate.
    exists line, portal, iqn. repeat split; assumption.
  - intros (line & portal & iqn & Hin & Hsplit & -> & Hiqn).
    split; [exists line; split; assumption | exact Hiqn].
Qed.

Example get_target_portals_ex :
  _get_target_portals_from_iscsiadm_output
    ("iscsiadm: starting discovery" +:+ String PyStr.LF
     ("10.0.0.5:3260,1 iqn.2010-x:vol1" +:+ String PyStr.LF
      ("10.0.0.6:3260,2 eui.0123 " +:+ String PyStr.LF
       ("  10.0.0.7:3260,1   iqn.2010-x:vol2 extra" +:+ String PyStr.LF
        "10.0.0.8:3260,1 iqn.2010-x:vol3"))))
  = [["10.0.0.5:3260,1"; "iqn.2010-x:vol1"];
     ["10.0.0.8:3260,1"; "iqn.2010-x:vol3"]].
Proof. reflexivity. Qed.

Lemma nth_error_zip3 (ps qs ls : list atom) :
  forall (i : nat) (p q l : atom),
    nth_error ps i = Some p -> nth_error qs i = Some q ->
    nth_error ls i = Some l ->
    nth_error (zip3 ps qs ls) i = Some (Atom p, Atom q, Atom l).
Proof.
  revert qs ls.
  induction ps as [|p0 ps IH]; intros qs ls i p q l Hp Hq Hl.
  - destruct i; discriminate.
  - destruct qs as [|q0 qs]; [destruct i; discriminate|].
    destruct ls as [|l0 ls]; [destruct i; discriminate|].
    destruct i as [|i]; cbn [nth_error zip3] in *.
    + injection Hp as ->. injection Hq as ->. injection Hl as ->.
      reflexivity.
    + now apply IH.
Qed.

Lemma length_zip3 (ps qs ls : list atom) :
  length (zip3 ps qs ls)
  = Nat.min (length ps) (Nat.min (length qs) (length ls)).
Proof.
  revert qs ls. induction ps as [|p ps IH]; intros qs ls; [reflexivity|].
  destruct qs as [|q qs]; [reflexivity|].
  destruct ls as [|l ls]; [reflexivity|].
  simpl. now rewrite IH.
Qed.

Lemma plural_keys_present (props : gmap string pyval) (portals iqns luns : pyval) :
  props !! "target_portals" = Some portals ->
  props !! "target_iqns" = Some iqns ->
  props !! "target_luns" = Some luns ->
  forallb (has_key props) ["target_portals"; "target_iqns"; "target_luns"]
  = true.
Proof.
  intros Hp Hq Hl. unfold has_key. simpl. now rewrite Hp, Hq, Hl.
Qed.

(** C6. When the three plural fields are present (as lists), the targets
    are their index-wise zip, in order: the i-th target is the triple of
    the i-th entries, and with equal lengths there is one target per index.
    Otherwise the only target is (target_portal, target_iqn, target_lun),
    the lun being 0 when absent. *)
Theorem get_all_targets_enumeration (props : gmap string pyval) :
  (forall ps qs ls : list atom,
     props !! "target_portals" = Some (PList ps) ->
     props !! "target_iqns" = Some (PList qs) ->
     props !! "target_luns" = Some (PList ls) ->
     _get_all_targets props = Ok (zip3 ps qs ls)
     /\ (forall (i : nat) (p q l : atom),
           nth_error ps i = Some p -> nth_error qs i = Some q ->
           nth_error ls i = Some l ->
           nth_error (zip3 ps qs ls) i = Some (Atom p, Atom q, Atom l))
     /\ (length qs = length ps -> length ls = length ps ->
         length (zip3 ps qs ls) = length ps))
  /\ (forall portal iqn : pyval,
        forallb (has_key props) ["target_portals"; "target_iqns"; "target_luns"]
        = false ->
        props !! "target_portal" = Some portal ->
        props !! "target_iqn" = Some iqn ->
        _get_all_targets props
        = Ok [(portal, iqn,
               match props !! "target_lun" with
               | Some lun => lun
               | None => PInt 0
               end)]).
Proof.
  split.
  - intros ps qs ls Hp Hq Hl. split; [|split].
    + unfold _get_all_targets.
      rewrite (plural_keys_present props _ _ _ Hp Hq Hl).
      unfold getitem. now rewrite Hp, Hq, Hl.
    + apply nth_error_zip3.
    + intros Hqs Hls. rewrite length_zip3. lia.
  - intros portal iqn Hkeys Hp Hq. unfold _get_all_targets.
    rewrite Hkeys. unfold getitem, get_default. now rewrite Hp, Hq.
Qed.

Lemma get_all_targets_enumeration_witness :
  _get_all_targets plural_props
  = Ok [(PStr "10.0.0.5:3260", PStr "iqn.2010-x:vol1", PInt 1);
        (PStr "10.0.0.6:3260", PStr "iqn.2010-x:vol2", PInt 2)]
  /\ _get_all_targets singular_props
     = Ok [(PStr "10.0.0.5:3260", PStr "iqn.2010-x:vol1", PInt 0)].
Proof.
  split.
  - exact (proj1 (proj1 (get_all_targets_enumeration plural_props)
                        [AStr "10.0.0.5:3260"; AStr "10.0.0.6:3260"]
                        [AStr "iqn.2010-x:vol1"; AStr "iqn.2010-x:vol2"]
                        [AInt 1; AInt 2]
                        ltac:(vm_compute; reflexivity)
                        ltac:(vm_compute; reflexivity)
                        ltac:(vm_compute; reflexivity))).
  - exact (proj2 (get_all_targets_enumeration singular_props)
                 (PStr "10.0.0.5:3260") (PStr "iqn.2010-x:vol1")
                 ltac:(vm_compute; reflexivity)
                 ltac:(vm_compute; reflexivity)
                 ltac:(vm_compute; reflexivity)).
Defined.

(** C9. With the three plural fields present, lists of unequal lengths are
    not rejected: nothing is raised and the targets stop with the shortest
    list, so there are min(len(portals), len(iqns), len(luns)) of them. *)
Theorem get_all_targets_truncates (props : gmap string pyval)
    (ps qs ls : list atom) :
  props !! "target_portals" = Some (PList ps) ->
  props !! "target_iqns" = Some (PList qs) ->
  props !! "target_luns" = Some (PList ls) ->
  exists targets : list target,
    _get_all_targets props = Ok targets
    /\ length targets
       = Nat.min (length ps) (Nat.min (length qs) (length ls)).
Proof.
  intros Hp Hq Hl. exists (zip3 ps qs ls). split.
  - unfold _get_all_targets.
    rewrite (plural_keys_present props _ _ _ Hp Hq Hl).
    unfold getitem. now rewrite Hp, Hq, Hl.
  - apply length_zip3.
Qed.

Lemma get_all_targets_truncates_witness :
  exists targets : list target,
    _get_all_targets uneven_props = Ok targets /\ length targets = 1%nat.
Proof.
  exact (get_all_targets_truncates uneven_props
           [AStr "10.0.0.5:3260"; AStr "10.0.0.6:3260"; AStr "10.0.0.7:3260"]
           [AStr "iqn.2010-x:vol1"; AStr "iqn.2010-x:vol2"]
           [AInt 1]
           ltac:(vm_compute; reflexivity)
           ltac:(vm_compute; reflexivity)
           ltac:(vm_compute; reflexivity)).
Defined.

Example uneven_targets :
  _get_all_targets uneven_props
  = Ok [(PStr "10.0.0.5:3260", PStr "iqn.2010-x:vol1", PInt 1)].
Proof. vm_compute. reflexivity. Qed.

End ISCSIPureFacts.

(** ** Reasoning about connector code *)

Module MonadFacts.

(** Unfold the monad and the host calls down to state-passing code. *)
Ltac run_monad :=
  unfold _execute, time_sleep in *;
  unfold bind, ret, raise, diverge, lift, observe, perform, catch in *;
  cbn beta iota in *.

Section Adds.
Context {H : Host}.
Variable P : event -> Prop.

Lemma adds_nothing {A} (m : M A) :
  (forall st, snd (m st) = st) -> adds P m.
Proof.
  intros Hsame st. exists []. rewrite Hsame, app_nil_r. now split.
Qed.

Lemma adds_ret {A} (a : A) : adds P (ret a).
Proof. now apply adds_nothing. Qed.

Lemma adds_raise {A} (e : exn) : adds P (@raise _ A e).
Proof. now apply adds_nothing. Qed.

Lemma adds_lift {A} (r : result A) : adds P (lift r).
Proof. now apply adds_nothing. Qed.

Lemma adds_observe {A} (f : World -> A) : adds P (observe f).
Proof. now apply adds_nothing. Qed.

Lemma adds_perform {A} (e : event) (f : World -> result A * World) :
  P e -> adds P (perform e f).
Proof.
  intros He st. exists [e]. unfold perform.
  destruct (f (world st)) as [r w]. cbn. split; [reflexivity|].
  now constructor.
Qed.

Lemma adds_bind {A B} (m : M A) (k : A -> M B) :
  adds P m -> (forall a, adds P (k a)) -> adds P (bind m k).
Proof.
  intros Hm Hk st. unfold bind.
  destruct (Hm st) as (new1 & Hlog1 & Hall1).
  destruct (m st) as [[a|e|] st1]; cbn in Hlog1.
  - destruct (Hk a st1) as (new2 & Hlog2 & Hall2).
    exists (new1 ++ new2)%list. rewrite Hlog2, Hlog1, app_assoc.
    split; [reflexivity | now apply Forall_app].
  - now exists new1.
  - now exists new1.
Qed.

Lemma adds_catch {A} (m : M A) (h : exn -> M A) :
  adds P m -> (forall e, adds P (h e)) -> adds P (catch m h).
Proof.
  intros Hm Hh st. unfold catch.
  destruct (Hm st) as (new1 & Hlog1 & Hall1).
  destruct (m st) as [[a|e|] st1]; cbn in Hlog1.
  - now exists new1.
  - destruct (Hh e st1) as (new2 & Hlog2 & Hall2).
    exists (new1 ++ new2)%list. rewrite Hlog2, Hlog1, app_assoc.
    split; [reflexivity | now apply Forall_app].
  - now exists new1.
Qed.

End Adds.

Section Starts.
Context {H : Host}.

Lemma starts_perform {A} (e : event) (f : World -> result A * World) :
  starts_with e (perform e f).
Proof.
  intros st. exists []. unfold perform. now destruct (f (world st)).
Qed.

Lemma starts_bind {A B} (e : event) (m : M A) (k : A -> M B) :
  starts_with e m -> (forall a, adds anything (k a)) ->
  starts_with e (bind m k).
Proof.
  intros Hm Hk st. unfold bind. destruct (Hm st) as (new1 & Hlog1).
  destruct (m st) as [[a|x|] st1]; cbn in Hlog1.
  - destruct (Hk a st1) as (new2 & Hlog2 & _).
    exists (new1 ++ new2)%list.
    now rewrite Hlog2, Hlog1, <- app_assoc.
  - now exists new1.
  - now exists new1.
Qed.

Lemma starts_catch {A} (e : event) (m : M A) (h : exn -> M A) :
  starts_with e m -> (forall x, adds anything (h x)) ->
  starts_with e (catch m h).
Proof.
  intros Hm Hh st. unfold catch. destruct (Hm st) as (new1 & Hlog1).
  destruct (m st) as [[a|x|] st1]; cbn in Hlog1.
  - now exists new1.
  - destruct (Hh x st1) as (new2 & Hlog2 & _).
    exists (new1 ++ new2)%list.
    now rewrite Hlog2, Hlog1, <- app_assoc.
  - now exists new1.
Qed.

(** A loop that runs to its end has run every body, so the first event
    of every body is in the log. *)
Lemma for_each_starts {A} (ev : A -> event) (body : A -> M unit) :
  (forall x, starts_with (ev x) (body x)) ->
  forall (l : list A) (st st' : State),
    for_each l body st = (Returns tt, st') ->
    exists new : list event,
      log st' = (log st ++ new)%list /\ forall x, In x l -> In (ev x) new.
Proof.
  intros Hbody l. induction l as [|x l IH]; intros st st' Hrun.
  - cbn in Hrun. injection Hrun as <-. exists [].
    rewrite app_nil_r. split; [reflexivity | contradiction].
  - cbn [for_each] in Hrun. unfold bind in Hrun.
    destruct (Hbody x st) as (new1 & Hlog1).
    destruct (body x st) as [[[]|e|] st1]; try discriminate.
    cbn in Hlog1. destruct (IH st1 st' Hrun) as (new2 & Hlog2 & Hin2).
    exists (ev x :: new1 ++ new2)%list. split.
    + rewrite Hlog2, Hlog1, <- app_assoc. reflexivity.
    + intros y [<-|Hy]; [now left|].
      right. apply in_or_app. right. now apply Hin2.
Qed.

End Starts.

Section Terminates.
Context {H : Host}.

Lemma terminates_ret {A} (a : A) : terminates (ret a).
Proof. intros st. discriminate. Qed.

Lemma terminates_raise {A} (e : exn) : terminates (@raise _ A e).
Proof. intros st. discriminate. Qed.

Lemma terminates_lift {A} (r : result A) : terminates (lift r).
Proof. intros st. unfold lift. now destruct r. Qed.

Lemma terminates_observe {A} (f : World -> A) : terminates (observe f).
Proof. intros st. discriminate. Qed.

Lemma terminates_perform {A} (e : event) (f : World -> result A * World) :
  terminates (perform e f).
Proof.
  intros st. unfold perform. destruct (f (world st)) as [[a|x] w]; discriminate.
Qed.

Lemma terminates_bind {A B} (m : M A) (k : A -> M B) :
  terminates m -> (forall a, terminates (k a)) -> terminates (bind m k).
Proof.
  intros Hm Hk st. unfold bind. specialize (Hm st).
  destruct (m st) as [[a|e|] st1]; [apply Hk | discriminate | contradiction].
Qed.

Lemma terminates_catch {A} (m : M A) (h : exn -> M A) :
  terminates m -> (forall e, terminates (h e)) -> terminates (catch m h).
Proof.
  intros Hm Hh st. unfold catch. specialize (Hm st).
  destruct (m st) as [[a|e|] st1]; [discriminate | apply Hh | contradiction].
Qed.

Lemma terminates_for_each {A} (l : list A) (body : A -> M unit) :
  (forall x, terminates (body x)) -> terminates (for_each l body).
Proof.
  intros Hbody. induction l as [|x l IH]; cbn [for_each].
  - apply terminates_ret.
  - apply terminates_bind; [apply Hbody | intros _; exact IH].
Qed.

End Terminates.

Section Runs.
Context {H : Host}.

Lemma bind_returns {A B} (m : M A) (k : A -> M B) (st st1 : State) (a : A) :
  m st = (Returns a, st1) -> bind m k st = k a st1.
Proof. intros Hm. unfold bind. now rewrite Hm. Qed.

Lemma bind_raises {A B} (m : M A) (k : A -> M B) (st st1 : State) (e : exn) :
  m st = (Raises e, st1) -> bind m k st = (Raises e, st1).
Proof. intros Hm. unfold bind. now rewrite Hm. Qed.

Lemma catch_raises {A} (m : M A) (h : exn -> M A) (st st1 : State) (e : exn) :
  m st = (Raises e, st1) -> catch m h st = h e st1.
Proof. intros Hm. unfold catch. now rewrite Hm. Qed.

Lemma catch_returns {A} (m : M A) (h : exn -> M A) (st st1 : State) (a : A) :
  m st = (Returns a, st1) -> catch m h st = (Returns a, st1).
Proof. intros Hm. unfold catch. now rewrite Hm. Qed.

Lemma execute_ok (c : command) (st : State) r (w' : World) :
  execute c (world st) = (Ok r, w') ->
  _execute c st = (Returns r, MkState w' (log st ++ [Exec c])).
Proof. intros He. unfold _execute, perform. now rewrite He. Qed.

Lemma execute_raises (c : command) (st : State) (e : exn) (w' : World) :
  execute c (world st) = (Raise e, w') ->
  _execute c st = (Raises e, MkState w' (log st ++ [Exec c])).
Proof. intros He. unfold _execute, perform. now rewrite He. Qed.

(** What follows a run only adds to its log. *)
Lemma bind_log_extends {A B} (m : M A) (k : A -> M B) (st : State)
    (l : list event) :
  (exists new : list event, log (snd (m st)) = (l ++ new)%list) ->
  (forall a, adds anything (k a)) ->
  exists new : list event, log (snd (bind m k st)) = (l ++ new)%list.
Proof.
  intros (new1 & Hlog1) Hk. unfold bind.
  destruct (m st) as [[a|e|] st1]; cbn [snd] in Hlog1 |- *;
    try now exists new1.
  destruct (Hk a st1) as (new2 & Hlog2 & _).
  exists (new1 ++ new2)%list. now rewrite Hlog2, Hlog1, <- app_assoc.
Qed.

End Runs.

(** Build a proof of [terminates m] along the structure of [m]. *)
Ltac terminates_steps :=
  repeat first
    [ apply terminates_ret
    | apply terminates_raise
    | apply terminates_lift
    | apply terminates_observe
    | apply terminates_perform
    | apply terminates_bind; [|intros ?]
    | apply terminates_catch; [|intros [] ]
    | match goal with
      | |- terminates (if ?b then _ else _) => destruct b
      | |- terminates (match ?x with Some _ => _ | None => _ end) =>
          destruct x
      | |- terminates (match ?x with [] => _ | _ :: _ => _ end) => destruct x
      end ].

(** Build a proof of [adds P m] along the structure of [m]; [tac] proves
    [P] of the events. *)
Ltac adds_steps tac :=
  repeat first
    [ apply adds_ret
    | apply adds_raise
    | apply adds_lift
    | apply adds_observe
    | apply adds_perform; tac
    | apply adds_bind; [|intros ?]
    | apply adds_catch; [|intros [] ]
    | match goal with
      | |- adds _ (if ?b then _ else _) => destruct b
      | |- adds _ (match ?x with Some _ => _ | None => _ end) => destruct x
      | |- adds _ (match ?x with [] => _ | _ :: _ => _ end) => destruct x
      end ].

End MonadFacts.

(** ** The connector factory *)

Module FactoryFacts.

Import PyStr Factory MonadFacts.

Lemma upper_char_idempotent (c : ascii) :
  upper_char (upper_char c) = upper_char c.
Proof.
  destruct c as [b0 b1 b2 b3 b4 b5 b6 b7].
  destruct b0, b1, b2, b3, b4, b5, b6, b7; reflexivity.
Qed.

Lemma upper_idempotent (s : string) : upper (upper s) = upper s.
Proof.
  induction s as [|c s IH]; [reflexivity|].
  unfold upper in *. simpl. now rewrite upper_char_idempotent, IH.
Qed.

Lemma str_in_cons (x y : string) (l : list string) :
  str_in x (y :: l) = (String.eqb x y || str_in x l)%bool.
Proof. reflexivity. Qed.

Ltac split_orb H :=
  repeat match type of H with
         | (_ || _)%bool = false =>
             let H1 := fresh "Hne" in
             apply Bool.orb_false_iff in H; destruct H as [H1 H]
         end.

(** Case analysis on the protocol: it is one of the names the goal
    compares it with, or none of them. *)
Ltac by_protocol u tac :=
  repeat match goal with
         | |- context [String.eqb u ?name] =>
             let E := fresh "E" in
             destruct (String.eqb u name) eqn:E;
             [apply String.eqb_eq in E; subst u; cbn; tac|]
         end.

(** The protocols without a class are those outside the enumeration. *)
Lemma class_of_enumeration (arch u : string) :
  class_of arch u = None <-> str_in u protocols = false.
Proof.
  unfold class_of, class_table, protocols, str_in, ISCSI, ISER,
    FIBRE_CHANNEL, AOE, NFS, GLUSTERFS, SCALITY, STORPOOL, LOCAL,
    HUAWEISDSHYPERVISOR, HGST, RBD, SCALEIO.
  cbn [existsb List.find fst snd option_map].
  by_protocol u ltac:(split; discriminate).
  cbn. split; reflexivity.
Qed.

Section Factory.
Context {H : Host}.
Variable connector : Type.
Variable construct : connector_class -> gmap string pyval -> M connector.

Lemma factory_unknown (machine protocol : string) (use_multipath : bool)
    (device_scan_attempts : Z) (arch : option string)
    (kwargs : gmap string pyval) :
  str_in (upper protocol) protocols = false ->
  factory connector construct machine protocol use_multipath
          device_scan_attempts arch kwargs
  = raise (ValueError ("Invalid InitiatorConnector protocol specified "
                       +:+ upper protocol)).
Proof.
  intros Hout. unfold factory.
  unfold protocols in Hout. rewrite !str_in_cons in Hout. split_orb Hout.
  rewrite !str_in_cons.
  now rewrite Hne, Hne0, Hne1, Hne2, Hne3, Hne4, Hne5, Hne6, Hne7, Hne8,
    Hne9, Hne10, Hne11.
Qed.

(** C8, as the code has it.  The protocol is compared in upper case with
    the fixed enumeration, so two spellings that differ only in case get
    the same answer.  For a protocol of the enumeration the factory calls
    the constructor of the class of that protocol, and what the
    constructor returns or raises is what the factory returns or raises;
    the keyword arguments of the caller are handed on.  FIBRE_CHANNEL is
    the S390X connector when the architecture is s390 or s390x and the
    standard one otherwise.  (NFS, GLUSTERFS and SCALITY get the
    [mount_type] from the factory, so a caller who gives one too gets a
    TypeError.)  Every other protocol fails with a ValueError whose
    message ends with the protocol in upper case, and no constructor is
    called. *)
Theorem factory_dispatch (machine protocol : string) (use_multipath : bool)
    (device_scan_attempts : Z) (arch : option string)
    (kwargs : gmap string pyval) :
  let make := fun protocol : string =>
    factory connector construct machine protocol use_multipath
            device_scan_attempts arch kwargs in
  let arch' := match arch with None => machine | Some a => a end in
  let called := fun c : connector_class =>
    exists kwargs' : gmap string pyval,
      make protocol = construct c kwargs'
      /\ forall k : string,
           ~ In k ["device_scan_attempts"; "use_multipath"; "transport";
                   "mount_type"] ->
           kwargs' !! k = kwargs !! k in
  (forall protocol' : string,
     upper protocol' = upper protocol -> make protocol' = make protocol)
  /\ make (upper protocol) = make protocol
  /\ (upper protocol = FIBRE_CHANNEL ->
      make protocol
      = construct (if str_in arch' [S390; S390X]
                   then FibreChannelConnectorS390X
                   else FibreChannelConnector)
                  (<["use_multipath" := Atom (ABool use_multipath)]>
                     (<["device_scan_attempts" := PInt device_scan_attempts]>
                        kwargs)))
  /\ (forall c : connector_class,
        class_of arch' (upper protocol) = Some c ->
        match c with
        | RemoteFsConnector =>
            if has_key kwargs "mount_type"
            then make protocol = raise TypeError
            else called c
        | _ => called c
        end)
  /\ (str_in (upper protocol) protocols = false ->
      class_of arch' (upper protocol) = None
      /\ (forall st : State,
            make protocol st
            = (Raises (ValueError
                         ("Invalid InitiatorConnector protocol specified "
                          +:+ upper protocol)),
               st))
      /\ exn_class (ValueError ("Invalid InitiatorConnector protocol specified "
                                +:+ upper protocol)) = "ValueError").
Proof.
  intros make arch' called. subst make called. cbv beta.
  split; [|split; [|split; [|split]]].
  - intros protocol' Hup. unfold factory. now rewrite Hup.
  - unfold factory. now rewrite upper_idempotent.
  - intros Hfc. unfold factory. rewrite Hfc.
    change (str_in FIBRE_CHANNEL [ISCSI; ISER]) with false.
    change (String.eqb FIBRE_CHANNEL FIBRE_CHANNEL) with true.
    cbv iota. fold arch'.
    now destruct (str_in arch' [S390; S390X]).
  - intros c. unfold factory. fold arch'.
    generalize (upper protocol). intros u.
    unfold class_of, class_table, str_in, ISCSI, ISER, FIBRE_CHANNEL, AOE,
      NFS, GLUSTERFS, SCALITY, STORPOOL, LOCAL, HUAWEISDSHYPERVISOR, HGST,
      RBD, SCALEIO, S390, S390X.
    cbn [existsb List.find fst snd option_map].
    by_protocol u
      ltac:(intros Hc; injection Hc as Hc; subst c;
            try (destruct (String.eqb arch' "s390");
                 destruct (String.eqb arch' "s390x"); cbn [orb]);
            try (destruct (has_key kwargs "mount_type"); [reflexivity|]);
            (eexists; split;
             [reflexivity
             | intros k Hk;
               rewrite ?lookup_insert_ne by (intros <-; tauto);
               reflexivity])).
    intros Hc. discriminate Hc.
  - intros Hout. split; [now apply class_of_enumeration|]. split.
    + intros st. now rewrite factory_unknown.
    + reflexivity.
Qed.

End Factory.

Lemma factory_dispatch_witness :
  @factory (fake_host quiet_fake) _ recording "x86_64" "iScSi" false 3 None
     no_kwargs
  = @factory (fake_host quiet_fake) _ recording "x86_64" "ISCSI" false 3 None
      no_kwargs
  /\ @factory (fake_host quiet_fake) _ recording "x86_64" "fibre_channel"
       true 3 (Some "s390x") no_kwargs
     = recording FibreChannelConnectorS390X
         (<["use_multipath" := Atom (ABool true)]>
            (<["device_scan_attempts" := PInt 3]> no_kwargs))
  /\ @factory (fake_host quiet_fake) _ recording "s390" "fibre_channel"
       true 3 None no_kwargs
     = recording FibreChannelConnectorS390X
         (<["use_multipath" := Atom (ABool true)]>
            (<["device_scan_attempts" := PInt 3]> no_kwargs))
  /\ @factory (fake_host quiet_fake) _ recording "x86_64" "fibre_channel"
       true 3 None no_kwargs
     = recording FibreChannelConnector
         (<["use_multipath" := Atom (ABool true)]>
            (<["device_scan_attempts" := PInt 3]> no_kwargs))
  /\ (exists kwargs' : gmap string pyval,
        @factory (fake_host quiet_fake) _ no_mount_point "x86_64" "nfs"
          false 3 None no_kwargs
        = no_mount_point RemoteFsConnector kwargs'
        /\ forall k : string,
             ~ In k ["device_scan_attempts"; "use_multipath"; "transport";
                     "mount_type"] ->
             kwargs' !! k = no_kwargs !! k)
  /\ @factory (fake_host quiet_fake) _ recording "x86_64" "foo" false 3 None
       no_kwargs (fake_state 0 [])
     = (Raises (ValueError "Invalid InitiatorConnector protocol specified FOO"),
        fake_state 0 []).
Proof.
  split.
  { exact (proj1 (@factory_dispatch (fake_host quiet_fake) _ recording
                    "x86_64" "ISCSI" false 3 None no_kwargs)
                 "iScSi" ltac:(reflexivity)). }
  split.
  { exact (proj1 (proj2 (proj2
             (@factory_dispatch (fake_host quiet_fake) _ recording
                "x86_64" "fibre_channel" true 3 (Some "s390x") no_kwargs)))
             ltac:(reflexivity)). }
  split.
  { exact (proj1 (proj2 (proj2
             (@factory_dispatch (fake_host quiet_fake) _ recording
                "s390" "fibre_channel" true 3 None no_kwargs)))
             ltac:(reflexivity)). }
  split.
  { exact (proj1 (proj2 (proj2
             (@factory_dispatch (fake_host quiet_fake) _ recording
                "x86_64" "fibre_channel" true 3 None no_kwargs)))
             ltac:(reflexivity)). }
  split.
  { exact (proj1 (proj2 (proj2 (proj2
             (@factory_dispatch (fake_host quiet_fake) _ no_mount_point
                "x86_64" "nfs" false 3 None no_kwargs))))
             RemoteFsConnector ltac:(reflexivity)). }
  exact (proj1 (proj2 (proj2 (proj2 (proj2 (proj2
           (@factory_dispatch (fake_host quiet_fake) _ recording
              "x86_64" "foo" false 3 None no_kwargs))))
           ltac:(reflexivity)))
           (fake_state 0 [])).
Defined.

(** C8 as it is written does not hold: for the unknown protocol "foo" the
    error is a ValueError (there is no InvalidProtocol error), and its
    message spells the protocol "FOO": the value the caller gave, "foo",
    does not occur in it. *)
Lemma factory_unknown_counterexample :
  exists e : exn,
    fst (@factory (fake_host quiet_fake) _ recording "x86_64" "foo" false 3
           None no_kwargs (fake_state 0 []))
    = Raises e
    /\ exn_class e <> "InvalidProtocol"
    /\ exn_message e
       = Some "Invalid InitiatorConnector protocol specified FOO"
    /\ contains "Invalid InitiatorConnector protocol specified FOO" "foo"
       = false.
Proof.
  exists (ValueError "Invalid InitiatorConnector protocol specified FOO").
  split; [reflexivity|]. split; [discriminate|].
  split; reflexivity.
Qed.

(** The outcome of the factory is the outcome of the constructor: the
    keyword arguments of an iSER connector, and a RemoteFsConnector whose
    constructor fails. *)
Example factory_examples :
  @factory (fake_host quiet_fake) _ recording "x86_64" "iser" false 3 None
     no_kwargs (fake_state 0 [])
  = (Returns (ISCSIConnector,
              <["use_multipath" := Atom (ABool false)]>
                (<["device_scan_attempts" := PInt 3]>
                   (<["transport" := PStr "iser"]> no_kwargs))),
     fake_state 0 [])
  /\ fst (@factory (fake_host quiet_fake) _ no_mount_point "x86_64"
            "GlusterFS" false 3 None no_kwargs (fake_state 0 []))
     = Raises (OtherError "InvalidParameterValue")
  /\ fst (@factory (fake_host quiet_fake) _ recording "x86_64"
            "FIBRE_CHANNEL" false 3 (Some "S390X") no_kwargs
            (fake_state 0 []))
     = Returns (FibreChannelConnector,
                <["use_multipath" := Atom (ABool false)]>
                  (<["device_scan_attempts" := PInt 3]> no_kwargs)).
Proof. repeat split; vm_compute; reflexivity. Qed.

End FactoryFacts.

(** ** The Fibre Channel connector *)

Module FibreChannelFacts.

Import FibreChannel MonadFacts.

Lemma possible_devices_product (hbas : list hba) (wwns : list string) :
  _get_possible_devices_from hbas wwns
  = map (fun pw => (fst pw, "0x" +:+ PyStr.lower (snd pw)))
        (list_prod (pci_addresses hbas) wwns).
Proof.
  induction hbas as [|h hbas IH]; [reflexivity|].
  cbn [_get_possible_devices_from pci_addresses flat_map].
  fold (pci_addresses hbas).
  destruct (_get_pci_num (Some h)) as [pci|]; [|exact IH].
  cbn [app list_prod]. rewrite map_app, map_map, IH. reflexivity.
Qed.

Lemma host_devices_candidates (lun : pyval) (pairs : list (string * string)) :
  _get_host_devices
    (map (fun pw => (fst pw, "0x" +:+ PyStr.lower (snd pw))) pairs) lun
  = map (fun pw => fc_candidate lun (fst pw) (snd pw)) pairs.
Proof.
  unfold _get_host_devices. rewrite map_map.
  apply map_ext. intros [pci wwn]. reflexivity.
Qed.

Example get_pci_num_ex :
  _get_pci_num
    (Some (Hba (Some "/sys/devices/pci0000:20/0000:20:03.0/0000:21:00.2/net/ens2f2/ctlr_2/host3/fc_host/host3")))
  = Some "0000:21:00.2"
  /\ _get_pci_num (Some (Hba None)) = None
  /\ _get_pci_num (Some (Hba (Some "/sys/devices/virtual"))) = None.
Proof. repeat split; reflexivity. Qed.

Example possible_volume_paths_ex :
  _get_possible_volume_paths fc_props one_hba = Ok fc_paths.
Proof. vm_compute. reflexivity. Qed.

Section Connect.
Context {H : Host}.
Variable self : connector.



Lemma possible_volume_paths_candidates (props : gmap string pyval)
    (ports : pyval) (hbas : list hba) :
  props !! "target_wwn" = Some ports ->
  _get_possible_volume_paths props hbas
  = Ok (map (fun pw =>
               fc_candidate (get_default props "target_lun" (PInt 0))
                            (fst pw) (snd pw))
            (list_prod (pci_addresses hbas) (wwn_list ports))).
Proof.
  intros Hwwn. unfold _get_possible_volume_paths, getitem. rewrite Hwwn.
  cbn [and_then]. unfold _get_possible_devices.
  now rewrite possible_devices_product, host_devices_candidates.
Qed.


End Connect.


Example fc_connect_after_rescans :
  @connect_volume (fake_host (fc_fake (Some 2%nat) fc_paths))
    (Connector false 3) fc_props (fake_state 0 [])
  = (Returns (<["path" := PStr "/dev/disk/by-path/pci-0000:05:00.3-fc-0x5000abc1-lun-1"]>
                {["type" := PStr "block"]}),
     fake_state 2 [RescanHosts one_hba; Sleep 2; RescanHosts one_hba; Sleep 2]).
Proof. vm_compute. reflexivity. Qed.

Example fc_connect_never :
  fst (@connect_volume (fake_host (fc_fake None fc_paths))
         (Connector false 3) fc_props (fake_state 0 []))
  = Raises NoFibreChannelVolumeDeviceFound.
Proof. vm_compute. reflexivity. Qed.

End FibreChannelFacts.

(** ** iSCSI: establishing a session *)

Module ISCSISessionFacts.

Import ISCSI MonadFacts.

Lemma sessions_on_target_filter (stripped : string) (props : gmap string pyval)
    (iqn : pyval) (portals : list (string * string)) :
  props !! "target_iqn" = Some iqn ->
  sessions_on_target stripped props portals
  = Ok (List.filter
          (fun s => String.eqb stripped (up_to_comma (fst s))
                    && py_eqb (PStr (snd s)) iqn)
          portals).
Proof.
  intros Hiqn. induction portals as [|s portals IH]; [reflexivity|].
  cbn [sessions_on_target List.filter]. rewrite IH. unfold getitem.
  rewrite Hiqn.
  destruct (String.eqb stripped (up_to_comma (fst s))); cbn;
    [destruct (py_eqb (PStr (snd s)) iqn)|]; reflexivity.
Qed.

Lemma no_match_no_filter {A} (f : A -> bool) (l : list A) :
  (length (List.filter f l) =? 0)%nat = negb (existsb f l).
Proof.
  induction l as [|x l IH]; [reflexivity|].
  cbn. destruct (f x); [reflexivity | exact IH].
Qed.

(** A login is needed exactly when no active session matches. *)
Lemma not_logged_in_no_match (props : gmap string pyval) (portal : string)
    (iqn : pyval) (out : string) (portals : list (string * string)) :
  props !! "target_portal" = Some (PStr portal) ->
  props !! "target_iqn" = Some iqn ->
  session_entries (PyStr.splitlines out) = Ok portals ->
  not_logged_in props out
  = Ok (negb (existsb (session_matches portal iqn) portals)).
Proof.
  intros Hportal Hiqn Hentries. unfold not_logged_in.
  rewrite Hentries. cbn [and_then].
  unfold stripped_portal_of, getitem. rewrite Hportal. cbn [and_then PStr].
  destruct portals as [|s portals]; [reflexivity|].
  cbn [length Nat.eqb].
  rewrite (sessions_on_target_filter _ _ iqn) by exact Hiqn.
  cbn [and_then]. now rewrite no_match_no_filter.
Qed.

(** [x.split(",")[0]] is what stands before the first comma. *)
Lemma split_on_comma_head (x : string) :
  forall cur : list ascii,
    exists tl : list string,
      PyStr.split_on_from "," cur x
      = PyStr.rev_string_onto cur (before_comma x) :: tl.
Proof.
  induction x as [|c x IH]; intros cur.
  - now exists [].
  - cbn [PyStr.split_on_from before_comma].
    destruct (Ascii.eqb c ","); [now eexists|].
    destruct (IH (c :: cur)) as (tl & ->). now exists tl.
Qed.

Lemma up_to_comma_before (x : string) : up_to_comma x = before_comma x.
Proof.
  unfold up_to_comma, PyStr.split_on.
  now destruct (split_on_comma_head x []) as (tl & ->).
Qed.

(** The parse of a listing whose "tcp:" lines all have four fields sees a
    session on the target exactly when a line shows one. *)
Lemma session_entries_lines (portal : string) (iqn : pyval)
    (lines : list string) :
  existsb session_line_short lines = false ->
  exists portals : list (string * string),
    session_entries lines = Ok portals
    /\ existsb (session_matches portal iqn) portals
       = existsb (session_line_matches portal iqn) lines.
Proof.
  induction lines as [|l lines IH]; intros Hshort; [now exists []|].
  cbn [existsb] in Hshort. apply Bool.orb_false_iff in Hshort.
  destruct Hshort as [Hl Hrest]. destruct (IH Hrest) as (portals & Hp & Hm).
  cbn [session_entries existsb]. unfold session_line_short in Hl.
  unfold session_line_matches at 1.
  destruct (PyStr.startswith l "tcp:"); cbn [andb] in Hl |- *.
  - destruct (PyStr.split_on " " l) as [|a [|b [|p [|q tl]]]];
      try discriminate Hl.
    cbn [index nth_error and_then]. rewrite Hp. cbn [and_then].
    exists ((p, q) :: portals). split; [reflexivity|].
    cbn [existsb]. rewrite Hm. f_equal.
    unfold session_matches. cbn [fst snd].
    now rewrite !up_to_comma_before.
  - exists portals. now split.
Qed.

(** A "tcp:" line with fewer than four fields makes the parse fail. *)
Lemma session_entries_short (lines : list string) :
  existsb session_line_short lines = true ->
  session_entries lines = Raise IndexError.
Proof.
  induction lines as [|l lines IH]; intros Hshort; [discriminate|].
  cbn [existsb] in Hshort. cbn [session_entries].
  unfold session_line_short in Hshort.
  destruct (PyStr.startswith l "tcp:"); cbn [andb] in Hshort.
  - destruct (PyStr.split_on " " l) as [|a [|b [|p [|q tl]]]];
      try reflexivity.
    cbn [length Nat.ltb Nat.leb orb] in Hshort.
    cbn [index nth_error and_then]. now rewrite (IH Hshort).
  - now apply IH.
Qed.

Lemma not_logged_in_lines (props : gmap string pyval) (portal : string)
    (iqn : pyval) (out : string) :
  props !! "target_portal" = Some (PStr portal) ->
  props !! "target_iqn" = Some iqn ->
  existsb session_line_short (PyStr.splitlines out) = false ->
  not_logged_in props out
  = Ok (negb (existsb (session_line_matches portal iqn)
                      (PyStr.splitlines out))).
Proof.
  intros Hportal Hiqn Hshort.
  destruct (session_entries_lines portal iqn _ Hshort) as (portals & Hp & Hm).
  rewrite <- Hm. now apply not_logged_in_no_match.
Qed.

Lemma not_logged_in_short (props : gmap string pyval) (out : string) :
  existsb session_line_short (PyStr.splitlines out) = true ->
  not_logged_in props out = Raise IndexError.
Proof.
  intros Hshort. unfold not_logged_in.
  now rewrite (session_entries_short _ Hshort).
Qed.

Section Session.
Context {H : Host}.
Variable self : connector.

Lemma run_iscsiadm_adds (P : event -> Prop) (props : gmap string pyval)
    (arguments : list string) (check : list Z) (attempts : Z) :
  (forall iqn portal : pyval,
     P (Exec (iscsiadm_node iqn portal arguments check attempts))) ->
  adds P (_run_iscsiadm props arguments check attempts true).
Proof.
  intros HP. unfold _run_iscsiadm.
  apply adds_bind; [apply adds_lift|]. intros iqn.
  apply adds_bind; [apply adds_lift|]. intros portal.
  apply adds_perform, HP.
Qed.

Ltac not_login :=
  intros; intros c Hc; injection Hc as <-; cbn; discriminate.

Lemma node_record_and_sessions_adds (props : gmap string pyval) :
  adds not_a_login (node_record_and_sessions self props).
Proof.
  unfold node_record_and_sessions, _iscsiadm_update, _run_iscsiadm_bare.
  repeat first
    [ apply adds_ret
    | apply adds_raise
    | apply adds_lift
    | apply run_iscsiadm_adds; not_login
    | apply adds_perform; not_login
    | apply adds_bind; [|intros ?]
    | apply adds_catch; [|intros [] ]
    | match goal with
      | |- adds _ (if ?b then _ else _) => destruct b
      end ].
Qed.

(** C4.  Once the node record is there and the active sessions are
    listed ([node_record_and_sessions], which issues no login itself), the
    lines of the listing decide.  A line shows a session on the target
    when it starts with "tcp:", its third field (fields are what single
    spaces separate) is the target's portal, both cut at the first comma,
    and its fourth field is the target's iqn.  If a line shows a session
    on the target, no command at all follows and True is returned;
    otherwise the login is issued, and when it fails with exit code 15 the
    node startup is set to automatic and True is returned as after a login
    that succeeds, while a failure with any other exit code returns False
    without raising.  (A "tcp:" line with fewer than four fields makes
    the reading of the listing fail with IndexError.) *)
Theorem connect_to_iscsi_portal_login (props : gmap string pyval)
    (portal : string) (iqn : pyval) (out : string) (st st1 : State) :
  props !! "target_portal" = Some (PStr portal) ->
  props !! "target_iqn" = Some iqn ->
  node_record_and_sessions self props st = (Returns out, st1) ->
  let lines := PyStr.splitlines out in
  let login := login_of iqn (PStr portal) in
  let startup := startup_of iqn (PStr portal) "automatic" [0] in
  (exists new : list event,
     log st1 = (log st ++ new)%list /\ ~ In (Exec login) new)
  /\ (existsb session_line_short lines = true ->
      _connect_to_iscsi_portal self props st = (Raises IndexError, st1))
  /\ (existsb session_line_short lines = false ->
      (existsb (session_line_matches portal iqn) lines = true ->
       _connect_to_iscsi_portal self props st = (Returns true, st1))
      /\ (existsb (session_line_matches portal iqn) lines = false ->
          (forall (w2 : World) r (w3 : World),
             execute login (world st1)
             = (Raise (ProcessExecutionError 15), w2) ->
             execute startup w2 = (Ok r, w3) ->
             _connect_to_iscsi_portal self props st
             = (Returns true,
                MkState w3 (log st1 ++ [Exec login; Exec startup])))
          /\ (forall (code : Z) (w2 : World),
                execute login (world st1)
                = (Raise (ProcessExecutionError code), w2) ->
                code <> 15 ->
                _connect_to_iscsi_portal self props st
                = (Returns false, MkState w2 (log st1 ++ [Exec login])))
          /\ (forall r (w2 : World) r' (w3 : World),
                execute login (world st1) = (Ok r, w2) ->
                execute startup w2 = (Ok r', w3) ->
                _connect_to_iscsi_portal self props st
                = (Returns true,
                   MkState w3 (log st1 ++ [Exec login; Exec startup]))))).
Proof.
  intros Hportal Hiqn Hnode lines login startup.
  assert (forall b : bool,
            _connect_to_iscsi_portal self props st
            = login_unless_logged_in props out st1) as Hconnect.
  { intros _. unfold _connect_to_iscsi_portal, bind. now rewrite Hnode. }
  specialize (Hconnect true).
  split; [|split].
  - destruct (node_record_and_sessions_adds props st) as (new & Hlog & Hall).
    rewrite Hnode in Hlog. cbn in Hlog. exists new. split; [exact Hlog|].
    intros Hin. rewrite List.Forall_forall in Hall.
    apply (Hall _ Hin login eq_refl). reflexivity.
  - intros Hshort. rewrite Hconnect. unfold login_unless_logged_in.
    run_monad. now rewrite (not_logged_in_short props out Hshort).
  - intros Hshort.
    pose proof (not_logged_in_lines props portal iqn out Hportal Hiqn Hshort)
      as Hneeded.
    fold lines in Hneeded. split.
    + intros Hmatch. rewrite Hconnect. unfold login_unless_logged_in.
      run_monad. rewrite Hneeded, Hmatch. reflexivity.
    + intros Hmatch. rewrite Hconnect. clear Hconnect Hnode.
      unfold login, startup, login_of, startup_of, iscsiadm_node.
      unfold login_unless_logged_in, login_command, _iscsiadm_update,
        _run_iscsiadm, getitem.
      rewrite Hiqn, Hportal. run_monad. rewrite Hneeded, Hmatch.
      cbn [negb outcome_of app].
      split; [|split].
      * intros w2 r w3 Hfail Hupdate. cbn in Hfail, Hupdate |- *.
        rewrite Hfail. cbn. rewrite Hupdate. cbn. now rewrite <- app_assoc.
      * intros code w2 Hfail Hcode. cbn in Hfail |- *. rewrite Hfail. cbn.
        rewrite Bool.orb_false_r.
        destruct (code =? 15) eqn:Hc; [apply Z.eqb_eq in Hc; contradiction|].
        reflexivity.
      * intros r w2 r' w3 Hok Hupdate. cbn in Hok, Hupdate |- *.
        rewrite Hok. cbn. rewrite Hupdate. cbn. now rewrite <- app_assoc.
Qed.

End Session.

Lemma connect_to_iscsi_portal_login_witness :
  @_connect_to_iscsi_portal (fake_host logged_in_fake)
     (Connector false "default" 3) iscsi_props (fake_state 0 [])
  = (Returns true, fake_state 0 [Exec probe_cmd; Exec sessions_cmd])
  /\ @_connect_to_iscsi_portal (fake_host (login_fake 15))
       (Connector false "default" 3) iscsi_props (fake_state 0 [])
     = (Returns true,
        fake_state 0 [Exec probe_cmd; Exec sessions_cmd;
                      Exec login_cmd; Exec startup_cmd])
  /\ @_connect_to_iscsi_portal (fake_host (login_fake 8))
       (Connector false "default" 3) iscsi_props (fake_state 0 [])
     = (Returns false,
        fake_state 0 [Exec probe_cmd; Exec sessions_cmd; Exec login_cmd]).
Proof.
  split; [|split].
  - exact (proj1 (proj2 (proj2
             (@connect_to_iscsi_portal_login (fake_host logged_in_fake)
                (Connector false "default" 3) iscsi_props
                "10.0.0.5:3260" (PStr "iqn.2010-x:vol1")
                (own_session sessions_cmd)
                (fake_state 0 [])
                (fake_state 0 [Exec probe_cmd; Exec sessions_cmd])
                ltac:(vm_compute; reflexivity)
                ltac:(vm_compute; reflexivity)
                ltac:(vm_compute; reflexivity)))
             ltac:(vm_compute; reflexivity))
             ltac:(vm_compute; reflexivity)).
  - exact (proj1 (proj2 (proj2 (proj2
             (@connect_to_iscsi_portal_login (fake_host (login_fake 15))
                (Connector false "default" 3) iscsi_props
                "10.0.0.5:3260" (PStr "iqn.2010-x:vol1")
                "tcp: [1] 10.0.0.9:3260,1 iqn.2010-x:other"
                (fake_state 0 [])
                (fake_state 0 [Exec probe_cmd; Exec sessions_cmd])
                ltac:(vm_compute; reflexivity)
                ltac:(vm_compute; reflexivity)
                ltac:(vm_compute; reflexivity)))
             ltac:(vm_compute; reflexivity))
             ltac:(vm_compute; reflexivity))
             0%nat (Some "", Some "") 0%nat
             ltac:(vm_compute; reflexivity) ltac:(vm_compute; reflexivity)).
  - exact (proj1 (proj2 (proj2 (proj2 (proj2
             (@connect_to_iscsi_portal_login (fake_host (login_fake 8))
                (Connector false "default" 3) iscsi_props
                "10.0.0.5:3260" (PStr "iqn.2010-x:vol1")
                "tcp: [1] 10.0.0.9:3260,1 iqn.2010-x:other"
                (fake_state 0 [])
                (fake_state 0 [Exec probe_cmd; Exec sessions_cmd])
                ltac:(vm_compute; reflexivity)
                ltac:(vm_compute; reflexivity)
                ltac:(vm_compute; reflexivity)))
             ltac:(vm_compute; reflexivity))
             ltac:(vm_compute; reflexivity)))
             8 0%nat
             ltac:(vm_compute; reflexivity) ltac:(lia)).
Defined.

Example already_logged_in :
  @_connect_to_iscsi_portal (fake_host logged_in_fake)
     (Connector false "default" 3) iscsi_props (fake_state 0 [])
  = (Returns true, fake_state 0 [Exec probe_cmd; Exec sessions_cmd]).
Proof. vm_compute. reflexivity. Qed.

(** A listing cut short: the connection fails on it. *)
Example listing_cut_short :
  fst (@_connect_to_iscsi_portal
         (fake_host (Fake None [] [] [] []
                          (fun c => if existsb (String.eqb "session") (argv c)
                                    then "tcp: [3] 10.0.0.5:3260,1"
                                    else "")
                          no_failure))
         (Connector false "default" 3) iscsi_props (fake_state 0 []))
  = Raises IndexError.
Proof. vm_compute. reflexivity. Qed.

End ISCSISessionFacts.

(** ** iSCSI: the multipath fan-out *)

Module ISCSIFanOutFacts.

Import ISCSI MonadFacts ISCSISessionFacts.

Lemma atom_eqb_key (a b : atom) :
  atom_eqb a b = true <-> atom_key a = atom_key b.
Proof.
  destruct a as [|x|n|s], b as [|y|m|t]; cbn;
    try (split; [discriminate | intros Heq; discriminate Heq]);
    try (split; reflexivity).
  - destruct x, y; cbn; split; try reflexivity; try discriminate;
      intros Heq; discriminate Heq.
  - rewrite Z.eqb_eq. split; [now intros -> | now intros [= ->]].
  - rewrite Z.eqb_eq. split; [now intros -> | now intros [= ->]].
  - rewrite Z.eqb_eq. split; [now intros -> | now intros [= ->]].
  - rewrite String.eqb_eq. split; [now intros -> | now intros [= ->]].
Qed.

Lemma atom_eqb_refl (a : atom) : atom_eqb a a = true.
Proof. now apply atom_eqb_key. Qed.

Lemma atom_eqb_trans (a b c : atom) :
  atom_eqb a b = true -> atom_eqb b c = true -> atom_eqb a c = true.
Proof. rewrite !atom_eqb_key. congruence. Qed.

Lemma atom_eqb_sym (a b : atom) : atom_eqb a b = atom_eqb b a.
Proof.
  destruct (atom_eqb a b) eqn:Hab, (atom_eqb b a) eqn:Hba; try reflexivity.
  - apply atom_eqb_key in Hab. symmetry in Hab. apply atom_eqb_key in Hab.
    congruence.
  - apply atom_eqb_key in Hba. symmetry in Hba. apply atom_eqb_key in Hba.
    congruence.
Qed.

(** Every member of a list is among its distinct members, up to [==]. *)
Lemma distinct_covers (l : list atom) (x : atom) :
  In x l -> exists y : atom, In y (distinct l) /\ atom_eqb y x = true.
Proof.
  induction l as [|a l IH]; [contradiction|].
  intros [->|Hin]; cbn [distinct].
  - exists x. split; [now left | apply atom_eqb_refl].
  - destruct (IH Hin) as (y & Hy & Hyx).
    destruct (atom_eqb a y) eqn:Hay.
    + exists a. split; [now left | now apply atom_eqb_trans with y].
    + exists y. split; [|exact Hyx].
      right. apply filter_In. split; [exact Hy | now rewrite Hay].
Qed.

(** The distinct members come from the list. *)
Lemma distinct_members (l : list atom) (y : atom) :
  In y (distinct l) -> In y l.
Proof.
  revert y. induction l as [|a l IH]; intros y; [contradiction|].
  cbn [distinct]. intros [->|Hin]; [now left|].
  right. apply IH. now apply filter_In in Hin.
Qed.

(** No two of the distinct members are equal. *)
Lemma distinct_pairwise (l : list atom) :
  ForallOrdPairs (fun a b => atom_eqb a b = false) (distinct l).
Proof.
  induction l as [|a l IH]; cbn [distinct]; constructor.
  - apply List.Forall_forall. intros b Hb. apply filter_In in Hb.
    now destruct (atom_eqb a b).
  - clear -IH. induction IH as [|b l' Hb Hl' IH']; cbn; [constructor|].
    destruct (negb (atom_eqb a b)); [|exact IH'].
    constructor; [|exact IH'].
    apply List.Forall_forall. intros c Hc. apply filter_In in Hc.
    rewrite List.Forall_forall in Hb. now apply Hb.
Qed.

Lemma pairwise_once (l : list atom) (p : atom) :
  ForallOrdPairs (fun a b => atom_eqb a b = false) l ->
  In p l -> length (List.filter (atom_eqb p) l) = 1%nat.
Proof.
  induction 1 as [|a l Ha Hl IH]; [contradiction|].
  rewrite List.Forall_forall in Ha.
  intros [->|Hin]; cbn [List.filter].
  - rewrite atom_eqb_refl. cbn [length]. f_equal.
    clear -Ha. induction l as [|b l IH]; [reflexivity|].
    cbn [List.filter]. rewrite (Ha b) by now left.
    apply IH. intros c Hc. apply Ha. now right.
  - rewrite atom_eqb_sym, (Ha p Hin). now apply IH.
Qed.

Lemma filter_length_permutation {A} (f : A -> bool) (l m : list A) :
  Permutation l m -> length (List.filter f l) = length (List.filter f m).
Proof.
  induction 1 as [|x l m _ IH|x y l|l m n _ IH1 _ IH2]; cbn [List.filter].
  - reflexivity.
  - destruct (f x); cbn [length]; now rewrite IH.
  - now destruct (f x), (f y).
  - now rewrite IH1.
Qed.

Lemma zip2_repeat {A B} (l : list A) (x : B) :
  zip2 l (repeat x (length l)) = map (fun p => (p, x)) l.
Proof. induction l as [|a l IH]; cbn; [reflexivity | now rewrite IH]. Qed.

Lemma not_a_login_filter (new : list event) :
  Forall not_a_login new -> List.filter is_login new = [].
Proof.
  induction 1 as [|e new He _ IH]; [reflexivity|].
  cbn [List.filter]. rewrite IH.
  destruct (is_login e) eqn:Hlogin; [|reflexivity].
  exfalso. destruct e as [c| | | | |]; try discriminate Hlogin.
  apply (He c eq_refl). cbn [is_login] in Hlogin.
  destruct (argv c) as [|a1 [|a2 [|a3 [|a4 [|a5 [|a6 [|a7 [|a8 [|a9 tl]]]]]]]]];
    try discriminate Hlogin.
  reflexivity.
Qed.

Lemma pair_props_portal (props : gmap string pyval) (x : atom * pyval) :
  pair_props props x !! "target_portal" = Some (Atom (fst x)).
Proof.
  unfold pair_props. rewrite lookup_insert_ne by discriminate.
  apply lookup_insert_eq.
Qed.

Lemma pair_props_iqn (props : gmap string pyval) (x : atom * pyval) :
  pair_props props x !! "target_iqn" = Some (snd x).
Proof. unfold pair_props. apply lookup_insert_eq. Qed.

Section FanOut.
Context {H : Host}.
Variable self : connector.

Lemma connect_to_iscsi_portal_adds (props : gmap string pyval) :
  adds anything (_connect_to_iscsi_portal self props).
Proof.
  unfold _connect_to_iscsi_portal, node_record_and_sessions,
    login_unless_logged_in, login_command, _iscsiadm_update,
    _run_iscsiadm_bare, _run_iscsiadm, _execute.
  adds_steps ltac:(exact I).
Qed.

(** The establishment of a session starts with the look-up of the node
    record. *)
Lemma node_record_starts (props : gmap string pyval) (x : atom * pyval) :
  starts_with (Exec (probe_of x))
              (node_record_and_sessions self (pair_props props x)).
Proof.
  unfold node_record_and_sessions.
  apply starts_bind.
  - apply starts_catch.
    + apply starts_bind; [|intros; apply adds_ret].
      unfold _run_iscsiadm, getitem.
      rewrite pair_props_iqn, pair_props_portal.
      intros st. unfold bind, lift. cbn [outcome_of].
      apply starts_perform.
    + intros []; unfold _run_iscsiadm, _execute;
        adds_steps ltac:(exact I).
  - intros _. unfold _iscsiadm_update, _run_iscsiadm_bare, _run_iscsiadm,
      _execute.
    adds_steps ltac:(exact I).
Qed.

(** A login that is needed is the first thing that follows the listing. *)
Lemma login_starts (props : gmap string pyval) (iqn portal : pyval)
    (out : string) :
  props !! "target_iqn" = Some iqn ->
  props !! "target_portal" = Some portal ->
  not_logged_in props out = Ok true ->
  starts_with (Exec (login_of iqn portal))
              (login_unless_logged_in props out).
Proof.
  intros Hiqn Hportal Hneeded. unfold login_unless_logged_in.
  rewrite Hneeded. intros st. unfold bind at 1. unfold lift at 1.
  cbn [outcome_of]. revert st.
  apply starts_bind.
  - apply starts_catch.
    + apply starts_bind; [|intros; apply adds_ret].
      unfold login_command, _run_iscsiadm, getitem.
      rewrite Hiqn, Hportal.
      intros st. unfold bind, lift. cbn [outcome_of].
      apply starts_perform.
    + intros []; adds_steps ltac:(exact I).
  - intros []; unfold _iscsiadm_update, _run_iscsiadm, _execute;
      adds_steps ltac:(exact I).
Qed.

(** What a session establishment that returns has done. *)
Lemma connect_to_iscsi_portal_returns (props : gmap string pyval)
    (x : atom * pyval) (st st2 : State) (b : bool) :
  _connect_to_iscsi_portal self (pair_props props x) st = (Returns b, st2) ->
  exists (portal out : string) (st1 : State) (new : list event),
    fst x = AStr portal
    /\ node_record_and_sessions self (pair_props props x) st
       = (Returns out, st1)
    /\ log st1 = (log st ++ Exec (probe_of x) :: new)%list
    /\ List.filter is_login new = []
    /\ (if existsb (session_line_matches portal (snd x))
                   (PyStr.splitlines out)
        then st2 = st1
        else exists after : list event,
            log st2
            = (log st1 ++ Exec (login_of (snd x) (PStr portal)) :: after)%list).
Proof.
  intros Hrun. unfold _connect_to_iscsi_portal in Hrun.
  destruct (node_record_and_sessions self (pair_props props x) st)
    as [[out|e|] st1] eqn:Hnode;
    [ rewrite (bind_returns _ _ _ _ _ Hnode) in Hrun
    | rewrite (bind_raises _ _ _ _ _ Hnode) in Hrun; discriminate Hrun
    | unfold bind in Hrun; rewrite Hnode in Hrun; discriminate Hrun ].
  (* the listing is read without error: no short line, a portal string *)
  destruct (not_logged_in (pair_props props x) out) as [needed|e] eqn:Hneeded;
    [| unfold login_unless_logged_in in Hrun; rewrite Hneeded in Hrun;
       discriminate Hrun ].
  destruct (existsb session_line_short (PyStr.splitlines out)) eqn:Hshort;
    [ rewrite (not_logged_in_short _ _ Hshort) in Hneeded;
      discriminate Hneeded |].
  assert (exists portal : string, fst x = AStr portal) as (portal & Hx).
  { destruct (session_entries_lines "" (snd x) _ Hshort) as (ps & Hps & _).
    unfold not_logged_in in Hneeded. rewrite Hps in Hneeded.
    unfold stripped_portal_of, getitem in Hneeded.
    rewrite pair_props_portal in Hneeded. cbn [and_then] in Hneeded.
    destruct (fst x) as [| | |portal]; try discriminate Hneeded.
    now exists portal. }
  pose proof (pair_props_portal props x) as Hportal. rewrite Hx in Hportal.
  rewrite (not_logged_in_lines _ portal (snd x) out Hportal
             (pair_props_iqn props x) Hshort) in Hneeded.
  exists portal, out, st1.
  destruct (node_record_starts props x st) as (new & Hlog).
  rewrite Hnode in Hlog. cbn [snd] in Hlog. exists new.
  split; [exact Hx|]. split; [reflexivity|]. split; [exact Hlog|]. split.
  - destruct (node_record_and_sessions_adds self (pair_props props x) st)
      as (new' & Hlog' & Hall).
    rewrite Hnode in Hlog'. cbn [snd] in Hlog'. rewrite Hlog in Hlog'.
    apply app_inv_head in Hlog'. subst new'.
    apply not_a_login_filter. now inversion Hall.
  - destruct (existsb (session_line_matches portal (snd x))
                      (PyStr.splitlines out)) eqn:Hmatch.
    + unfold login_unless_logged_in in Hrun.
      rewrite (not_logged_in_lines _ portal (snd x) out Hportal
                 (pair_props_iqn props x) Hshort), Hmatch in Hrun.
      cbn in Hrun. now injection Hrun as _ <-.
    + destruct (login_starts (pair_props props x) (snd x) (PStr portal) out
                  (pair_props_iqn props x) Hportal) with (st := st1)
        as (after & Hafter).
      { now rewrite (not_logged_in_lines _ portal (snd x) out Hportal
                       (pair_props_iqn props x) Hshort), Hmatch. }
      rewrite Hrun in Hafter. now exists after.
Qed.

(** A loop over the targets that runs to its end has established the
    sessions one after the other. *)
Lemma connect_to_all_returns (props : gmap string pyval)
    (targets : list (atom * pyval)) :
  forall st st' : State,
    connect_to_all self props targets st = (Returns tt, st') ->
    sessions_established self props targets st st'.
Proof.
  induction targets as [|x rest IH]; intros st st' Hrun.
  - cbn in Hrun. now injection Hrun as <-.
  - unfold connect_to_all in Hrun. cbn [for_each] in Hrun.
    fold (pair_props props x) in Hrun.
    destruct (_connect_to_iscsi_portal self (pair_props props x) st)
      as [[b|e|] st2] eqn:Hx.
    + unfold bind at 1 2 in Hrun. rewrite Hx in Hrun. cbn [ret] in Hrun.
      destruct (connect_to_iscsi_portal_returns props x st st2 b Hx)
        as (portal & out & st1 & new & H1 & H2 & H3 & H4 & H5).
      cbn [sessions_established].
      exists portal, out, st1, st2, new.
      repeat (split; [assumption|]).
      apply IH. exact Hrun.
    + unfold bind at 1 2 in Hrun. rewrite Hx in Hrun. discriminate Hrun.
    + unfold bind at 1 2 in Hrun. rewrite Hx in Hrun. discriminate Hrun.
Qed.

(** The loop ends with the first session establishment that raises. *)
Lemma connect_to_all_raises (props : gmap string pyval)
    (before : list (atom * pyval)) (x : atom * pyval)
    (after : list (atom * pyval)) (e : exn) :
  forall st st0 st1 : State,
    connect_to_all self props before st = (Returns tt, st0) ->
    _connect_to_iscsi_portal self (pair_props props x) st0 = (Raises e, st1) ->
    connect_to_all self props (before ++ x :: after) st = (Raises e, st1).
Proof.
  induction before as [|y before IH]; intros st st0 st1 Hbefore Hx.
  - cbn in Hbefore. injection Hbefore as <-.
    unfold connect_to_all. cbn [app for_each].
    fold (pair_props props x). unfold bind at 1 2. now rewrite Hx.
  - unfold connect_to_all in Hbefore |- *.
    cbn [app for_each] in Hbefore |- *.
    unfold bind at 1 in Hbefore. unfold bind at 1.
    destruct (bind (_connect_to_iscsi_portal self _) _ st)
      as [[[]|e'|] st2]; try discriminate Hbefore.
    now apply IH with st0.
Qed.

(** C2.  When the properties give no [target_iqns] and a set is iterated
    over in some order of its members: if the set of discovered portals
    and the set of discovered portals whose iqn is the caller's
    [target_iqn] have the same size, the targets are the caller's iqn
    paired with every discovered portal, each once, in the order of the
    set; otherwise they are the discovered pairs, unchanged.  A loop over
    the targets that runs to its end has, for one target after the other,
    looked up the node record and listed the sessions, and then issued the
    login of the target unless the listing shows a session on it; and the
    loop ends with the first session establishment that raises, without a
    command for the targets after it. *)
Theorem multipath_fan_out (props : gmap string pyval) (main_iqn : pyval)
    (ips_iqns : list (atom * pyval)) :
  props !! "target_iqns" = None ->
  props !! "target_iqn" = Some main_iqn ->
  (forall l : list atom, Permutation (set_order l) l) ->
  let all_portals := distinct (map fst ips_iqns) in
  let match_portals :=
    distinct (map fst (List.filter (fun x => py_eqb (snd x) main_iqn)
                                   ips_iqns)) in
  (length all_portals = length match_portals ->
   exists portals : list atom,
     Permutation portals all_portals
     /\ multipath_targets props ips_iqns
        = Ok (map (fun p => (p, main_iqn)) portals)
     /\ (forall x, In x ips_iqns ->
           exists p, In p portals /\ atom_eqb p (fst x) = true)
     /\ (forall p, In p portals ->
           In p (map fst ips_iqns)
           /\ length (List.filter (atom_eqb p) portals) = 1%nat))
  /\ (length all_portals <> length match_portals ->
      multipath_targets props ips_iqns = Ok ips_iqns)
  /\ (forall (targets : list (atom * pyval)) (st st' : State),
        connect_to_all self props targets st = (Returns tt, st') ->
        sessions_established self props targets st st')
  /\ (forall (before : list (atom * pyval)) (x : atom * pyval)
        (after : list (atom * pyval)) (e : exn) (st st0 st1 : State),
        connect_to_all self props before st = (Returns tt, st0) ->
        _connect_to_iscsi_portal self (pair_props props x) st0
        = (Raises e, st1) ->
        connect_to_all self props (before ++ x :: after) st
        = (Raises e, st1)).
Proof.
  intros Hnone Hmain Horder all_portals match_portals.
  assert (multipath_targets props ips_iqns = Ok (fan_out main_iqn ips_iqns))
    as Htargets.
  { unfold multipath_targets, get_default, getitem.
    now rewrite Hnone, Hmain. }
  assert (length (py_set (map fst ips_iqns)) = length all_portals) as Hall.
  { apply Permutation_length, Horder. }
  assert (length (py_set (map fst (List.filter
                                     (fun x => py_eqb (snd x) main_iqn)
                                     ips_iqns)))
          = length match_portals) as Hmatch.
  { apply Permutation_length, Horder. }
  split; [|split; [|split]].
  - intros Hsize. exists (py_set (map fst ips_iqns)).
    split; [apply Horder|]. split; [|split].
    + rewrite Htargets. unfold fan_out.
      rewrite Hmatch, <- Hsize, <- Hall, Nat.eqb_refl.
      now rewrite zip2_repeat.
    + intros x Hx.
      destruct (distinct_covers (map fst ips_iqns) (fst x)) as (p & Hp & Hpx).
      { now apply in_map. }
      exists p. split; [|exact Hpx].
      apply (Permutation_in p (Permutation_sym (Horder _))). exact Hp.
    + intros p Hp.
      assert (In p all_portals) as Hin.
      { apply (Permutation_in p (Horder _)). exact Hp. }
      split; [now apply distinct_members|].
      rewrite (filter_length_permutation _ _ all_portals (Horder _)).
      apply pairwise_once; [apply distinct_pairwise | exact Hin].
  - intros Hsize. rewrite Htargets. unfold fan_out.
    rewrite Hmatch, Hall.
    apply Nat.eqb_neq in Hsize. now rewrite Hsize.
  - intros targets. apply connect_to_all_returns.
  - intros before x after e st st0 st1.
    apply connect_to_all_raises.
Qed.

End FanOut.

Lemma multipath_fan_out_witness :
  (exists portals : list atom,
     Permutation portals (distinct (map fst shared_iqn))
     /\ @multipath_targets (fake_host quiet_fake) iscsi_props shared_iqn
        = Ok (map (fun p => (p, PStr "iqn.2010-x:vol1")) portals))
  /\ @multipath_targets (fake_host quiet_fake) iscsi_props distinct_iqns
     = Ok distinct_iqns
  /\ @sessions_established (fake_host quiet_fake)
       (Connector true "default" 3) iscsi_props one_pair
       (fake_state 0 [])
       (fake_state 0 [Exec probe_cmd; Exec sessions_cmd;
                      Exec login_cmd; Exec startup_cmd])
  /\ @connect_to_all (fake_host second_lookup_fake)
       (Connector true "default" 3) iscsi_props shared_iqn (fake_state 0 [])
     = (Raises (ProcessExecutionError 6),
        fake_state 0
          [Exec probe_cmd; Exec sessions_cmd; Exec login_cmd;
           Exec startup_cmd;
           Exec (probe_of (AStr "10.0.0.6:3260", PStr "iqn.2010-x:vol1"))]).
Proof.
  split; [|split; [|split]].
  - destruct (proj1 (@multipath_fan_out (fake_host quiet_fake)
                       (Connector true "default" 3) iscsi_props
                       (PStr "iqn.2010-x:vol1") shared_iqn
                       ltac:(vm_compute; reflexivity)
                       ltac:(vm_compute; reflexivity)
                       (fun l => Permutation_sym (Permutation_rev l)))
                    ltac:(vm_compute; reflexivity))
      as (portals & Hperm & Htargets & _).
    exists portals. split; [exact Hperm | exact Htargets].
  - exact (proj1 (proj2 (@multipath_fan_out (fake_host quiet_fake)
                           (Connector true "default" 3) iscsi_props
                           (PStr "iqn.2010-x:vol1") distinct_iqns
                           ltac:(vm_compute; reflexivity)
                           ltac:(vm_compute; reflexivity)
                           (fun l => Permutation_sym (Permutation_rev l))))
                 ltac:(vm_compute; discriminate)).
  - exact (proj1 (proj2 (proj2
             (@multipath_fan_out (fake_host quiet_fake)
                (Connector true "default" 3) iscsi_props
                (PStr "iqn.2010-x:vol1") one_pair
                ltac:(vm_compute; reflexivity)
                ltac:(vm_compute; reflexivity)
                (fun l => Permutation_sym (Permutation_rev l)))))
             one_pair (fake_state 0 [])
             (fake_state 0 [Exec probe_cmd; Exec sessions_cmd;
                            Exec login_cmd; Exec startup_cmd])
             ltac:(vm_compute; reflexivity)).
  - exact (proj2 (proj2 (proj2
             (@multipath_fan_out (fake_host second_lookup_fake)
                (Connector true "default" 3) iscsi_props
                (PStr "iqn.2010-x:vol1") shared_iqn
                ltac:(vm_compute; reflexivity)
                ltac:(vm_compute; reflexivity)
                (fun l => Permutation_sym (Permutation_rev l)))))
             one_pair (AStr "10.0.0.6:3260", PStr "iqn.2010-x:vol1")
             [(AStr "10.0.0.7:3260", PStr "iqn.2010-x:vol1")]
             (ProcessExecutionError 6)
             (fake_state 0 [])
             (fake_state 0 [Exec probe_cmd; Exec sessions_cmd;
                            Exec login_cmd; Exec startup_cmd])
             (fake_state 0
                [Exec probe_cmd; Exec sessions_cmd; Exec login_cmd;
                 Exec startup_cmd;
                 Exec (probe_of (AStr "10.0.0.6:3260",
                                 PStr "iqn.2010-x:vol1"))])
             ltac:(vm_compute; reflexivity)
             ltac:(vm_compute; reflexivity)).
Defined.

(** C2 as it is written does not hold: not every target gets a login.
    On a host that lists a session on each of the three portals, the loop
    over the three targets of one iqn on three portals runs to its end
    with two commands per target and no login; and on a host where the
    look-up of the node record of the second portal fails, the loop raises
    after the login of the first target and no command names the third
    portal. *)
Lemma multipath_login_counterexample :
  (exists (targets : list (atom * pyval))
          (st' : @State (fake_host three_sessions_fake)),
     @multipath_targets (fake_host three_sessions_fake) iscsi_props shared_iqn
     = Ok targets
     /\ length targets = 3%nat
     /\ @connect_to_all (fake_host three_sessions_fake)
          (Connector true "default" 3) iscsi_props targets (fake_state 0 [])
        = (Returns tt, st')
     /\ length (log st') = 6%nat
     /\ List.filter is_login (log st') = [])
  /\ (exists (st' : @State (fake_host second_lookup_fake)),
        @connect_to_all (fake_host second_lookup_fake)
          (Connector true "default" 3) iscsi_props shared_iqn
          (fake_state 0 [])
        = (Raises (ProcessExecutionError 6), st')
        /\ List.filter is_login (log st') = [Exec login_cmd]
        /\ existsb names_third_portal (log st') = false).
Proof.
  split.
  - eexists. eexists. vm_compute. repeat split; reflexivity.
  - eexists. vm_compute. repeat split; reflexivity.
Qed.

(** The fan-out on a host that iterates over a set from the member it
    got last: portals given twice are taken once. *)
Example fan_out_mixed :
  @multipath_targets (fake_host quiet_fake) iscsi_props
    [(AStr "10.0.0.5:3260", PStr "iqn.2010-x:vol1");
     (AStr "10.0.0.6:3260", PStr "iqn.2010-x:vol1");
     (AStr "10.0.0.6:3260", PStr "iqn.2010-x:vol2");
     (AStr "10.0.0.5:3260", PStr "iqn.2010-x:vol2")]
  = Ok [(AStr "10.0.0.6:3260", PStr "iqn.2010-x:vol1");
        (AStr "10.0.0.5:3260", PStr "iqn.2010-x:vol1")].
Proof. vm_compute. reflexivity. Qed.

End ISCSIFanOutFacts.

(** ** iSCSI: disconnecting a target *)

Module ISCSIDisconnectFacts.

Import ISCSI MonadFacts.

Section Disconnect.
Context {H : Host}.
Variable self : connector.

Lemma get_device_path_default (props : gmap string pyval)
    (targets : list target) (st : State) :
  transport self = "default" ->
  _get_all_targets props = Ok targets ->
  _get_device_path self props st
  = (Returns (map (fun x => "/dev/disk/by-path/" +:+ by_path_name x) targets),
     st).
Proof.
  intros Hdefault Htargets. unfold _get_device_path. run_monad.
  now rewrite Htargets, Hdefault.
Qed.

(** The properties [_iterate_all_targets] makes for a target are in the
    singular form: they name the portal and the iqn, and their only target
    is that one. *)
Lemma iterate_all_targets_singular (props : gmap string pyval)
    (l : list (gmap string pyval)) :
  _iterate_all_targets props = Ok l ->
  Forall (fun p : gmap string pyval =>
            exists ip iqn lun : pyval,
              p !! "target_portal" = Some ip
              /\ p !! "target_iqn" = Some iqn
              /\ _get_all_targets p = Ok [(ip, iqn, lun)])
         l.
Proof.
  unfold _iterate_all_targets.
  destruct (_get_all_targets props) as [targets|e]; [|discriminate].
  cbn [and_then]. intros [= <-].
  apply List.Forall_forall. intros p Hin.
  apply in_map_iff in Hin. destruct Hin as ([[ip iqn] lun] & <- & _).
  exists ip, iqn, lun.
  assert (forall k : string,
            k <> "target_portals" -> k <> "target_iqns" ->
            k <> "target_luns" ->
            delete "target_luns"
              (delete "target_iqns"
                 (delete "target_portals"
                    (<["target_lun" := lun]>
                       (<["target_iqn" := iqn]>
                          (<["target_portal" := ip]> props))))) !! k
            = <["target_lun" := lun]>
                (<["target_iqn" := iqn]>
                   (<["target_portal" := ip]> props)) !! k) as Hkeep.
  { intros k H1 H2 H3. now rewrite !lookup_delete_ne by congruence. }
  split; [|split].
  - rewrite Hkeep by discriminate.
    rewrite lookup_insert_ne, lookup_insert_ne by discriminate.
    apply lookup_insert_eq.
  - rewrite Hkeep by discriminate.
    rewrite lookup_insert_ne by discriminate. apply lookup_insert_eq.
  - unfold _get_all_targets, has_key, getitem, get_default.
    cbn [forallb]. rewrite lookup_delete_ne by discriminate.
    rewrite lookup_delete_ne by discriminate.
    rewrite lookup_delete_eq. cbn [andb].
    rewrite !Hkeep by discriminate.
    rewrite (lookup_insert_ne _ "target_lun" "target_portal") by discriminate.
    rewrite (lookup_insert_ne _ "target_iqn" "target_portal") by discriminate.
    rewrite lookup_insert_eq. cbn [and_then].
    rewrite (lookup_insert_ne _ "target_lun" "target_iqn") by discriminate.
    rewrite lookup_insert_eq. cbn [and_then].
    now rewrite lookup_insert_eq.
Qed.

(** On the default transport every such target has exactly one candidate
    path, so it is never left alone for want of one. *)
Lemma default_transport_one_candidate (props : gmap string pyval)
    (l : list (gmap string pyval)) (st : State) :
  transport self = "default" ->
  _iterate_all_targets props = Ok l ->
  Forall (fun p : gmap string pyval =>
            exists path : string,
              _get_device_path self p st = (Returns [path], st))
         l.
Proof.
  intros Hdefault Hiter.
  eapply List.Forall_impl; [|exact (iterate_all_targets_singular props l Hiter)].
  intros p (ip & iqn & lun & _ & _ & Htargets).
  eexists. now rewrite (get_device_path_default p _ st Hdefault Htargets).
Qed.

(** The logout: node startup back to manual, logout, delete the record. *)
Lemma disconnect_from_iscsi_portal_commands (props : gmap string pyval)
    (portal iqn : pyval) (st : State) :
  props !! "target_portal" = Some portal ->
  props !! "target_iqn" = Some iqn ->
  (exists new : list event,
     log (snd (_disconnect_from_iscsi_portal props st))
     = (log st ++ Exec (startup_of iqn portal "manual" [0; 21; 255]) :: new)%list)
  /\ (forall r1 w1 r2 w2 r3 w3,
        execute (startup_of iqn portal "manual" [0; 21; 255]) (world st)
        = (Ok r1, w1) ->
        execute (logout_of iqn portal) w1 = (Ok r2, w2) ->
        execute (delete_of iqn portal) w2 = (Ok r3, w3) ->
        _disconnect_from_iscsi_portal props st
        = (Returns tt,
           MkState w3
             (log st ++ [Exec (startup_of iqn portal "manual" [0; 21; 255]);
                         Exec (logout_of iqn portal);
                         Exec (delete_of iqn portal)]))).
Proof.
  intros Hportal Hiqn. split.
  - revert st. change (starts_with
                         (Exec (startup_of iqn portal "manual" [0; 21; 255]))
                         (_disconnect_from_iscsi_portal props)).
    unfold _disconnect_from_iscsi_portal.
    apply starts_bind.
    + unfold _iscsiadm_update, _run_iscsiadm, getitem.
      rewrite Hiqn, Hportal. intros st. unfold bind, lift. cbn [outcome_of].
      apply starts_perform.
    + intros _. unfold _run_iscsiadm, _execute. adds_steps ltac:(exact I).
  - intros r1 w1 r2 w2 r3 w3 H1 H2 H3.
    unfold startup_of, logout_of, delete_of, iscsiadm_node in *.
    unfold _disconnect_from_iscsi_portal, _iscsiadm_update, _run_iscsiadm,
      getitem.
    rewrite Hiqn, Hportal. run_monad. cbn in H1, H2, H3 |- *.
    rewrite H1. cbn. rewrite H2. cbn. rewrite H3. cbn.
    now rewrite <- !app_assoc.
Qed.

(** C3, as the code has it.  A target without candidate device path (on
    an offload transport the candidates are glob matches) is left alone:
    no removal and no logout.  Otherwise the SCSI device of the first
    candidate is removed and its disappearance awaited when the SCSI
    utility resolves a device name for it, and then the portal logout
    (startup to manual, logout, delete) is run if and only if none of the
    driver's block devices starts with /dev/disk/by-path/, contains
    ip-{portal}-iscsi-{iqn}-lun- and exists; so the node of a second LUN of
    the same target keeps the session. *)
Theorem disconnect_volume_iscsi_logout (props : gmap string pyval)
    (portal iqn : pyval) (st : State) :
  props !! "target_portal" = Some portal ->
  props !! "target_iqn" = Some iqn ->
  let device_byname :=
    "ip-" +:+ py_str portal +:+ "-iscsi-" +:+ py_str iqn +:+ "-lun-" in
  (_get_device_path self props st = (Returns [], st) ->
   _disconnect_volume_iscsi self props st = (Returns tt, st))
  /\ (forall (host_device : string) (rest : list string) (st1 : State),
        _get_device_path self props st = (Returns (host_device :: rest), st) ->
        remove_device_node host_device st = (Returns tt, st1) ->
        (devices_in_use device_byname (world st1) = [] ->
         _disconnect_volume_iscsi self props st
         = _disconnect_from_iscsi_portal props st1
         /\ (exists new : list event,
               log (snd (_disconnect_volume_iscsi self props st))
               = (log st1
                  ++ Exec (startup_of iqn portal "manual" [0; 21; 255])
                  :: new)%list)
         /\ (forall r1 w1 r2 w2 r3 w3,
               execute (startup_of iqn portal "manual" [0; 21; 255])
                       (world st1) = (Ok r1, w1) ->
               execute (logout_of iqn portal) w1 = (Ok r2, w2) ->
               execute (delete_of iqn portal) w2 = (Ok r3, w3) ->
               _disconnect_volume_iscsi self props st
               = (Returns tt,
                  MkState w3
                    (log st1
                     ++ [Exec (startup_of iqn portal "manual" [0; 21; 255]);
                         Exec (logout_of iqn portal);
                         Exec (delete_of iqn portal)]))))
        /\ (devices_in_use device_byname (world st1) <> [] ->
            _disconnect_volume_iscsi self props st = (Returns tt, st1)))
  /\ (forall (host_device name : string) (w1 w2 : World),
        get_name_from_path (world st) host_device = Some name ->
        name <> "" ->
        remove_scsi_device name (world st) = (Ok tt, w1) ->
        wait_for_volume_removal host_device w1 = (Ok tt, w2) ->
        remove_device_node host_device st
        = (Returns tt,
           MkState w2 (log st ++ [RemoveScsiDevice name;
                                  WaitForVolumeRemoval host_device])))
  /\ (forall host_device : string,
        get_name_from_path (world st) host_device = None
        \/ get_name_from_path (world st) host_device = Some "" ->
        remove_device_node host_device st = (Returns tt, st))
  /\ (forall (w : World) (dev : string),
        In dev (devices_in_use device_byname w) <->
        In dev (get_all_block_devices w)
        /\ PyStr.startswith dev "/dev/disk/by-path/" = true
        /\ PyStr.contains dev device_byname = true
        /\ path_exists w dev = true).
Proof.
  intros Hportal Hiqn device_byname.
  assert (device_byname_of props = Ok device_byname) as Hbyname.
  { unfold device_byname_of, getitem. now rewrite Hportal, Hiqn. }
  split; [|split; [|split; [|split]]].
  - intros Hpath. unfold _disconnect_volume_iscsi, bind. now rewrite Hpath.
  - intros host_device rest st1 Hpath Hremove.
    assert (_disconnect_volume_iscsi self props st
            = match devices_in_use device_byname (world st1) with
              | [] => _disconnect_from_iscsi_portal props st1
              | _ :: _ => (Returns tt, st1)
              end) as Heq.
    { unfold _disconnect_volume_iscsi, bind at 1. rewrite Hpath.
      unfold bind at 1. rewrite Hremove.
      unfold bind at 1, lift. rewrite Hbyname. cbn [outcome_of].
      unfold bind, observe.
      now destruct (devices_in_use device_byname (world st1)). }
    rewrite Heq. split.
    + intros Hnone. rewrite Hnone.
      destruct (disconnect_from_iscsi_portal_commands props portal iqn st1
                  Hportal Hiqn) as [Hfirst Hall].
      split; [reflexivity | split; [exact Hfirst | exact Hall]].
    + intros Hsome.
      destruct (devices_in_use device_byname (world st1)) eqn:Hdevs;
        [contradiction | reflexivity].
  - intros host_device name w1 w2 Hname Hne Hrm Hwait.
    unfold remove_device_node. run_monad. rewrite Hname.
    unfold truthy, PStr.
    destruct (String.eqb name "") eqn:Hempty;
      [apply String.eqb_eq in Hempty; contradiction|].
    cbn [negb]. rewrite Hrm. cbn. rewrite Hwait. cbn.
    now rewrite <- app_assoc.
  - intros host_device [Hname|Hname]; unfold remove_device_node; run_monad;
      rewrite Hname; reflexivity.
  - intros w dev. unfold devices_in_use. rewrite filter_In.
    rewrite !Bool.andb_true_iff. tauto.
Qed.

End Disconnect.

Lemma disconnect_volume_iscsi_logout_witness :
  @_disconnect_volume_iscsi (fake_host two_luns_fake)
     (Connector false "default" 3) iscsi_props (fake_state 0 [])
  = (Returns tt,
     fake_state 0 [RemoveScsiDevice lun0_node; WaitForVolumeRemoval lun0_node])
  /\ @remove_device_node (fake_host two_luns_fake) lun0_node (fake_state 0 [])
     = (Returns tt,
        fake_state 0 [RemoveScsiDevice lun0_node;
                      WaitForVolumeRemoval lun0_node]).
Proof.
  pose proof (@disconnect_volume_iscsi_logout (fake_host two_luns_fake)
                (Connector false "default" 3) iscsi_props
                (PStr "10.0.0.5:3260") (PStr "iqn.2010-x:vol1")
                (fake_state 0 [])
                ltac:(vm_compute; reflexivity)
                ltac:(vm_compute; reflexivity)) as (_ & Hlogout & Hremove & _).
  split.
  - exact (proj2 (Hlogout lun0_node []
                    (fake_state 0 [RemoveScsiDevice lun0_node;
                                   WaitForVolumeRemoval lun0_node])
                    ltac:(vm_compute; reflexivity)
                    ltac:(vm_compute; reflexivity))
                 ltac:(vm_compute; discriminate)).
  - exact (Hremove lun0_node lun0_node 0%nat 0%nat
             ltac:(reflexivity) ltac:(discriminate)
             ltac:(reflexivity) ltac:(reflexivity)).
Defined.

(** C3 as it is written does not hold: on the iser transport, with no
    device node left for the target (the glob finds nothing and the driver
    reports no block device), no logout is issued: nothing is done at
    all. *)
Lemma disconnect_volume_iscsi_counterexample :
  @devices_in_use (fake_host quiet_fake)
     "ip-10.0.0.5:3260-iscsi-iqn.2010-x:vol1-lun-" 0%nat = []
  /\ @_disconnect_volume_iscsi (fake_host quiet_fake)
       (Connector false "iser" 3) iscsi_props (fake_state 0 [])
     = (Returns tt, fake_state 0 [])
  /\ @_disconnect_volume_iscsi (fake_host quiet_fake)
       (Connector false "default" 3) iscsi_props (fake_state 0 [])
     = (Returns tt,
        fake_state 0 [RemoveScsiDevice lun0_node;
                      WaitForVolumeRemoval lun0_node;
                      Exec manual_cmd; Exec logout_cmd; Exec delete_cmd]).
Proof. repeat split; vm_compute; reflexivity. Qed.

End ISCSIDisconnectFacts.

(** ** iSCSI: waiting for the device node *)

Module ISCSIWaitFacts.

Import ISCSI MonadFacts.

Lemma strings_eqb_refl (l : list string) : strings_eqb l l = true.
Proof.
  induction l as [|x l IH]; [reflexivity|].
  cbn. now rewrite String.eqb_refl, IH.
Qed.

Lemma sleeps_app (l m : list event) : sleeps (l ++ m) = (sleeps l ++ sleeps m)%list.
Proof.
  induction l as [|e l IH]; [reflexivity|].
  destruct e; cbn; now rewrite IH.
Qed.

Lemma sleeps_round (multipath : bool) (iqn portal : pyval) :
  sleeps (rescan_round multipath iqn portal) = [].
Proof. now destruct multipath. Qed.

Lemma count_round (multipath : bool) (iqn portal : pyval) :
  count_rescans multipath iqn portal (rescan_round multipath iqn portal)
  = 1%nat.
Proof.
  unfold count_rescans. destruct multipath; [reflexivity|].
  cbn [rescan_round List.filter completes_rescan].
  now rewrite strings_eqb_refl.
Qed.

Lemma count_rescans_app (multipath : bool) (iqn portal : pyval)
    (l m : list event) :
  count_rescans multipath iqn portal (l ++ m)
  = (count_rescans multipath iqn portal l
     + count_rescans multipath iqn portal m)%nat.
Proof. unfold count_rescans. now rewrite List.filter_app, List.length_app. Qed.

(** The rounds: one rescan each, and the sleeps (tries+1)^2, (tries+2)^2,
    ... *)
Lemma rounds_count (multipath : bool) (iqn portal : pyval) (k : nat) :
  forall tries : Z,
    count_rescans multipath iqn portal (rounds multipath iqn portal k tries)
    = k.
Proof.
  induction k as [|k IH]; intros tries; [reflexivity|].
  cbn [rounds]. rewrite !count_rescans_app, count_round, IH.
  reflexivity.
Qed.

Lemma rounds_sleeps (multipath : bool) (iqn portal : pyval) (k : nat) :
  forall tries : Z,
    sleeps (rounds multipath iqn portal k tries)
    = map (fun i => (tries + Z.of_nat i) ^ 2) (seq 1 k).
Proof.
  induction k as [|k IH]; intros tries; [reflexivity|].
  cbn [rounds]. rewrite !sleeps_app, sleeps_round, IH.
  cbn [sleeps app seq map]. f_equal.
  rewrite <- (seq_shift k 1), map_map. apply map_ext. intros i. f_equal. lia.
Qed.

Lemma sum_squares_seq (n : nat) :
  fold_right Z.add 0 (map (fun i => (0 + Z.of_nat i) ^ 2) (seq 1 n))
  = sum_of_squares n.
Proof.
  induction n as [|n IH]; [reflexivity|].
  rewrite seq_S, map_app, fold_right_app. cbn [map fold_right sum_of_squares].
  rewrite <- IH. clear IH.
  generalize (seq 1 n). intros l.
  induction l as [|x l IHl]; cbn [map fold_right].
  - replace (Z.of_nat (1 + n)) with (Z.of_nat (S n)) by reflexivity. lia.
  - rewrite IHl. lia.
Qed.

Lemma rounds_total_sleep (multipath : bool) (iqn portal : pyval) (n : nat) :
  total_sleep (rounds multipath iqn portal n 0) = sum_of_squares n.
Proof. unfold total_sleep. now rewrite rounds_sleeps, sum_squares_seq. Qed.

Section Wait.
Context {H : Host}.
Variable self : connector.

Lemma run_iscsiadm_execute (props : gmap string pyval) (iqn portal : pyval)
    (arguments : list string) (check : list Z) (attempts : Z) (st : State) :
  props !! "target_iqn" = Some iqn ->
  props !! "target_portal" = Some portal ->
  _run_iscsiadm props arguments check attempts true st
  = _execute (iscsiadm_node iqn portal arguments check attempts) st.
Proof.
  intros Hiqn Hportal. unfold _run_iscsiadm, getitem, bind, lift.
  now rewrite Hiqn, Hportal.
Qed.

Variable props : gmap string pyval.
Variables iqn portal : pyval.
Variable targets : list target.

Hypothesis never_exists : forall (w : World) (p : string), path_exists w p = false.
Hypothesis rescans_succeed :
  forall (c : command) (w : World),
    In (Exec c) (rescan_round (use_multipath self) iqn portal) ->
    exists r (w' : World), execute c w = (Ok r, w').
Hypothesis has_iqn : props !! "target_iqn" = Some iqn.
Hypothesis has_portal : props !! "target_portal" = Some portal.
Hypothesis has_targets : _get_all_targets props = Ok targets.

Lemma none_exists_always (host_devices : list string) (st : State) :
  none_exists host_devices st = (Returns true, st).
Proof.
  unfold none_exists, observe. f_equal. f_equal.
  induction host_devices as [|d l IH]; [reflexivity|].
  cbn. now rewrite never_exists, IH.
Qed.

(** One rescan of the loop. *)
Lemma rescan_once (tries : Z) (hd : list string) (st : State) :
  exists (hd1 : list string) (w1 : World),
    (if use_multipath self then
       _rescan_iscsi;;; ret hd
     else
       host_devices <-
         (if negb (tries =? 0) then _get_device_path self props
          else ret hd);;
       _run_iscsiadm props ["--rescan"] [0] 1 true;;;
       ret host_devices) st
    = (Returns hd1,
       MkState w1 (log st ++ rescan_round (use_multipath self) iqn portal))
    /\ same_candidates self targets hd hd1.
Proof.
  unfold same_candidates.
  destruct (use_multipath self) eqn:Hmulti.
  - destruct (rescans_succeed node_rescan (world st)) as (r1 & w1 & He1);
      [now left|].
    destruct (rescans_succeed session_rescan w1) as (r2 & w2 & He2);
      [right; now left|].
    exists hd, w2. split; [|now split].
    unfold _rescan_iscsi, _run_iscsiadm_bare.
    erewrite bind_returns; cycle 1.
    { erewrite bind_returns by (apply execute_ok; exact He1).
      erewrite bind_returns by (apply execute_ok; exact He2).
      reflexivity. }
    cbn [log world rescan_round]. unfold ret.
    now rewrite <- app_assoc.
  - destruct (negb (tries =? 0)) eqn:Hfirst.
    + unfold _get_device_path at 1.
      destruct (String.eqb (transport self) "default") eqn:Htransport.
      * destruct (rescans_succeed (target_rescan iqn portal) (world st))
          as (r1 & w1 & He1); [now left|].
        exists (default_paths targets), w1. split.
        -- unfold bind at 1. unfold bind at 1. unfold lift at 1.
           rewrite has_targets. cbn [outcome_of]. unfold ret at 1.
           erewrite bind_returns; cycle 1.
           { rewrite (run_iscsiadm_execute props iqn portal) by assumption.
             apply execute_ok. exact He1. }
           reflexivity.
        -- split; [discriminate|]. intros _ ->. reflexivity.
      * destruct (rescans_succeed (target_rescan iqn portal) (world st))
          as (r1 & w1 & He1); [now left|].
        eexists _, w1. split.
        -- unfold bind at 1. unfold bind at 1. unfold lift at 1.
           rewrite has_targets. cbn [outcome_of]. unfold observe at 1.
           erewrite bind_returns; cycle 1.
           { rewrite (run_iscsiadm_execute props iqn portal) by assumption.
             apply execute_ok. exact He1. }
           reflexivity.
        -- split; [discriminate|]. intros Hdefault.
           rewrite Hdefault in Htransport. discriminate.
    + destruct (rescans_succeed (target_rescan iqn portal) (world st))
        as (r1 & w1 & He1); [now left|].
      exists hd, w1. split; [|now split].
      unfold bind at 1. unfold ret at 1.
      erewrite bind_returns; cycle 1.
      { rewrite (run_iscsiadm_execute props iqn portal) by assumption.
        apply execute_ok. exact He1. }
      reflexivity.
Qed.

(** With [k] attempts left the loop makes [k] rounds and gives up. *)
Lemma wait_gives_up (k : nat) :
  forall (fuel : nat) (tries : Z) (hd : list string) (st : State),
    device_scan_attempts self - tries = Z.of_nat k ->
    (k <= fuel)%nat ->
    exists (hd' : list string) (w' : World),
      wait_for_device self fuel props tries hd st
      = (Raises (VolumeDeviceNotFound hd'),
         MkState w'
           (log st ++ rounds (use_multipath self) iqn portal k tries))
      /\ same_candidates self targets hd hd'.
Proof.
  induction k as [|k IH]; intros fuel tries hd st Hleft Hfuel.
  - exists hd, (world st). split; [|now split].
    assert ((tries >=? device_scan_attempts self) = true) as Hge.
    { rewrite Z.geb_leb. apply Z.leb_le. lia. }
    destruct fuel; cbn [wait_for_device];
      erewrite bind_returns by apply none_exists_always;
      rewrite Hge; unfold raise; cbn [rounds]; rewrite app_nil_r;
      now destruct st.
  - destruct fuel as [|fuel]; [lia|].
    assert ((tries >=? device_scan_attempts self) = false) as Hge.
    { rewrite Z.geb_leb. apply Z.leb_gt. lia. }
    destruct (rescan_once tries hd st) as (hd1 & w1 & Hstep & Hsame1).
    destruct (IH fuel (tries + 1) hd1
                 (MkState (sleep ((tries + 1) ^ 2) w1)
                    ((log st ++ rescan_round (use_multipath self) iqn portal)
                     ++ [Sleep ((tries + 1) ^ 2)])))
      as (hd' & w' & Hrest & Hsame2); [lia | lia |].
    exists hd', w'. split.
    + cbn [wait_for_device].
      erewrite bind_returns by apply none_exists_always.
      rewrite Hge.
      erewrite bind_returns by exact Hstep.
      erewrite bind_returns by apply none_exists_always.
      unfold time_sleep. unfold bind at 1. unfold perform at 1.
      cbn [world log outcome_of].
      rewrite Hrest. cbn [log rounds]. now rewrite <- !app_assoc.
    + destruct Hsame1 as [Hm1 Hd1], Hsame2 as [Hm2 Hd2]. split.
      * intros Hmulti. rewrite (Hm2 Hmulti). now apply Hm1.
      * intros Hdefault Hhd. pose proof (Hd1 Hdefault Hhd) as E1.
        assert (hd1 = default_paths targets) as E by congruence.
        pose proof (Hd2 Hdefault E). congruence.
Qed.

(** C1, as the code has it.  On a host where no device path ever exists
    and the rescans succeed, the loop makes exactly [device_scan_attempts]
    rescans, sleeps after each of them, for 1, 4, 9, ... seconds (the loop
    counter is incremented before the sleep), and then raises
    VolumeDeviceNotFound naming the candidate paths; the sleeps add up to
    the sum of i^2 for i from 1 to [device_scan_attempts]. *)
Theorem wait_for_device_retry_bound (hd : list string) (st : State) :
  0 <= device_scan_attempts self ->
  let n := Z.to_nat (device_scan_attempts self) in
  let trace := rounds (use_multipath self) iqn portal n 0 in
  exists (hd' : list string) (w' : World),
    wait_for_device self (wait_fuel self) props 0 hd st
    = (Raises (VolumeDeviceNotFound hd'), MkState w' (log st ++ trace))
    /\ same_candidates self targets hd hd'
    /\ count_rescans (use_multipath self) iqn portal trace = n
    /\ sleeps trace = map (fun i => Z.of_nat i ^ 2) (seq 1 n)
    /\ total_sleep trace = sum_of_squares n.
Proof.
  intros Hattempts n trace.
  destruct (wait_gives_up n (wait_fuel self) 0 hd st) as (hd' & w' & Hrun & Hsame).
  { unfold n. lia. }
  { unfold wait_fuel, n. lia. }
  exists hd', w'. split; [exact Hrun|]. split; [exact Hsame|].
  split; [apply rounds_count|]. split.
  - unfold trace. rewrite rounds_sleeps. apply map_ext. intros i.
    f_equal.
  - apply rounds_total_sleep.
Qed.

End Wait.

Lemma wait_for_device_retry_bound_witness :
  exists (hd' : list string) (w' : nat),
    @wait_for_device (fake_host quiet_fake) (Connector false "default" 3)
       4 iscsi_props 0 [lun0_node] (fake_state 0 [])
    = (Raises (VolumeDeviceNotFound hd'),
       fake_state w'
         ([] ++ rounds false (PStr "iqn.2010-x:vol1") (PStr "10.0.0.5:3260")
                       3 0))
    /\ same_candidates (Connector false "default" 3)
         [(PStr "10.0.0.5:3260", PStr "iqn.2010-x:vol1", PInt 0)]
         [lun0_node] hd'
    /\ count_rescans false (PStr "iqn.2010-x:vol1") (PStr "10.0.0.5:3260")
         (rounds false (PStr "iqn.2010-x:vol1") (PStr "10.0.0.5:3260") 3 0)
       = 3%nat
    /\ sleeps (rounds false (PStr "iqn.2010-x:vol1") (PStr "10.0.0.5:3260")
                      3 0)
       = [1; 4; 9]
    /\ total_sleep
         (rounds false (PStr "iqn.2010-x:vol1") (PStr "10.0.0.5:3260") 3 0)
       = 14.
Proof.
  exact (@wait_for_device_retry_bound (fake_host quiet_fake)
           (Connector false "default" 3) iscsi_props
           (PStr "iqn.2010-x:vol1") (PStr "10.0.0.5:3260")
           [(PStr "10.0.0.5:3260", PStr "iqn.2010-x:vol1", PInt 0)]
           (fun w p => eq_refl)
           (fun c w _ => ex_intro _ (Some "", Some "")
                           (ex_intro _ (if is_rescan c then S w else w)
                                     eq_refl))
           ltac:(vm_compute; reflexivity)
           ltac:(vm_compute; reflexivity)
           ltac:(vm_compute; reflexivity)
           [lun0_node] (fake_state 0 [])
           ltac:(cbn; lia)).
Defined.

(** C1 as it is written does not hold: with three attempts and a device
    that never appears there are three rescans and the sleeps are 1, 4 and
    9 seconds, 14 in all, not 1 + 4 = 5. *)
Lemma wait_for_device_sleep_counterexample :
  let run :=
    @wait_for_device (fake_host quiet_fake) (Connector false "default" 3)
       4 iscsi_props 0 [lun0_node] (fake_state 0 []) in
  fst run = Raises (VolumeDeviceNotFound [lun0_node])
  /\ count_rescans false (PStr "iqn.2010-x:vol1") (PStr "10.0.0.5:3260")
       (log (snd run)) = 3%nat
  /\ sleeps (log (snd run)) = [1; 4; 9]
  /\ total_sleep (log (snd run)) = 14
  /\ sum_of_squares (3 - 1) = 5
  /\ total_sleep (log (snd run)) <> sum_of_squares (3 - 1).
Proof.
  cbv zeta. repeat split; try (vm_compute; reflexivity).
  vm_compute. discriminate.
Qed.

Example connect_volume_gives_up :
  fst (@connect_volume (fake_host quiet_fake) (Connector false "default" 3)
         iscsi_props (fake_state 0 []))
  = Raises (VolumeDeviceNotFound [lun0_node])
  /\ sleeps (log (snd (@connect_volume (fake_host quiet_fake)
                         (Connector false "default" 3) iscsi_props
                         (fake_state 0 []))))
     = [1; 4; 9].
Proof. split; vm_compute; reflexivity. Qed.

Example connect_volume_multipath_gives_up :
  fst (@connect_volume (fake_host quiet_fake) (Connector true "default" 2)
         iscsi_props (fake_state 0 []))
  = Raises (VolumeDeviceNotFound [lun0_node])
  /\ sleeps (log (snd (@connect_volume (fake_host quiet_fake)
                         (Connector true "default" 2) iscsi_props
                         (fake_state 0 []))))
     = [1; 4].
Proof. split; vm_compute; reflexivity. Qed.

Example connect_volume_appears :
  @connect_volume
     (fake_host (Fake (Some 2%nat) [lun0_node] [] [] [] no_output no_failure))
     (Connector false "default" 3) iscsi_props (fake_state 0 [])
  = (Returns (<["path" := PStr lun0_node]> {["type" := PStr "block"]}),
     fake_state 2
       [Exec probe_cmd; Exec sessions_cmd; Exec login_cmd; Exec startup_cmd;
        Exec (target_rescan (PStr "iqn.2010-x:vol1") (PStr "10.0.0.5:3260"));
        Sleep 1;
        Exec (target_rescan (PStr "iqn.2010-x:vol1") (PStr "10.0.0.5:3260"))]).
Proof. vm_compute. reflexivity. Qed.

End ISCSIWaitFacts.

(** ** iSCSI: [connect_volume] stays within its loop bound *)

Module ISCSITerminationFacts.

Import ISCSI MonadFacts.

Section Termination.
Context {H : Host}.
Variable self : connector.

Lemma run_iscsiadm_terminates (props : gmap string pyval)
    (arguments : list string) (check : list Z) (attempts : Z) :
  terminates (_run_iscsiadm props arguments check attempts true).
Proof. unfold _run_iscsiadm, _execute. terminates_steps. Qed.

Lemma get_device_path_terminates (props : gmap string pyval) :
  terminates (_get_device_path self props).
Proof. unfold _get_device_path. terminates_steps. Qed.

Lemma connect_to_iscsi_portal_terminates (props : gmap string pyval) :
  terminates (_connect_to_iscsi_portal self props).
Proof.
  unfold _connect_to_iscsi_portal, node_record_and_sessions,
    login_unless_logged_in, login_command, _iscsiadm_update,
    _run_iscsiadm_bare, _run_iscsiadm, _execute.
  terminates_steps.
Qed.

Lemma wait_for_device_terminates (props : gmap string pyval) (fuel : nat) :
  forall (tries : Z) (hd : list string),
    (Z.to_nat (device_scan_attempts self - tries) < fuel)%nat ->
    terminates (wait_for_device self fuel props tries hd).
Proof.
  induction fuel as [|fuel IH]; intros tries hd Hfuel; [lia|].
  cbn [wait_for_device].
  apply terminates_bind; [apply terminates_observe|]. intros missing.
  destruct missing; [|apply terminates_ret].
  destruct (tries >=? device_scan_attempts self) eqn:Hge;
    [apply terminates_raise|].
  rewrite Z.geb_leb in Hge. apply Z.leb_gt in Hge.
  apply terminates_bind.
  - unfold _rescan_iscsi, _run_iscsiadm_bare, _execute.
    pose proof (get_device_path_terminates props).
    pose proof (run_iscsiadm_terminates props ["--rescan"] [0] 1).
    destruct (use_multipath self); [terminates_steps|].
    apply terminates_bind;
      [destruct (negb (tries =? 0)); [assumption | apply terminates_ret]|].
    intros hd1. apply terminates_bind; [assumption|].
    intros _. apply terminates_ret.
  - intros hd1.
    apply terminates_bind; [apply terminates_observe|]. intros missing.
    destruct missing; [|apply terminates_ret].
    apply terminates_bind; [apply terminates_perform|]. intros _.
    apply IH. lia.
Qed.

Lemma first_connected_terminates (target_props : gmap string pyval)
    (targets : list (gmap string pyval)) :
  terminates (first_connected self target_props targets).
Proof.
  induction targets as [|props rest IH]; cbn [first_connected].
  - apply terminates_ret.
  - apply terminates_bind; [apply connect_to_iscsi_portal_terminates|].
    intros connected. destruct connected; [apply terminates_ret | exact IH].
Qed.

(** The loop bound [connect_volume] gives its loop is never used up, on
    any host: every run returns or raises. *)
Lemma connect_volume_terminates (props : gmap string pyval) :
  terminates (connect_volume self props).
Proof.
  unfold connect_volume.
  apply terminates_bind.
  - destruct (use_multipath self).
    + apply terminates_bind.
      { apply terminates_catch; [|intros e; terminates_steps].
        unfold _discover_iscsi_portals, _run_iscsiadm_update_discoverydb,
          _run_iscsiadm_bare, _execute.
        terminates_steps. }
      intros ips. apply terminates_bind; [apply terminates_lift|].
      intros targets. apply terminates_bind.
      { unfold connect_to_all. apply terminates_for_each. intros x.
        apply terminates_bind; [apply connect_to_iscsi_portal_terminates|].
        intros _. apply terminates_ret. }
      intros _. apply terminates_bind.
      { unfold _rescan_iscsi, _run_iscsiadm_bare, _execute.
        terminates_steps. }
      intros _. apply terminates_bind; [apply get_device_path_terminates|].
      intros hd. apply terminates_ret.
    + apply terminates_bind; [apply terminates_lift|]. intros targets.
      apply terminates_bind; [apply first_connected_terminates|].
      intros target_props.
      apply terminates_bind; [apply get_device_path_terminates|].
      intros hd. apply terminates_ret.
  - intros found. apply terminates_bind.
    + apply wait_for_device_terminates. unfold wait_fuel. lia.
    + intros waited. unfold _get_multipath_device_name, _rescan_multipath,
        _run_multipath, _execute.
      terminates_steps.
Qed.

End Termination.

End ISCSITerminationFacts.

(** * Further properties of the connectors *)

(** ** iSCSI: more on the enumeration of targets *)

Module ISCSITargetsFacts.

Import ISCSI ISCSIPureFacts.

(** The six fields [_iterate_all_targets] writes or removes. *)
Lemma iterate_keeps_other_keys (props : gmap string pyval) (ip iqn lun : pyval)
    (k : string) :
  ~ In k ["target_portal"; "target_iqn"; "target_lun";
          "target_portals"; "target_iqns"; "target_luns"] ->
  delete "target_luns"
    (delete "target_iqns"
       (delete "target_portals"
          (<["target_lun" := lun]>
             (<["target_iqn" := iqn]>
                (<["target_portal" := ip]> props))))) !! k
  = props !! k.
Proof.
  intros Hk. cbn [In] in Hk.
  rewrite !lookup_delete_ne by (intros <-; tauto).
  now rewrite !lookup_insert_ne by (intros <-; tauto).
Qed.

Lemma iterate_singular_fields (props : gmap string pyval) (ip iqn lun : pyval) :
  let p := delete "target_luns"
             (delete "target_iqns"
                (delete "target_portals"
                   (<["target_lun" := lun]>
                      (<["target_iqn" := iqn]>
                         (<["target_portal" := ip]> props))))) in
  p !! "target_portal" = Some ip
  /\ p !! "target_iqn" = Some iqn
  /\ p !! "target_lun" = Some lun
  /\ p !! "target_portals" = None
  /\ p !! "target_iqns" = None
  /\ p !! "target_luns" = None.
Proof.
  cbv zeta.
  split; [|split; [|split; [|split; [|split]]]].
  - rewrite !lookup_delete_ne by discriminate.
    rewrite lookup_insert_ne, lookup_insert_ne by discriminate.
    apply lookup_insert_eq.
  - rewrite !lookup_delete_ne by discriminate.
    rewrite lookup_insert_ne by discriminate. apply lookup_insert_eq.
  - rewrite !lookup_delete_ne by discriminate. apply lookup_insert_eq.
  - rewrite lookup_delete_ne, lookup_delete_ne by discriminate.
    apply lookup_delete_eq.
  - rewrite lookup_delete_ne by discriminate. apply lookup_delete_eq.
  - apply lookup_delete_eq.
Qed.

(** X1. [_iterate_all_targets] gives one property set per target, in the
    order of the targets; each has the singular fields of its target and
    none of the plural fields, keeps every other field of the connection
    properties, and enumerates exactly its own target. *)
Theorem iterate_all_targets_per_target (props : gmap string pyval)
    (l : list (gmap string pyval)) :
  _iterate_all_targets props = Ok l ->
  exists targets : list target,
    _get_all_targets props = Ok targets
    /\ Forall2
         (fun (p : gmap string pyval) (t : target) =>
            p !! "target_portal" = Some (fst (fst t))
            /\ p !! "target_iqn" = Some (snd (fst t))
            /\ p !! "target_lun" = Some (snd t)
            /\ p !! "target_portals" = None
            /\ p !! "target_iqns" = None
            /\ p !! "target_luns" = None
            /\ (forall k : string,
                  ~ In k ["target_portal"; "target_iqn"; "target_lun";
                          "target_portals"; "target_iqns"; "target_luns"] ->
                  p !! k = props !! k)
            /\ _get_all_targets p = Ok [t])
         l targets.
Proof.
  unfold _iterate_all_targets.
  destruct (_get_all_targets props) as [targets|e]; [|discriminate].
  cbn [and_then]. intros [= <-]. exists targets. split; [reflexivity|].
  induction targets as [|[[ip iqn] lun] targets IH]; cbn [map];
    constructor; [|exact IH].
  cbn [fst snd].
  destruct (iterate_singular_fields props ip iqn lun)
    as (Hip & Hiqn & Hlun & Hps & Hqs & Hls).
  split; [exact Hip|]. split; [exact Hiqn|]. split; [exact Hlun|].
  split; [exact Hps|]. split; [exact Hqs|]. split; [exact Hls|]. split.
  - intros k Hk. now apply iterate_keeps_other_keys.
  - unfold _get_all_targets, has_key, getitem, get_default.
    cbn [forallb]. now rewrite Hps, Hip, Hiqn, Hlun.
Qed.

Lemma iterate_all_targets_per_target_witness :
  exists targets : list target,
    _get_all_targets plural_props = Ok targets
    /\ Forall2
         (fun (p : gmap string pyval) (t : target) =>
            p !! "target_portal" = Some (fst (fst t))
            /\ p !! "target_iqn" = Some (snd (fst t))
            /\ p !! "target_lun" = Some (snd t)
            /\ p !! "target_portals" = None
            /\ p !! "target_iqns" = None
            /\ p !! "target_luns" = None
            /\ (forall k : string,
                  ~ In k ["target_portal"; "target_iqn"; "target_lun";
                          "target_portals"; "target_iqns"; "target_luns"] ->
                  p !! k = plural_props !! k)
            /\ _get_all_targets p = Ok [t])
         (match _iterate_all_targets plural_props with
          | Ok l => l
          | Raise _ => []
          end)
         targets.
Proof.
  destruct (_iterate_all_targets plural_props) as [l|e] eqn:Hiter.
  - exact (iterate_all_targets_per_target plural_props l Hiter).
  - exfalso. vm_compute in Hiter. discriminate.
Defined.

(** X2. What [_get_all_targets] raises.  Unless all three plural fields
    are there, a missing [target_portal] is a KeyError for that key, and so
    is a missing [target_iqn] when the portal is there; with the three
    plural fields, one that is neither a list nor a string is a
    TypeError. *)
Theorem get_all_targets_errors (props : gmap string pyval) :
  (forallb (has_key props) ["target_portals"; "target_iqns"; "target_luns"]
   = false ->
   (props !! "target_portal" = None ->
    _get_all_targets props = Raise (KeyError "target_portal"))
   /\ (forall portal : pyval,
         props !! "target_portal" = Some portal ->
         props !! "target_iqn" = None ->
         _get_all_targets props = Raise (KeyError "target_iqn")))
  /\ (forall portals iqns luns : pyval,
        props !! "target_portals" = Some portals ->
        props !! "target_iqns" = Some iqns ->
        props !! "target_luns" = Some luns ->
        py_iter portals = None \/ py_iter iqns = None \/ py_iter luns = None ->
        _get_all_targets props = Raise TypeError).
Proof.
  split.
  - intros Hkeys. unfold _get_all_targets, getitem. rewrite Hkeys. split.
    + now intros ->.
    + now intros portal -> ->.
  - intros portals iqns luns Hp Hq Hl Hiter. unfold _get_all_targets.
    rewrite (plural_keys_present props _ _ _ Hp Hq Hl).
    unfold getitem, iter_of. rewrite Hp, Hq, Hl. cbn [and_then].
    destruct (py_iter portals); [|reflexivity].
    destruct (py_iter iqns); [|reflexivity].
    destruct (py_iter luns); [|reflexivity].
    destruct Hiter as [H1|[H1|H1]]; discriminate.
Qed.

Lemma get_all_targets_errors_witness :
  _get_all_targets no_props = Raise (KeyError "target_portal")
  /\ _get_all_targets portal_only_props = Raise (KeyError "target_iqn")
  /\ _get_all_targets scalar_luns_props = Raise TypeError.
Proof.
  split; [|split].
  - exact (proj1 (proj1 (get_all_targets_errors no_props)
                        ltac:(vm_compute; reflexivity))
                 ltac:(vm_compute; reflexivity)).
  - exact (proj2 (proj1 (get_all_targets_errors portal_only_props)
                        ltac:(vm_compute; reflexivity))
                 (PStr "10.0.0.5:3260")
                 ltac:(vm_compute; reflexivity)
                 ltac:(vm_compute; reflexivity)).
  - exact (proj2 (get_all_targets_errors scalar_luns_props)
                 (PList [AStr "10.0.0.5:3260"])
                 (PList [AStr "iqn.2010-x:vol1"]) (PInt 1)
                 ltac:(vm_compute; reflexivity)
                 ltac:(vm_compute; reflexivity)
                 ltac:(vm_compute; reflexivity)
                 ltac:(right; right; reflexivity)).
Defined.

End ISCSITargetsFacts.

(** ** iSCSI: more on [connect_volume] *)

Module ISCSIConnectFacts.

Import ISCSI MonadFacts ISCSISessionFacts ISCSIWaitFacts.

Lemma no_sleeps (l : list event) : Forall not_a_sleep l -> sleeps l = [].
Proof.
  induction 1 as [|e l He _ IH]; [reflexivity|].
  destruct e; cbn [sleeps]; try exact IH.
  now destruct (He secs).
Qed.

Lemma squares_shift (tries : Z) (j : nat) :
  map (fun i => (tries + 1 + Z.of_nat i) ^ 2) (seq 1 j)
  = map (fun i => (tries + Z.of_nat i) ^ 2) (seq 2 j).
Proof.
  rewrite <- (seq_shift j 1), map_map. apply map_ext. intros i. f_equal. lia.
Qed.

Lemma sum_of_squares_mono (j n : nat) :
  (j <= n)%nat -> sum_of_squares j <= sum_of_squares n.
Proof.
  induction 1 as [|n _ IH]; [lia|].
  cbn [sum_of_squares]. nia.
Qed.

Section Connect.
Context {H : Host}.
Variable self : connector.

Lemma wait_for_device_unfold (fuel : nat) (props : gmap string pyval)
    (tries : Z) (hd : list string) :
  wait_for_device self (S fuel) props tries hd
  = (missing <- none_exists hd;;
     if missing : bool then
       if tries >=? device_scan_attempts self then
         raise (VolumeDeviceNotFound hd)
       else
         hd1 <- rescan_step self props tries hd;;
         missing <- none_exists hd1;;
         if missing : bool then
           time_sleep ((tries + 1) ^ 2);;;
           wait_for_device self fuel props (tries + 1) hd1
         else ret (hd1, tries + 1)
     else ret (hd, tries)).
Proof. reflexivity. Qed.

Lemma rescan_step_adds (props : gmap string pyval) (tries : Z)
    (hd : list string) :
  adds not_a_sleep (rescan_step self props tries hd).
Proof.
  unfold rescan_step, _rescan_iscsi, _run_iscsiadm_bare, _get_device_path,
    _run_iscsiadm, _execute.
  adds_steps ltac:(intros secs; discriminate).
Qed.

(** The sleeps of the waiting loop on any host: the squares of the
    values [tries] takes, none of them above the number of attempts. *)
Lemma wait_for_device_sleeps (props : gmap string pyval) (fuel : nat) :
  forall (tries : Z) (hd : list string) (st : State),
    exists (new : list event) (j : nat),
      log (snd (wait_for_device self fuel props tries hd st))
      = (log st ++ new)%list
      /\ sleeps new = map (fun i => (tries + Z.of_nat i) ^ 2) (seq 1 j)
      /\ (j = 0%nat \/ tries + Z.of_nat j <= device_scan_attempts self).
Proof.
  induction fuel as [|fuel IH]; intros tries hd st.
  - exists [], 0%nat. rewrite app_nil_r.
    split; [|split; [reflexivity | now left]].
    cbn [wait_for_device]. unfold none_exists. run_monad.
    destruct (forallb _ hd); [|reflexivity].
    now destruct (tries >=? device_scan_attempts self).
  - rewrite wait_for_device_unfold.
    unfold none_exists at 1. unfold bind at 1. unfold observe at 1.
    destruct (forallb _ hd).
    2:{ exists [], 0%nat. rewrite app_nil_r. now repeat split; [left]. }
    destruct (tries >=? device_scan_attempts self) eqn:Hge.
    { exists [], 0%nat. rewrite app_nil_r. now repeat split; [left]. }
    rewrite Z.geb_leb in Hge. apply Z.leb_gt in Hge.
    unfold bind at 1.
    destruct (rescan_step_adds props tries hd st) as (new1 & Hlog1 & Hall1).
    destruct (rescan_step self props tries hd st) as [[hd1|e|] st1];
      cbn [snd] in Hlog1.
    2,3: exists new1, 0%nat; cbn [snd]; split; [exact Hlog1|];
         split; [now apply no_sleeps | now left].
    unfold none_exists at 1. unfold bind at 1. unfold observe at 1.
    destruct (forallb _ hd1).
    2:{ exists new1, 0%nat. cbn [snd ret]. split; [exact Hlog1|].
        split; [now apply no_sleeps | now left]. }
    unfold time_sleep. unfold bind at 1. unfold perform at 1.
    cbn [outcome_of].
    destruct (IH (tries + 1) hd1
                 (MkState (sleep ((tries + 1) ^ 2) (world st1))
                          (log st1 ++ [Sleep ((tries + 1) ^ 2)])))
      as (new2 & j2 & Hlog2 & Hsleeps2 & Hbound2).
    exists (new1 ++ Sleep ((tries + 1) ^ 2) :: new2)%list, (S j2).
    split; [|split].
    + rewrite Hlog2. cbn [log]. rewrite Hlog1, <- !app_assoc. reflexivity.
    + rewrite sleeps_app, (no_sleeps new1 Hall1). cbn [app sleeps seq map].
      rewrite Hsleeps2, squares_shift. reflexivity.
    + right. destruct Hbound2 as [->|Hbound2]; lia.
Qed.

(** X3. On any host, whatever the commands answer and whenever the
    device appears, the waiting loop of [connect_volume] sleeps for 1, 4,
    9, ... seconds, at most once per allowed attempt, so for no more than
    1 + 4 + ... + [device_scan_attempts]^2 seconds in all. *)
Theorem wait_for_device_sleeps_on_any_host (props : gmap string pyval)
    (fuel : nat) (hd : list string) (st : State) :
  exists (new : list event) (j : nat),
    log (snd (wait_for_device self fuel props 0 hd st)) = (log st ++ new)%list
    /\ sleeps new = map (fun i => Z.of_nat i ^ 2) (seq 1 j)
    /\ Z.of_nat j <= Z.max 0 (device_scan_attempts self)
    /\ total_sleep new
       <= sum_of_squares (Z.to_nat (device_scan_attempts self)).
Proof.
  destruct (wait_for_device_sleeps props fuel 0 hd st)
    as (new & j & Hlog & Hsleeps & Hbound).
  exists new, j. split; [exact Hlog|]. split; [exact Hsleeps|].
  split; [lia|].
  unfold total_sleep. rewrite Hsleeps, sum_squares_seq.
  apply sum_of_squares_mono. lia.
Qed.

(** When the waiting loop returns, one of the candidates it returns
    exists. *)
Lemma wait_for_device_returns_existing (props : gmap string pyval)
    (fuel : nat) :
  forall (tries : Z) (hd : list string) (st : State)
         (hd' : list string) (tries' : Z) (st' : State),
    wait_for_device self fuel props tries hd st = (Returns (hd', tries'), st') ->
    forallb (fun x => negb (path_exists (world st') x)) hd' = false.
Proof.
  induction fuel as [|fuel IH]; intros tries hd st hd' tries' st' Hrun.
  - cbn [wait_for_device] in Hrun. unfold none_exists in Hrun. run_monad.
    destruct (forallb _ hd) eqn:Hmissing.
    + destruct (tries >=? device_scan_attempts self); discriminate.
    + now inversion Hrun; subst.
  - rewrite wait_for_device_unfold in Hrun.
    unfold none_exists at 1 in Hrun. unfold bind at 1 in Hrun.
    unfold observe at 1 in Hrun.
    destruct (forallb _ hd) eqn:Hmissing.
    2:{ unfold ret in Hrun. now inversion Hrun; subst. }
    destruct (tries >=? device_scan_attempts self); [discriminate|].
    unfold bind at 1 in Hrun.
    destruct (rescan_step self props tries hd st) as [[hd1|e|] st1];
      try discriminate.
    unfold none_exists at 1 in Hrun. unfold bind at 1 in Hrun.
    unfold observe at 1 in Hrun.
    destruct (forallb _ hd1) eqn:Hmissing1.
    2:{ unfold ret in Hrun. now inversion Hrun; subst. }
    unfold time_sleep in Hrun. unfold bind at 1 in Hrun.
    unfold perform at 1 in Hrun. cbn [outcome_of] in Hrun.
    now apply IH in Hrun.
Qed.

(** X4. Without multipath, the path [connect_volume] returns exists on
    the host when it returns, and the device information is the type
    "block" and that path. *)
Theorem connect_volume_returns_existing_path (props : gmap string pyval)
    (st st' : State) (info : gmap string pyval) :
  use_multipath self = false ->
  connect_volume self props st = (Returns info, st') ->
  exists path : string,
    info = <["path" := PStr path]> {["type" := PStr "block"]}
    /\ path_exists (world st') path = true.
Proof.
  intros Hsingle Hrun. unfold connect_volume in Hrun.
  rewrite Hsingle in Hrun.
  unfold bind at 1 in Hrun.
  match type of Hrun with
  | (match ?m with _ => _ end) = _ =>
      destruct m as [[found| |] st1]; try discriminate
  end.
  unfold bind at 1 in Hrun.
  destruct (wait_for_device self (wait_fuel self) (fst found) 0 (snd found)
              st1)
    as [[[hd' tries']| |] st2] eqn:Hwait; try discriminate.
  apply wait_for_device_returns_existing in Hwait.
  unfold bind at 1 in Hrun. unfold observe at 1 in Hrun. cbn [fst] in Hrun.
  destruct (List.find (path_exists (world st2)) hd') as [path|] eqn:Hfind;
    [|discriminate].
  run_monad. inversion Hrun; subst. exists path. split; [reflexivity|].
  now apply List.find_some in Hfind.
Qed.

(** X5. The loop of [connect_volume] over the targets without multipath:
    it answers the properties of the first target whose portal could be
    connected to, the ones before it having answered False; when every
    target answers False it goes on with the properties it was started
    with. *)
Theorem first_connected_first_success (fallback : gmap string pyval)
    (targets : list (gmap string pyval)) (st st' : State)
    (chosen : gmap string pyval) :
  first_connected self fallback targets st = (Returns chosen, st') ->
  (exists (before after : list (gmap string pyval)) (st1 : State),
     targets = (before ++ chosen :: after)%list
     /\ all_refused self before st st1
     /\ _connect_to_iscsi_portal self chosen st1 = (Returns true, st'))
  \/ (chosen = fallback /\ all_refused self targets st st').
Proof.
  revert st. induction targets as [|props rest IH]; intros st Hrun.
  - right. cbn in Hrun. unfold ret in Hrun. now inversion Hrun.
  - cbn [first_connected] in Hrun. unfold bind at 1 in Hrun.
    destruct (_connect_to_iscsi_portal self props st)
      as [[[|]| |] st1] eqn:Hconnect; try discriminate.
    + left. unfold ret in Hrun. inversion Hrun; subst.
      now exists [], rest, st.
    + destruct (IH st1 Hrun)
        as [(before & after & st2 & -> & Hrefused & Hlast)|[-> Hrefused]].
      * left. exists (props :: before), after, st2.
        split; [reflexivity|]. split; [|exact Hlast].
        cbn [all_refused]. now exists st1.
      * right. split; [reflexivity|]. cbn [all_refused]. now exists st1.
Qed.

(** X6. The look-up of the node record that opens
    [_connect_to_iscsi_portal]: when it fails with exit code 21 or 255
    the record is created on the connector's transport, and a failure of
    that command is the failure of the connection; when it fails with
    another exit code that failure is raised and nothing else is run. *)
Theorem node_record_created_when_missing (props : gmap string pyval)
    (iqn portal : pyval) (st : State) (code : Z) (w1 : World) :
  props !! "target_iqn" = Some iqn ->
  props !! "target_portal" = Some portal ->
  execute (iscsiadm_node iqn portal [] [0] 1) (world st)
  = (Raise (ProcessExecutionError code), w1) ->
  (code = 21 \/ code = 255 ->
   (exists new : list event,
      log (snd (_connect_to_iscsi_portal self props st))
      = (log st ++ Exec (iscsiadm_node iqn portal [] [0] 1)
           :: Exec (new_node_of (transport self) iqn portal) :: new)%list)
   /\ (forall (e : exn) (w2 : World),
         execute (new_node_of (transport self) iqn portal) w1 = (Raise e, w2) ->
         _connect_to_iscsi_portal self props st
         = (Raises e,
            MkState w2
              (log st ++ [Exec (iscsiadm_node iqn portal [] [0] 1);
                          Exec (new_node_of (transport self) iqn portal)]))))
  /\ (code <> 21 -> code <> 255 ->
      _connect_to_iscsi_portal self props st
      = (Raises (ProcessExecutionError code),
         MkState w1 (log st ++ [Exec (iscsiadm_node iqn portal [] [0] 1)]))).
Proof.
  intros Hiqn Hportal Hprobe.
  assert (_run_iscsiadm props [] [0] 1 true st
          = (Raises (ProcessExecutionError code),
             MkState w1 (log st ++ [Exec (iscsiadm_node iqn portal [] [0] 1)])))
    as Hfirst.
  { rewrite (run_iscsiadm_execute props iqn portal) by assumption.
    unfold _execute, perform. now rewrite Hprobe. }
  assert (forall st1 : State,
            _run_iscsiadm props ["--interface"; transport self; "--op"; "new"]
              [0] 1 true st1
            = _execute (new_node_of (transport self) iqn portal) st1) as Hnew.
  { intros st1. now apply run_iscsiadm_execute. }
  unfold _connect_to_iscsi_portal, node_record_and_sessions.
  split.
  - intros Hcode.
    assert (existsb (Z.eqb code) [21; 255] = true) as Hlisted.
    { destruct Hcode as [->| ->]; reflexivity. }
    split.
    + assert (exists new : list event,
                log (snd ((out <- node_record_and_sessions self props;;
                           login_unless_logged_in props out) st))
                = ((log st ++ [Exec (iscsiadm_node iqn portal [] [0] 1);
                               Exec (new_node_of (transport self) iqn portal)])
                   ++ new)%list) as (new & Hlog).
      2:{ exists new. unfold node_record_and_sessions in Hlog.
          rewrite Hlog, <- app_assoc. reflexivity. }
      unfold node_record_and_sessions.
      apply bind_log_extends.
      2:{ intros out. unfold login_unless_logged_in, login_command,
            _iscsiadm_update, _run_iscsiadm, _execute.
          adds_steps ltac:(exact I). }
      apply bind_log_extends.
      2:{ intros _. unfold _iscsiadm_update, _run_iscsiadm_bare,
            _run_iscsiadm, _execute.
          adds_steps ltac:(exact I). }
      exists [].
      erewrite catch_raises by (apply bind_raises; exact Hfirst).
      cbv beta iota. rewrite Hlisted.
      unfold bind at 1. rewrite Hnew. unfold _execute, perform.
      cbn [world log].
      destruct (execute (new_node_of (transport self) iqn portal) w1)
        as [[r|e] w2]; cbn [outcome_of snd log ret];
        now rewrite <- !app_assoc, app_nil_r.
    + intros e w2 Hfails.
      apply bind_raises, bind_raises.
      erewrite catch_raises by (apply bind_raises; exact Hfirst).
      cbv beta iota. rewrite Hlisted.
      apply bind_raises. rewrite Hnew.
      erewrite execute_raises by exact Hfails.
      cbn [log]. now rewrite <- app_assoc.
  - intros H21 H255.
    assert (existsb (Z.eqb code) [21; 255] = false) as Hlisted.
    { cbn [existsb]. apply orb_false_intro; [|apply orb_false_intro];
        [apply Z.eqb_neq | apply Z.eqb_neq | reflexivity]; assumption. }
    apply bind_raises, bind_raises.
    erewrite catch_raises by (apply bind_raises; exact Hfirst).
    cbv beta iota. now rewrite Hlisted.
Qed.

End Connect.

Lemma connect_volume_returns_existing_path_witness :
  exists path : string,
    (<["path" := PStr lun0_node]> {["type" := PStr "block"]}
     : gmap string pyval)
    = <["path" := PStr path]> {["type" := PStr "block"]}
    /\ @path_exists
         (fake_host (Fake (Some 2%nat) [lun0_node] [] [] [] no_output
                          no_failure))
         2%nat path = true.
Proof.
  exact (@connect_volume_returns_existing_path
           (fake_host (Fake (Some 2%nat) [lun0_node] [] [] [] no_output
                            no_failure))
           (Connector false "default" 3) iscsi_props (fake_state 0 [])
           (fake_state 2
              [Exec probe_cmd; Exec sessions_cmd; Exec login_cmd;
               Exec startup_cmd;
               Exec (target_rescan (PStr "iqn.2010-x:vol1")
                                   (PStr "10.0.0.5:3260"));
               Sleep 1;
               Exec (target_rescan (PStr "iqn.2010-x:vol1")
                                   (PStr "10.0.0.5:3260"))])
           (<["path" := PStr lun0_node]> {["type" := PStr "block"]})
           ltac:(reflexivity) ltac:(vm_compute; reflexivity)).
Defined.

Lemma first_connected_first_success_witness :
  let st := @fake_state (login_fake 8) 0 [] in
  let run := @first_connected (fake_host (login_fake 8))
               (Connector false "default" 3) singular_props [iscsi_props] st in
  (exists (before after : list (gmap string pyval))
          (st1 : @State (fake_host (login_fake 8))),
     [iscsi_props] = (before ++ singular_props :: after)%list
     /\ all_refused (Connector false "default" 3) before st st1
     /\ _connect_to_iscsi_portal (Connector false "default" 3) singular_props
          st1 = (Returns true, snd run))
  \/ (singular_props = singular_props
      /\ all_refused (Connector false "default" 3) [iscsi_props] st (snd run)).
Proof.
  exact (@first_connected_first_success (fake_host (login_fake 8))
           (Connector false "default" 3) singular_props [iscsi_props]
           (fake_state 0 [])
           (snd (@first_connected (fake_host (login_fake 8))
                   (Connector false "default" 3) singular_props [iscsi_props]
                   (fake_state 0 [])))
           singular_props
           ltac:(vm_compute; reflexivity)).
Defined.

Lemma node_record_created_when_missing_witness :
  exists new : list event,
    log (snd (@_connect_to_iscsi_portal (fake_host (no_record_fake 21))
                (Connector false "default" 3) iscsi_props (fake_state 0 [])))
    = ([] ++ Exec probe_cmd
         :: Exec (new_node_of "default" (PStr "iqn.2010-x:vol1")
                              (PStr "10.0.0.5:3260"))
         :: new)%list.
Proof.
  exact (proj1 (proj1 (@node_record_created_when_missing
                         (fake_host (no_record_fake 21))
                         (Connector false "default" 3) iscsi_props
                         (PStr "iqn.2010-x:vol1") (PStr "10.0.0.5:3260")
                         (fake_state 0 []) 21 0%nat
                         ltac:(vm_compute; reflexivity)
                         ltac:(vm_compute; reflexivity)
                         ltac:(vm_compute; reflexivity))
                      (or_introl eq_refl))).
Defined.

End ISCSIConnectFacts.

(** ** iSCSI: discovery of the portals *)

Module ISCSIDiscoveryFacts.

Import ISCSI MonadFacts ISCSIPureFacts ISCSIWaitFacts ISCSIConnectFacts.

(** The lines the parser keeps have two words each, so unpacking them as
    [ip, iqn] never fails. *)
Lemma unpack_target_lines (lines : list (list string)) :
  unpack_pairs (List.filter is_target_line lines)
  = Ok (map pair_of_words (List.filter is_target_line lines)).
Proof.
  induction lines as [|data lines IH]; [reflexivity|].
  cbn [List.filter].
  destruct (is_target_line data) eqn:Hline; [|exact IH].
  destruct data as [|ip [|iqn [|c rest]]]; try discriminate.
  cbn [unpack_pairs map]. now rewrite IH.
Qed.

Section Discovery.
Context {H : Host}.
Variable self : connector.

Variable props : gmap string pyval.
Variable portal : pyval.

Hypothesis no_lists :
  forallb (has_key props) ["target_portals"; "target_iqns"] = false.
Hypothesis no_auth :
  truthy (get_default props "discovery_auth_method" ANone) = false.
Hypothesis has_portal : props !! "target_portal" = Some portal.

(** X7. Unless the properties list the portals and the iqns themselves,
    and without discovery authentication, the portals are discovered with
    one sendtargets command; when it succeeds, the answer is the portal and
    the iqn of every line of its output that has exactly two words, the
    second one starting with "iqn.", in line order, and unpacking them
    raises nothing. *)
Theorem discover_iscsi_portals_sendtargets (st : State)
    (out err : option string) (w1 : World) :
  execute (discovery_of portal) (world st) = (Ok (out, err), w1) ->
  _discover_iscsi_portals props st
  = (Returns (discovered (or_empty out)),
     MkState w1 (log st ++ [Exec (discovery_of portal)])).
Proof.
  intros Hrun. unfold _discover_iscsi_portals.
  rewrite no_lists, no_auth.
  erewrite bind_returns; cycle 1.
  { unfold getitem. rewrite has_portal.
    erewrite bind_returns by reflexivity.
    unfold _run_iscsiadm_bare.
    erewrite bind_returns by (apply execute_ok; exact Hrun).
    reflexivity. }
  cbn [fst]. unfold lift.
  unfold _get_target_portals_from_iscsiadm_output.
  rewrite ISCSIPureFacts.scan_lines_from. cbn [app].
  now rewrite unpack_target_lines.
Qed.


End Discovery.

Lemma discover_iscsi_portals_sendtargets_witness :
  @_discover_iscsi_portals (fake_host discovery_fake) iscsi_props
     (fake_state 0 [])
  = (Returns [(AStr "10.0.0.5:3260,1", PStr "iqn.2010-x:vol1");
              (AStr "10.0.0.6:3260,1", PStr "iqn.2010-x:vol2")],
     fake_state 0 ([] ++ [Exec (discovery_of (PStr "10.0.0.5:3260"))])).
Proof.
  exact (@discover_iscsi_portals_sendtargets (fake_host discovery_fake)
           iscsi_props (PStr "10.0.0.5:3260")
           ltac:(vm_compute; reflexivity) ltac:(vm_compute; reflexivity)
           ltac:(vm_compute; reflexivity)
           (fake_state 0 [])
           (Some (discovery_output (discovery_of (PStr "10.0.0.5:3260"))))
           (Some "") 0%nat ltac:(vm_compute; reflexivity)).
Defined.


End ISCSIDiscoveryFacts.

(** ** Fibre Channel: more on the candidates and on [connect_volume] *)

Module FibreChannelMoreFacts.

Import FibreChannel MonadFacts FibreChannelFacts ISCSIWaitFacts
  ISCSIConnectFacts.

Lemma entry_before_host_found (device_path : list string) (before : list string) :
  forall (pre rest after : list string) (h : string),
    rest = (before ++ h :: after)%list ->
    Forall (fun v => host_like v = false) before ->
    host_like h = true ->
    entry_before_host device_path rest (length pre)
    = match (length pre + length before)%nat with
      | O => List.last (map Some device_path) None
      | S i => nth_error device_path i
      end.
Proof.
  induction before as [|b before IH]; intros pre rest after h -> Hbefore Hh.
  - cbn [app entry_before_host]. unfold host_like in Hh. rewrite Hh.
    now rewrite Nat.add_0_r.
  - inversion Hbefore as [|? ? Hb Hbefore']; subst.
    cbn [app entry_before_host]. unfold host_like in Hb. rewrite Hb.
    replace (S (length pre)) with (length (pre ++ [b])%list)
      by (rewrite List.length_app; cbn; lia).
    rewrite (IH (pre ++ [b])%list _ after h eq_refl Hbefore' Hh).
    rewrite List.length_app. cbn [length].
    now replace (length pre + 1 + length before)%nat
      with (length pre + S (length before))%nat by lia.
Qed.

Lemma entry_before_host_none (device_path rest : list string) :
  forall index : nat,
    Forall (fun v => host_like v = false) rest ->
    entry_before_host device_path rest index = None.
Proof.
  induction rest as [|v rest IH]; intros index Hrest; [reflexivity|].
  inversion Hrest as [|? ? Hv Hrest']; subst.
  cbn [entry_before_host]. unfold host_like in Hv. rewrite Hv. now apply IH.
Qed.

Lemma last_some (l : list string) :
  l <> [] -> List.last (map Some l) None = Some (List.last l "").
Proof.
  induction l as [|x [|y l] IH]; intros Hl; [contradiction | reflexivity |].
  change (List.last (map Some (y :: l)) None = Some (List.last (y :: l) "")).
  apply IH. discriminate.
Qed.

(** X9. The PCI address of an HBA is the component of its device path
    (split at "/") just before the first component that starts with "net"
    or "host"; there is none when no component starts so; and when the
    very first component starts so, it is the last component of the path
    (the index -1). *)
Theorem get_pci_num_entry_before_host (path : string) :
  (forall (before after : list string) (pci h : string),
     PyStr.split_on "/" path = (before ++ pci :: h :: after)%list ->
     Forall (fun v => host_like v = false) (before ++ [pci]) ->
     host_like h = true ->
     _get_pci_num (Some (Hba (Some path))) = Some pci)
  /\ (Forall (fun v => host_like v = false) (PyStr.split_on "/" path) ->
      _get_pci_num (Some (Hba (Some path))) = None)
  /\ (forall (h : string) (after : list string),
        PyStr.split_on "/" path = h :: after ->
        host_like h = true ->
        _get_pci_num (Some (Hba (Some path)))
        = Some (List.last (PyStr.split_on "/" path) "")).
Proof.
  unfold _get_pci_num. cbn [device_path]. split; [|split].
  - intros before after pci h Hsplit Hbefore Hh.
    rewrite (entry_before_host_found _ (before ++ [pci]) [] _ after h);
      [| now rewrite Hsplit, <- app_assoc | assumption | assumption].
    cbn [length Nat.add]. rewrite List.length_app, Nat.add_1_r, Hsplit.
    rewrite nth_error_app2 by lia. now rewrite Nat.sub_diag.
  - intros Hnone. now apply entry_before_host_none.
  - intros h after Hsplit Hh.
    rewrite (entry_before_host_found _ [] [] _ after h);
      [| now rewrite Hsplit | constructor | assumption].
    cbn [length Nat.add]. rewrite Hsplit. apply last_some. discriminate.
Qed.

Lemma get_pci_num_entry_before_host_witness :
  _get_pci_num
    (Some (Hba (Some "/sys/devices/pci0000:00/0000:05:00.3/host2/fc_host/host2")))
  = Some "0000:05:00.3"
  /\ _get_pci_num (Some (Hba (Some "/sys/devices/virtual"))) = None
  /\ _get_pci_num (Some (Hba (Some "host2/fc_host/port"))) = Some "port".
Proof.
  split; [|split].
  - exact (proj1 (get_pci_num_entry_before_host
                    "/sys/devices/pci0000:00/0000:05:00.3/host2/fc_host/host2")
                 [""; "sys"; "devices"; "pci0000:00"] ["fc_host"; "host2"]
                 "0000:05:00.3" "host2"
                 ltac:(vm_compute; reflexivity)
                 ltac:(repeat constructor)
                 ltac:(vm_compute; reflexivity)).
  - exact (proj1 (proj2 (get_pci_num_entry_before_host "/sys/devices/virtual"))
                 ltac:(repeat constructor)).
  - exact (proj2 (proj2 (get_pci_num_entry_before_host "host2/fc_host/port"))
                 "host2" ["fc_host"; "port"]
                 ltac:(vm_compute; reflexivity)
                 ltac:(vm_compute; reflexivity)).
Defined.

Section Connect.
Context {H : Host}.
Variable self : connector.

Variable props : gmap string pyval.
Variable ports : pyval.
Hypothesis has_wwn : props !! "target_wwn" = Some ports.


Lemma find_none (l : list string) (w : World) :
  (forall (w : World) (p : string), path_exists w p = false) ->
  List.find (path_exists w) l = None.
Proof.
  intros Hnever. induction l as [|p l IH]; [reflexivity|].
  cbn [List.find]. now rewrite Hnever.
Qed.

(** With [k] attempts left the discovery makes [k] rounds and gives up. *)
Lemma fc_discovery_gives_up (hbas : list hba) (hd : list string) (k : nat) :
  (forall (w : World) (p : string), path_exists w p = false) ->
  (forall (w : World), exists w' : World, rescan_hosts hbas w = (Ok tt, w')) ->
  forall (fuel : nat) (tries : Z) (st : State),
    Z.to_nat (device_scan_attempts self - tries) = k ->
    (k <= fuel)%nat ->
    exists w' : World,
      _wait_for_device_discovery self fuel hbas hd tries st
      = (Raises NoFibreChannelVolumeDeviceFound,
         MkState w' (log st ++ fc_rounds hbas k)).
Proof.
  intros Hnever Hrescan.
  induction k as [|k IH]; intros fuel tries st Hleft Hfuel.
  - exists (world st).
    assert ((tries >=? device_scan_attempts self) = true) as Hge.
    { rewrite Z.geb_leb. apply Z.leb_le. lia. }
    destruct fuel; cbn [_wait_for_device_discovery]; run_monad;
      rewrite (find_none hd (world st) Hnever), Hge; cbn [fc_rounds];
      rewrite app_nil_r; now destruct st.
  - destruct fuel as [|fuel]; [lia|].
    assert ((tries >=? device_scan_attempts self) = false) as Hge.
    { rewrite Z.geb_leb. apply Z.leb_gt. lia. }
    destruct (Hrescan (world st)) as (w1 & Hw1).
    destruct (IH fuel (tries + 1)
                 (MkState (sleep 2 w1)
                          ((log st ++ [RescanHosts hbas]) ++ [Sleep 2])))
      as (w' & Hrest); [lia | lia |].
    exists w'. cbn [_wait_for_device_discovery]. run_monad.
    rewrite (find_none hd (world st) Hnever), Hge, Hw1.
    cbn [outcome_of world log]. rewrite Hrest. cbn [log fc_rounds].
    now rewrite <- !app_assoc.
Qed.

Lemma fc_rounds_sleep (hbas : list hba) (n : nat) :
  total_sleep (fc_rounds hbas n) = 2 * Z.of_nat n.
Proof.
  unfold total_sleep. induction n as [|n IH]; [reflexivity|].
  cbn [fc_rounds sleeps fold_right]. rewrite IH. lia.
Qed.

(** X11. On a host with candidate paths none of which ever exists, and
    where the rescans of the hosts succeed, [connect_volume] rescans the
    hosts exactly [device_scan_attempts] times, two seconds apart, and then
    raises NoFibreChannelVolumeDeviceFound: two seconds of waiting per
    attempt. *)
Theorem connect_volume_rescans_then_gives_up (st : State) :
  (forall (w : World) (p : string), path_exists w p = false) ->
  (forall (hbas : list hba) (w : World),
     exists w' : World, rescan_hosts hbas w = (Ok tt, w')) ->
  pci_addresses (get_fc_hbas_info (world st)) <> [] ->
  wwn_list ports <> [] ->
  let n := Z.to_nat (device_scan_attempts self) in
  let trace := fc_rounds (get_fc_hbas_info (world st)) n in
  (exists w' : World,
     connect_volume self props st
     = (Raises NoFibreChannelVolumeDeviceFound, MkState w' (log st ++ trace)))
  /\ total_sleep trace = 2 * Z.of_nat n.
Proof.
  intros Hnever Hrescan Hpci Hwwn n trace.
  split; [|apply fc_rounds_sleep].
  unfold connect_volume.
  erewrite bind_returns by reflexivity.
  rewrite (possible_volume_paths_candidates props ports _ has_wwn).
  erewrite bind_returns by reflexivity.
  rewrite length_map, length_prod.
  destruct (pci_addresses (get_fc_hbas_info (world st))) as [|pci pcis] eqn:Hp;
    [contradiction|].
  destruct (wwn_list ports) as [|wwn wwns] eqn:Hw; [contradiction|].
  cbn [length Nat.mul Nat.add Nat.eqb].
  destruct (fc_discovery_gives_up (get_fc_hbas_info (world st))
              (map (fun pw =>
                      fc_candidate (get_default props "target_lun" (PInt 0))
                                   (fst pw) (snd pw))
                   (list_prod (pci :: pcis) (wwn :: wwns)))
              n Hnever (Hrescan _) (wait_fuel self) 0 st)
    as (w' & Hrun); [unfold n; f_equal; lia | unfold wait_fuel, n; lia |].
  exists w'. now apply bind_raises.
Qed.

(** X12. With multipath, once a candidate path and its wwn are found,
    the path handed out is the multipath device path of the wwn if there is
    one, else the multipath device of the device name, else the candidate
    itself, and [multipath_id] is set in the first two cases only.  Unless
    the access mode is "ro" the connector waits for the device to become
    writable, and a device that stays read-only is handed out all the
    same, while another failure of the wait is raised. *)
Theorem connect_volume_multipath_device (st : State)
    (candidates : list string) (device wwn : string) :
  use_multipath self = true ->
  _get_possible_volume_paths props (get_fc_hbas_info (world st))
  = Ok candidates ->
  List.find (path_exists (world st)) candidates = Some device ->
  get_scsi_wwn (world st) device = Ok wwn ->
  let choice := fc_multipath_choice (world st) device wwn in
  (py_eqb (get_default props "access_mode" (PStr "")) (PStr "ro") = true ->
   connect_volume self props st = (Returns (fc_device_info wwn choice), st))
  /\ (py_eqb (get_default props "access_mode" (PStr "")) (PStr "ro") = false ->
      forall (r : result unit) (w' : World),
        wait_for_rw wwn (fst choice) (world st) = (r, w') ->
        connect_volume self props st
        = (match r with
           | Ok _ | Raise BlockDeviceReadOnly =>
               Returns (fc_device_info wwn choice)
           | Raise e => Raises e
           end,
           MkState w' (log st ++ [WaitForRw wwn (fst choice)]))).
Proof.
  intros Hmulti Hpaths Hfind Hwwn choice.
  assert (connect_volume self props st
          = ((if negb (py_eqb (get_default props "access_mode" (PStr ""))
                              (PStr "ro"))
              then
                catch (perform (WaitForRw wwn (fst choice))
                               (wait_for_rw wwn (fst choice)))
                      (fun e =>
                         match e with
                         | BlockDeviceReadOnly => ret tt
                         | _ => raise e
                         end)
              else ret tt);;;
             ret (fc_device_info wwn choice)) st) as ->.
  { unfold connect_volume.
    erewrite bind_returns by reflexivity.
    rewrite Hpaths. erewrite bind_returns by reflexivity.
    destruct candidates as [|c cs]; [discriminate|].
    cbn [length Nat.eqb].
    erewrite bind_returns; cycle 1.
    { unfold wait_fuel. cbn [_wait_for_device_discovery].
      erewrite bind_returns by reflexivity.
      rewrite Hfind. erewrite bind_returns by reflexivity. reflexivity. }
    cbv beta iota.
    erewrite bind_returns; cycle 1.
    { erewrite bind_returns by reflexivity. rewrite Hwwn. reflexivity. }
    rewrite Hmulti.
    erewrite bind_returns by reflexivity.
    unfold choice, fc_multipath_choice, fc_device_info.
    destruct (find_multipath_device_path (world st) wwn) as [path|].
    - erewrite bind_returns by reflexivity. reflexivity.
    - destruct (find_multipath_device (world st) (realpath (world st) device))
        as [mpath|] eqn:Hmpath.
      + erewrite bind_returns; cycle 1.
        { erewrite bind_returns by reflexivity. rewrite Hmpath. reflexivity. }
        reflexivity.
      + erewrite bind_returns; cycle 1.
        { erewrite bind_returns by reflexivity. rewrite Hmpath. reflexivity. }
        reflexivity. }
  split.
  - intros ->. cbn [negb]. now destruct st.
  - intros -> r w' Hwait. cbn [negb]. run_monad. rewrite Hwait.
    destruct r as [[]|e]; cbn [outcome_of]; [reflexivity|].
    destruct e; reflexivity.
Qed.

End Connect.


Lemma connect_volume_rescans_then_gives_up_witness :
  (exists w' : nat,
     @connect_volume (fake_host (fc_fake None fc_paths)) (Connector false 3)
        fc_props (fake_state 0 [])
     = (Raises NoFibreChannelVolumeDeviceFound,
        fake_state w' ([] ++ fc_rounds one_hba 3)))
  /\ total_sleep (fc_rounds one_hba 3) = 2 * 3.
Proof.
  exact (@connect_volume_rescans_then_gives_up
           (fake_host (fc_fake None fc_paths)) (Connector false 3) fc_props
           (PList [AStr "5000ABC1"; AStr "5000abc2"])
           ltac:(vm_compute; reflexivity) (fake_state 0 [])
           (fun w p => eq_refl)
           (fun hbas w => ex_intro _ (S w) eq_refl)
           ltac:(vm_compute; discriminate)
           ltac:(vm_compute; discriminate)).
Defined.

Lemma connect_volume_multipath_device_witness :
  @connect_volume (fake_host (fc_fake (Some 0%nat) fc_paths)) (Connector true 3)
     fc_props (fake_state 0 [])
  = (Returns (<["path" := PStr "/dev/disk/by-path/pci-0000:05:00.3-fc-0x5000abc1-lun-1"]>
                {["type" := PStr "block"]}),
     fake_state 0
       ([] ++ [WaitForRw "36001405b0c7a2fa4"
                 "/dev/disk/by-path/pci-0000:05:00.3-fc-0x5000abc1-lun-1"])).
Proof.
  exact (proj2 (@connect_volume_multipath_device
                  (fake_host (fc_fake (Some 0%nat) fc_paths))
                  (Connector true 3) fc_props (fake_state 0 []) fc_paths
                  "/dev/disk/by-path/pci-0000:05:00.3-fc-0x5000abc1-lun-1"
                  "36001405b0c7a2fa4"
                  ltac:(reflexivity) ltac:(vm_compute; reflexivity)
                  ltac:(vm_compute; reflexivity) ltac:(reflexivity))
               ltac:(vm_compute; reflexivity)
               (Ok tt) 0%nat ltac:(reflexivity)).
Defined.

End FibreChannelMoreFacts.

(** ** iSCSI: the transport of an iface and the initiator name *)

Module ISCSIMoreFacts.

Import PyStr PyStrMore ISCSI ISCSIMore MonadFacts ISCSIWaitFacts
  ISCSIConnectFacts.

(** The loop over the iface record stops at the first line that names a
    supported transport or cannot be read. *)
Lemma scan_iface_first_decisive (transport_iface : string)
    (lines : list (list string)) :
  scan_iface transport_iface lines
  = match List.find (fun d => iface_line_accepts d || iface_line_breaks d)
                    lines with
    | None => Ok "default"
    | Some d =>
        if iface_line_breaks d then Raise IndexError else Ok transport_iface
    end.
Proof.
  induction lines as [|data lines IH]; [reflexivity|].
  cbn [scan_iface List.find]. rewrite IH. clear IH.
  destruct data as [|first [|second [|third rest]]];
    cbn [index nth_error and_then iface_line_accepts iface_line_breaks];
    [reflexivity|..].
  1,2: destruct (String.eqb first "iface.transport_name") eqn:Hname;
       cbn; rewrite ?Hname; reflexivity.
  generalize (Factory.str_in third supported_transports). intros supported.
  destruct (String.eqb first "iface.transport_name") eqn:Hname, supported;
    cbn; rewrite ?Hname; reflexivity.
Qed.

Lemma initiator_name_line (name : string) :
  startswith ("InitiatorName=" +:+ name) "InitiatorName=" = true
  /\ find_char "=" ("InitiatorName=" +:+ name) = Some 13%nat
  /\ drop 14 ("InitiatorName=" +:+ name) = name.
Proof.
  split; [|split]; [destruct name| |]; vm_compute; reflexivity.
Qed.

Section Connector.
Context {H : Host}.

(** X13. The transport of the connector: "default" and "iser" are taken
    as they are, without a command.  Any other iface is looked up with
    iscsiadm, and the first line of its record that names a supported
    transport (first word iface.transport_name, third word in the list) or
    that the loop cannot read (an empty line, or the transport name without
    a third word) decides: the iface is accepted, or IndexError is raised;
    with no such line the connector falls back to "default".  So whatever
    the host answers, the transport is the iface asked for or "default". *)
Theorem validate_iface_transport_decision (transport_iface : string)
    (st : State) :
  (Factory.str_in transport_iface ["default"; "iser"] = true ->
   _validate_iface_transport transport_iface st = (Returns transport_iface, st))
  /\ (Factory.str_in transport_iface ["default"; "iser"] = false ->
      forall (out err : option string) (w1 : World),
        execute (iface_of transport_iface) (world st) = (Ok (out, err), w1) ->
        _validate_iface_transport transport_iface st
        = (match List.find (fun d => iface_line_accepts d
                                     || iface_line_breaks d)
                           (map split (splitlines (or_empty out))) with
           | None => Returns "default"
           | Some d =>
               if iface_line_breaks d then Raises IndexError
               else Returns transport_iface
           end,
           MkState w1 (log st ++ [Exec (iface_of transport_iface)])))
  /\ (forall (t : string) (st' : State),
        _validate_iface_transport transport_iface st = (Returns t, st') ->
        t = transport_iface \/ t = "default").
Proof.
  unfold _validate_iface_transport. split; [|split].
  - now intros ->.
  - intros -> out err w1 Hrun. unfold _run_iscsiadm_bare.
    erewrite bind_returns by (apply execute_ok; exact Hrun).
    cbn [fst]. unfold lift. rewrite scan_iface_first_decisive.
    destruct (List.find _ _) as [d|]; [|reflexivity].
    now destruct (iface_line_breaks d).
  - intros t st'.
    destruct (Factory.str_in transport_iface ["default"; "iser"]).
    + unfold ret. intros [= <- _]. now left.
    + unfold _run_iscsiadm_bare, _execute. run_monad.
      destruct (execute _ (world st)) as [[r|e] w1]; cbn [outcome_of];
        [|discriminate].
      rewrite scan_iface_first_decisive.
      destruct (List.find _ _) as [d|]; cbn [outcome_of].
      * destruct (iface_line_breaks d); [discriminate|].
        intros [= <- _]. now left.
      * intros [= <- _]. now right.
Qed.

(** X14. The initiator name is read with cat from
    /etc/iscsi/initiatorname.iscsi: it is what follows "InitiatorName=" on
    the first line that starts so, without the white space around it; it
    is None when no line starts so, and also when the command fails,
    whatever the exit code. *)
Theorem get_initiator_first_name_line (st : State) :
  (forall (code : Z) (w1 : World),
     execute cat_initiatorname (world st)
     = (Raise (ProcessExecutionError code), w1) ->
     get_initiator st
     = (Returns None, MkState w1 (log st ++ [Exec cat_initiatorname])))
  /\ (forall (text : string) (err : option string) (w1 : World),
        execute cat_initiatorname (world st) = (Ok (Some text, err), w1) ->
        (forall (before after : list string) (name : string),
           split_on LF text
           = (before ++ ("InitiatorName=" +:+ name) :: after)%list ->
           Forall (fun l => startswith l "InitiatorName=" = false) before ->
           get_initiator st
           = (Returns (Some (strip name)),
              MkState w1 (log st ++ [Exec cat_initiatorname])))
        /\ (Forall (fun l => startswith l "InitiatorName=" = false)
                   (split_on LF text) ->
            get_initiator st
            = (Returns None,
               MkState w1 (log st ++ [Exec cat_initiatorname])))).
Proof.
  unfold get_initiator. split.
  - intros code w1 Hrun.
    erewrite catch_raises
      by (apply bind_raises, execute_raises; exact Hrun).
    reflexivity.
  - intros text err w1 Hrun.
    assert (forall found : option string,
              initiator_name_in (split_on LF text) = Ok found ->
              catch
                (r <- _execute (Command ["cat"; "/etc/iscsi/initiatorname.iscsi"]
                                        [0] 1 true);;
                 match fst r with
                 | Some lines => lift (initiator_name_in (split_on LF lines))
                 | None => raise AttributeError
                 end)
                (fun e =>
                   match e with
                   | ProcessExecutionError _ => ret None
                   | _ => raise e
                   end) st
              = (Returns found,
                 MkState w1 (log st ++ [Exec cat_initiatorname]))) as Hfound.
    { intros found Hlines. apply catch_returns.
      erewrite bind_returns by (apply execute_ok; exact Hrun).
      cbn [fst]. unfold lift. now rewrite Hlines. }
    split.
    + intros before after name Hsplit Hbefore. apply Hfound.
      rewrite Hsplit. clear Hsplit.
      induction Hbefore as [|l before Hl _ IH].
      * cbn [app initiator_name_in].
        destruct (initiator_name_line name) as (-> & -> & Hdrop).
        change (13 + 1)%nat with 14%nat. now rewrite Hdrop.
      * cbn [app initiator_name_in]. now rewrite Hl.
    + intros Hnone. apply Hfound. revert Hnone.
      generalize (split_on LF text). intros lines Hnone.
      induction Hnone as [|l lines Hl _ IH]; [reflexivity|].
      cbn [initiator_name_in]. now rewrite Hl.
Qed.

End Connector.

Lemma validate_iface_transport_decision_witness :
  @_validate_iface_transport (fake_host iface_fake) "iser" (fake_state 0 [])
  = (Returns "iser", fake_state 0 [])
  /\ @_validate_iface_transport (fake_host iface_fake)
       "bnx2i.00:05:b5:d2:a0:c2" (fake_state 0 [])
     = (Returns "bnx2i.00:05:b5:d2:a0:c2",
        fake_state 0 ([] ++ [Exec (iface_of "bnx2i.00:05:b5:d2:a0:c2")])).
Proof.
  split.
  - exact (proj1 (@validate_iface_transport_decision (fake_host iface_fake)
                    "iser" (fake_state 0 []))
                 ltac:(reflexivity)).
  - exact (proj1 (proj2 (@validate_iface_transport_decision
                           (fake_host iface_fake) "bnx2i.00:05:b5:d2:a0:c2"
                           (fake_state 0 [])))
                 ltac:(reflexivity)
                 (Some (iface_record (iface_of "bnx2i.00:05:b5:d2:a0:c2")))
                 (Some "") 0%nat ltac:(reflexivity)).
Defined.

Lemma get_initiator_first_name_line_witness :
  @get_initiator (fake_host initiator_fake) (fake_state 0 [])
  = (Returns (Some "iqn.1993-08.org.debian:01:5e1f5b2a7c"),
     fake_state 0 ([] ++ [Exec cat_initiatorname])).
Proof.
  exact (proj1 (proj2 (@get_initiator_first_name_line
                         (fake_host initiator_fake) (fake_state 0 []))
                      (initiatorname_file cat_initiatorname) (Some "") 0%nat
                      ltac:(reflexivity))
               ["## DO NOT EDIT OR REMOVE THIS FILE!"] [""]
               "iqn.1993-08.org.debian:01:5e1f5b2a7c "
               ltac:(vm_compute; reflexivity)
               ltac:(repeat constructor)).
Defined.

End ISCSIMoreFacts.

(** ** The AoE connector *)

Module AoEFacts.

Import AoE MonadFacts ISCSIWaitFacts ISCSIConnectFacts.

Lemma aoe_rounds_sleep (n : nat) : total_sleep (aoe_rounds n) = 2 * Z.of_nat n.
Proof.
  unfold total_sleep. induction n as [|n IH]; [reflexivity|].
  cbn [aoe_rounds sleeps fold_right]. rewrite IH. lia.
Qed.

Section Connector.
Context {H : Host}.
Variable self : connector.

(** With [k] attempts left the waiting loop makes [k] rounds and gives
    up. *)
Lemma wait_for_discovery_gives_up (aoe_path : string) (k : nat) :
  (forall w : World, path_exists w aoe_path = false) ->
  (forall w : World, exists r (w' : World),
       execute aoe_discover w = (Ok r, w')) ->
  forall (fuel : nat) (tries : Z) (st : State),
    Z.to_nat (device_scan_attempts self - tries) = k ->
    (k <= fuel)%nat ->
    exists w' : World,
      _wait_for_discovery self fuel aoe_path tries st
      = (Raises (VolumeDeviceNotFound [aoe_path]),
         MkState w' (log st ++ aoe_rounds k)).
Proof.
  intros Hnever Hdiscover.
  induction k as [|k IH]; intros fuel tries st Hleft Hfuel.
  - exists (world st).
    assert ((tries >=? device_scan_attempts self) = true) as Hge.
    { rewrite Z.geb_leb. apply Z.leb_le. lia. }
    destruct fuel; cbn [_wait_for_discovery]; run_monad;
      rewrite Hnever, Hge; cbn [aoe_rounds]; rewrite app_nil_r;
      now destruct st.
  - destruct fuel as [|fuel]; [lia|].
    assert ((tries >=? device_scan_attempts self) = false) as Hge.
    { rewrite Z.geb_leb. apply Z.leb_gt. lia. }
    destruct (Hdiscover (world st)) as (r & w1 & Hw1).
    destruct (IH fuel (tries + 1)
                 (MkState (sleep 2 w1)
                          ((log st ++ [Exec aoe_discover]) ++ [Sleep 2])))
      as (w' & Hrest); [lia | lia |].
    exists w'. cbn [_wait_for_discovery]. unfold _aoe_discover.
    erewrite bind_returns by reflexivity. rewrite Hnever, Hge.
    erewrite bind_returns; cycle 1.
    { erewrite bind_returns by (apply execute_ok; exact Hw1). reflexivity. }
    erewrite bind_returns by reflexivity.
    cbn [world log]. fold aoe_discover. rewrite Hrest. cbn [log aoe_rounds].
    now rewrite <- !app_assoc.
Qed.

(** When the waiting loop returns, the path exists. *)
Lemma wait_for_discovery_returns_existing (aoe_path : string) (fuel : nat) :
  forall (tries tries' : Z) (st st' : State),
    _wait_for_discovery self fuel aoe_path tries st = (Returns tries', st') ->
    path_exists (world st') aoe_path = true.
Proof.
  induction fuel as [|fuel IH]; intros tries tries' st st' Hrun;
    cbn [_wait_for_discovery] in Hrun; unfold _aoe_discover in Hrun;
    run_monad;
    destruct (path_exists (world st) aoe_path) eqn:Hfound;
    try (inversion Hrun; subst; assumption);
    destruct (tries >=? device_scan_attempts self); try discriminate.
  destruct (execute _ (world st)) as [[r|e] w1]; cbn [outcome_of] in Hrun;
    [|discriminate].
  now apply IH in Hrun.
Qed.

Variable props : gmap string pyval.
Variables shelf lun : pyval.
Hypothesis has_shelf : props !! "target_shelf" = Some shelf.
Hypothesis has_lun : props !! "target_lun" = Some lun.

Lemma get_aoe_info_named :
  _get_aoe_info props
  = Ok ("e" +:+ py_str shelf +:+ "." +:+ py_str lun,
        "/dev/etherd/" +:+ ("e" +:+ py_str shelf +:+ "." +:+ py_str lun)).
Proof. unfold _get_aoe_info, getitem. now rewrite has_shelf, has_lun. Qed.

(** X15. On a host where the device /dev/etherd/e{shelf}.{lun} never
    appears and aoe-discover succeeds, [connect_volume] runs aoe-discover
    once, then once more per allowed attempt, two seconds after each of
    these, and raises VolumeDeviceNotFound for the path: two seconds of
    waiting per attempt. *)
Theorem connect_volume_rediscovers_then_gives_up (st : State) :
  let aoe_path := "/dev/etherd/" +:+ ("e" +:+ py_str shelf +:+ "."
                                      +:+ py_str lun) in
  (forall w : World, path_exists w aoe_path = false) ->
  (forall w : World, exists r (w' : World),
       execute aoe_discover w = (Ok r, w')) ->
  let n := Z.to_nat (device_scan_attempts self) in
  (exists w' : World,
     connect_volume self props st
     = (Raises (VolumeDeviceNotFound [aoe_path]),
        MkState w' (log st ++ Exec aoe_discover :: aoe_rounds n)))
  /\ total_sleep (aoe_rounds n) = 2 * Z.of_nat n.
Proof.
  intros aoe_path Hnever Hdiscover n. split; [|apply aoe_rounds_sleep].
  destruct (Hdiscover (world st)) as (r & w1 & Hw1).
  destruct (wait_for_discovery_gives_up aoe_path n Hnever Hdiscover
              (wait_fuel self) 0
              (MkState w1 (log st ++ [Exec aoe_discover])))
    as (w' & Hwait); [unfold n; f_equal; lia | unfold wait_fuel, n; lia |].
  exists w'. unfold connect_volume. rewrite get_aoe_info_named.
  erewrite bind_returns by reflexivity. cbn [fst snd].
  erewrite bind_returns by reflexivity.
  fold aoe_path. rewrite Hnever. unfold _aoe_discover.
  erewrite bind_returns; cycle 1.
  { erewrite bind_returns by (apply execute_ok; exact Hw1). reflexivity. }
  apply bind_raises. fold aoe_discover. rewrite Hwait. cbn [log].
  now rewrite <- app_assoc.
Qed.

(** X16. When [connect_volume] returns, the device it names exists on
    the host at that time, and the device information is the type
    "block", the device e{shelf}.{lun} and its path under /dev/etherd.  A
    device that is there from the start is revalidated, not
    rediscovered: if it is still there after aoe-revalidate, nothing else
    is run. *)
Theorem connect_volume_returns_existing_device (st : State) :
  let aoe_device := "e" +:+ py_str shelf +:+ "." +:+ py_str lun in
  let aoe_path := "/dev/etherd/" +:+ aoe_device in
  (forall (info : gmap string pyval) (st' : State),
     connect_volume self props st = (Returns info, st') ->
     info = aoe_device_info aoe_device aoe_path
     /\ path_exists (world st') aoe_path = true)
  /\ (forall r (w1 : World),
        path_exists (world st) aoe_path = true ->
        execute (aoe_revalidate aoe_device) (world st) = (Ok r, w1) ->
        path_exists w1 aoe_path = true ->
        connect_volume self props st
        = (Returns (aoe_device_info aoe_device aoe_path),
           MkState w1 (log st ++ [Exec (aoe_revalidate aoe_device)]))).
Proof.
  intros aoe_device aoe_path. unfold connect_volume.
  rewrite get_aoe_info_named.
  erewrite bind_returns by reflexivity. cbn [fst snd].
  erewrite bind_returns by reflexivity.
  fold aoe_device. fold aoe_path. split.
  - intros info st' Hrun. unfold bind at 1 in Hrun.
    match type of Hrun with
    | (match ?m with _ => _ end) = _ =>
        destruct m as [[[]| |] st1]; try discriminate
    end.
    unfold bind at 1 in Hrun.
    destruct (_wait_for_discovery self (wait_fuel self) aoe_path 0 st1)
      as [[tries| |] st2] eqn:Hwait; try discriminate.
    apply wait_for_discovery_returns_existing in Hwait.
    unfold ret in Hrun. inversion Hrun; subst. now split.
  - intros r w1 Hthere Hrun Hstill. rewrite Hthere.
    unfold _aoe_revalidate.
    erewrite bind_returns; cycle 1.
    { erewrite bind_returns by (apply execute_ok; exact Hrun). reflexivity. }
    erewrite bind_returns; cycle 1.
    { unfold wait_fuel. cbn [_wait_for_discovery].
      erewrite bind_returns by reflexivity. cbn [world].
      rewrite Hstill. reflexivity. }
    reflexivity.
Qed.

(** X17. [disconnect_volume] flushes the device with aoe-flush when its
    path exists, and does nothing at all when it does not. *)
Theorem disconnect_volume_flushes_existing (st : State) :
  let aoe_device := "e" +:+ py_str shelf +:+ "." +:+ py_str lun in
  let aoe_path := "/dev/etherd/" +:+ aoe_device in
  (path_exists (world st) aoe_path = false ->
   disconnect_volume props st = (Returns tt, st))
  /\ (path_exists (world st) aoe_path = true ->
      forall (r : result (option string * option string)) (w1 : World),
        execute (aoe_flush aoe_device) (world st) = (r, w1) ->
        disconnect_volume props st
        = (match r with
           | Ok _ => Returns tt
           | Raise e => Raises e
           end,
           MkState w1 (log st ++ [Exec (aoe_flush aoe_device)]))).
Proof.
  intros aoe_device aoe_path. unfold disconnect_volume.
  rewrite get_aoe_info_named.
  erewrite bind_returns by reflexivity. cbn [fst snd].
  erewrite bind_returns by reflexivity.
  fold aoe_device. fold aoe_path. split.
  - intros ->. now destruct st.
  - intros -> r w1 Hrun. unfold _aoe_flush, _execute. run_monad.
    fold aoe_device. unfold aoe_flush in Hrun. rewrite Hrun.
    now destruct r.
Qed.

End Connector.

Lemma connect_volume_rediscovers_then_gives_up_witness :
  (exists w' : nat,
     @connect_volume (fake_host quiet_fake) (Connector 3) aoe_props
        (fake_state 0 [])
     = (Raises (VolumeDeviceNotFound ["/dev/etherd/e7.1"]),
        fake_state w' ([] ++ Exec aoe_discover :: aoe_rounds 3)))
  /\ total_sleep (aoe_rounds 3) = 2 * 3.
Proof.
  exact (@connect_volume_rediscovers_then_gives_up (fake_host quiet_fake)
           (Connector 3) aoe_props (PInt 7) (PInt 1)
           ltac:(vm_compute; reflexivity) ltac:(vm_compute; reflexivity)
           (fake_state 0 [])
           (fun w => eq_refl)
           (fun w => ex_intro _ (Some "", Some "") (ex_intro _ w eq_refl))).
Defined.

Lemma connect_volume_returns_existing_device_witness :
  @connect_volume
     (fake_host (Fake (Some 0%nat) ["/dev/etherd/e7.1"] [] [] [] no_output
                      no_failure))
     (Connector 3) aoe_props (fake_state 0 [])
  = (Returns (aoe_device_info "e7.1" "/dev/etherd/e7.1"),
     fake_state 0 ([] ++ [Exec (aoe_revalidate "e7.1")])).
Proof.
  exact (proj2 (@connect_volume_returns_existing_device
                  (fake_host (Fake (Some 0%nat) ["/dev/etherd/e7.1"] [] [] []
                                   no_output no_failure))
                  (Connector 3) aoe_props (PInt 7) (PInt 1)
                  ltac:(vm_compute; reflexivity)
                  ltac:(vm_compute; reflexivity)
                  (fake_state 0 []))
               (Some "", Some "") 0%nat
               ltac:(vm_compute; reflexivity) ltac:(vm_compute; reflexivity)
               ltac:(vm_compute; reflexivity)).
Defined.

Lemma disconnect_volume_flushes_existing_witness :
  @disconnect_volume (fake_host quiet_fake) aoe_props (fake_state 0 [])
  = (Returns tt, fake_state 0 []).
Proof.
  exact (proj1 (@disconnect_volume_flushes_existing (fake_host quiet_fake)
                  aoe_props (PInt 7) (PInt 1)
                  ltac:(vm_compute; reflexivity)
                  ltac:(vm_compute; reflexivity)
                  (fake_state 0 []))
               ltac:(reflexivity)).
Defined.

End AoEFacts.

(** ** The Huawei SDSHypervisor connector *)

Module HuaweiFacts.

Import PyStr PyStrMore HuaweiStorHyper MonadFacts ISCSIWaitFacts
  ISCSIConnectFacts.

Lemma find_last {A} (p : A -> bool) (l : list A) (x : A) :
  List.find p (l ++ [x])
  = match List.find p l with
    | Some y => Some y
    | None => if p x then Some x else None
    end.
Proof.
  induction l as [|y l IH]; [reflexivity|].
  cbn [app List.find]. now destruct (p y).
Qed.

(** The loop of [_analyze_output]: the last line of a key wins. *)
Lemma analyze_lines (key : string) (lines : list string) :
  forall acc : gmap string string,
    fold_left
      (fun (analyse_result : gmap string string) line =>
         match find_char "=" line with
         | Some i =>
             let key := take i line in
             let val := drop (i + 1) line in
             if Factory.str_in key ["ret_code"; "ret_desc"; "dev_addr"]
             then <[key := val]> analyse_result
             else analyse_result
         | None => analyse_result
         end)
      lines acc !! key
    = if Factory.str_in key ["ret_code"; "ret_desc"; "dev_addr"] then
        match List.find (fun line => bool_decide (line_key line = Some key))
                        (rev lines) with
        | Some line => Some (line_val line)
        | None => acc !! key
        end
      else acc !! key.
Proof.
  induction lines as [|line lines IH]; intros acc.
  - cbn [fold_left rev List.find]. now destruct (Factory.str_in key _).
  - cbn [fold_left rev]. rewrite IH, find_last. clear IH.
    unfold line_key, line_val.
    destruct (find_char "=" line) as [i|] eqn:Hfind; cbn [option_map].
    + destruct (decide (take i line = key)) as [<-|Hne].
      * rewrite bool_decide_eq_true_2 by reflexivity.
        destruct (Factory.str_in (take i line) _) eqn:Hkey.
        -- destruct (List.find _ (rev lines)); [reflexivity|].
           cbv zeta. now rewrite Hfind, lookup_insert_eq.
        -- reflexivity.
      * rewrite bool_decide_eq_false_2 by congruence.
        cbv zeta.
        destruct (Factory.str_in (take i line) _);
          rewrite ?lookup_insert_ne by assumption;
          destruct (Factory.str_in key _); try reflexivity;
          now destruct (List.find _ (rev lines)).
    + rewrite bool_decide_eq_false_2 by discriminate.
      destruct (Factory.str_in key _); [|reflexivity].
      now destruct (List.find _ (rev lines)).
Qed.

(** X18. The analysis of the CLI output: nothing (None) for no output or
    an empty one; otherwise a dict that has no other keys than ret_code,
    ret_desc and dev_addr, each with what follows the first "=" on the
    last line that has this key before its first "=". *)
Theorem analyze_output_last_line_wins (out : option string) :
  (_analyze_output out = None <-> out = None \/ out = Some "")
  /\ (forall (text : string) (d : gmap string string),
        out = Some text ->
        _analyze_output out = Some d ->
        forall key : string,
          d !! key
          = if Factory.str_in key ["ret_code"; "ret_desc"; "dev_addr"]
            then reported key text
            else None).
Proof.
  split.
  - unfold _analyze_output. destruct out as [text|];
      [|split; [intros _; now left | reflexivity]].
    destruct (String.eqb_spec text "") as [->|Hne]; cbn [negb].
    + split; [now right | reflexivity].
    + split; [discriminate|]. intros [Hn|Hn]; congruence.
  - intros text d -> Hd key. unfold _analyze_output in Hd.
    destruct (negb (String.eqb text "")); [|discriminate].
    injection Hd as <-. rewrite analyze_lines. unfold reported.
    destruct (Factory.str_in key _); [|apply lookup_empty].
    destruct (List.find _ _); [reflexivity | apply lookup_empty].
Qed.

Lemma not_falsy (d : gmap string string) (key v : string) :
  d !! key = Some v -> falsy (Some d) = false.
Proof.
  intros Hkey. unfold falsy. apply bool_decide_eq_false_2. intros ->.
  now rewrite lookup_empty in Hkey.
Qed.

Lemma rejected_code (d : gmap string string) (code : string) (n : Z)
    (accepted : list Z) :
  d !! "ret_code" = Some code -> py_int code = Ok n ->
  rejected (Some d) accepted = Ok (negb (existsb (Z.eqb n) accepted)).
Proof.
  intros Hcode Hn. unfold rejected.
  rewrite (not_falsy d _ _ Hcode). cbn [subscript]. rewrite Hcode.
  cbn [and_then]. now rewrite Hn.
Qed.

Section Connector.
Context {H : Host}.
Variable self : connector.
Hypothesis cli_exists : iscliexist self = true.

Lemma cli_cmd_runs (method : string) (volume : pyval) (st : State)
    (r : result (option string * option string)) (w1 : World) :
  truthy (PStr method) = true ->
  volume <> Atom ANone ->
  execute (sds_cli self method volume) (world st) = (r, w1) ->
  _cli_cmd self method volume st
  = (match r with
     | Ok outs => Returns (_analyze_output (fst outs))
     | Raise e => Raises e
     end,
     MkState w1 (log st ++ [Exec (sds_cli self method volume)])).
Proof.
  intros Hmethod Hvolume Hrun. unfold _cli_cmd.
  rewrite cli_exists, Hmethod. cbn [negb orb].
  assert (match volume with Atom ANone => true | _ => false end = false)
    as ->.
  { destruct volume as [[]|]; try reflexivity. now destruct Hvolume. }
  unfold _execute. run_monad. fold (sds_cli self method volume).
  rewrite Hrun. now destruct r.
Qed.

Variable props : gmap string pyval.
Variable volume : pyval.
Hypothesis has_volume : props !! "volume_id" = Some volume.
Hypothesis volume_named : volume <> Atom ANone.

(** X19. [connect_volume] attaches the volume with the CLI and reads the
    return code of the output.  A code other than 0, 50151401 and 50151405
    is a BrickException, and nothing else is run.  Otherwise the device is
    queried: a code other than 0 is a BrickException, and with the code 0
    the device information is the type "block" and the device address the
    query reports. *)
Theorem connect_volume_return_codes (st : State)
    (out1 err1 : option string) (w1 : World)
    (d1 : gmap string string) (code1 : string) (n1 : Z) :
  execute (sds_cli self "attach" volume) (world st) = (Ok (out1, err1), w1) ->
  _analyze_output out1 = Some d1 ->
  d1 !! "ret_code" = Some code1 ->
  py_int code1 = Ok n1 ->
  let st1 := MkState w1 (log st ++ [Exec (sds_cli self "attach" volume)]) in
  (~ In n1 [0; 50151401; 50151405] ->
   connect_volume self props st = (Raises BrickException, st1))
  /\ (In n1 [0; 50151401; 50151405] ->
      forall (out2 err2 : option string) (w2 : World)
             (d2 : gmap string string) (code2 : string) (n2 : Z),
        execute (sds_cli self "querydev" volume) w1 = (Ok (out2, err2), w2) ->
        _analyze_output out2 = Some d2 ->
        d2 !! "ret_code" = Some code2 ->
        py_int code2 = Ok n2 ->
        let st2 :=
          MkState w2 (log st1 ++ [Exec (sds_cli self "querydev" volume)]) in
        (n2 <> 0 -> connect_volume self props st = (Raises BrickException, st2))
        /\ (n2 = 0 ->
            forall dev_addr : string,
              d2 !! "dev_addr" = Some dev_addr ->
              connect_volume self props st
              = (Returns (huawei_device_info dev_addr), st2))).
Proof.
  intros Hrun1 Hd1 Hcode1 Hn1 st1.
  assert (forall k : analysis -> M (gmap string pyval),
            (volume_id <- lift (getitem props "volume_id");;
             out <- _attach_volume self volume_id;; k out) st
            = k (Some d1) st1) as Hattach.
  { intros k. unfold getitem. rewrite has_volume.
    erewrite bind_returns by reflexivity.
    unfold _attach_volume.
    erewrite bind_returns
      by (rewrite (cli_cmd_runs "attach" volume st _ w1 eq_refl volume_named
                     Hrun1); reflexivity).
    cbn [fst]. now rewrite Hd1. }
  unfold connect_volume. rewrite Hattach.
  rewrite (rejected_code d1 code1 n1 _ Hcode1 Hn1).
  erewrite bind_returns by reflexivity.
  unfold attached_success_code, has_been_attached_code, attach_mnid_done_code.
  split.
  - intros Hout.
    assert (existsb (Z.eqb n1) [0; 50151401; 50151405] = false) as ->.
    { apply not_true_is_false. intros Hex. apply Hout.
      apply existsb_exists in Hex. destruct Hex as (x & Hx & Heq).
      apply Z.eqb_eq in Heq. now subst. }
    cbn [negb subscript]. rewrite Hcode1.
    erewrite bind_returns by reflexivity. reflexivity.
  - intros Hin out2 err2 w2 d2 code2 n2 Hrun2 Hd2 Hcode2 Hn2.
    pose (st2 := MkState w2
                   (log st1 ++ [Exec (sds_cli self "querydev" volume)])).
    assert (existsb (Z.eqb n1) [0; 50151401; 50151405] = true) as ->.
    { apply existsb_exists. exists n1. split; [exact Hin | apply Z.eqb_refl]. }
    cbn [negb].
    assert (forall k : analysis -> M (gmap string pyval),
              (volume_id <- lift (getitem props "volume_id");;
               out <- _query_attached_volume self volume_id;; k out) st1
              = k (Some d2) st2) as Hquery.
    { intros k. unfold getitem. rewrite has_volume.
      erewrite bind_returns by reflexivity.
      unfold _query_attached_volume.
      erewrite bind_returns
        by (rewrite (cli_cmd_runs "querydev" volume st1 _ w2 eq_refl
                       volume_named Hrun2); reflexivity).
      cbn [fst]. now rewrite Hd2. }
    rewrite Hquery. rewrite (not_falsy d2 _ _ Hcode2).
    cbn [subscript]. rewrite Hcode2. cbn [and_then]. rewrite Hn2.
    erewrite bind_returns by reflexivity.
    split.
    + intros Hn. apply Z.eqb_neq in Hn. now rewrite Hn.
    + intros -> dev_addr Haddr. cbn [Z.eqb negb]. rewrite Haddr.
      erewrite bind_returns by reflexivity. reflexivity.
Qed.

(** X20. When the output of the attach or detach command has no ret_code
    line (it is empty, has none of the three keys, or only others of
    them), [connect_volume] and [disconnect_volume] do not raise their
    BrickException: building its message fails first, with TypeError for
    an empty output and KeyError for a missing ret_code. *)
Theorem no_return_code_no_brick_exception (st : State)
    (method : string) (out err : option string) (w1 : World) :
  execute (sds_cli self method volume) (world st) = (Ok (out, err), w1) ->
  let st1 := MkState w1 (log st ++ [Exec (sds_cli self method volume)]) in
  let failure :=
    match _analyze_output out with
    | None => TypeError
    | Some _ => KeyError "ret_code"
    end in
  subscript (_analyze_output out) "ret_code" = Raise failure ->
  (method = "attach" -> connect_volume self props st = (Raises failure, st1))
  /\ (method = "detach" ->
      disconnect_volume self props st = (Raises failure, st1)).
Proof.
  intros Hrun st1 failure Hsub.
  assert (forall accepted : list Z,
            rejected (_analyze_output out) accepted = Ok true
            \/ rejected (_analyze_output out) accepted = Raise failure)
    as Hrejected.
  { intros accepted. unfold rejected.
    destruct (falsy (_analyze_output out)); [now left|].
    right. now rewrite Hsub. }
  split; intros ->.
  - unfold connect_volume, getitem. rewrite has_volume.
    erewrite bind_returns by reflexivity. unfold _attach_volume.
    erewrite bind_returns
      by (rewrite (cli_cmd_runs "attach" volume st _ w1 eq_refl volume_named
                     Hrun); reflexivity).
    cbn [fst]. fold st1.
    destruct (Hrejected [attached_success_code; has_been_attached_code;
                         attach_mnid_done_code]) as [-> | ->].
    + erewrite bind_returns by reflexivity.
      apply bind_raises. unfold lift. now rewrite Hsub.
    + now apply bind_raises.
  - unfold disconnect_volume, getitem. rewrite has_volume.
    erewrite bind_returns by reflexivity. unfold _detach_volume.
    erewrite bind_returns
      by (rewrite (cli_cmd_runs "detach" volume st _ w1 eq_refl volume_named
                     Hrun); reflexivity).
    cbn [fst]. fold st1.
    destruct (Hrejected [attached_success_code; vbs_unnormal_code;
                         not_mount_node_code]) as [-> | ->].
    + erewrite bind_returns by reflexivity.
      apply bind_raises. unfold lift. now rewrite Hsub.
    + now apply bind_raises.
Qed.

(** X21. [disconnect_volume] detaches the volume with the CLI: the
    return codes 0, 50151209 and 50155007 end it without an error, any
    other code is a BrickException. *)
Theorem disconnect_volume_return_codes (st : State)
    (out err : option string) (w1 : World)
    (d : gmap string string) (code : string) (n : Z) :
  execute (sds_cli self "detach" volume) (world st) = (Ok (out, err), w1) ->
  _analyze_output out = Some d ->
  d !! "ret_code" = Some code ->
  py_int code = Ok n ->
  disconnect_volume self props st
  = (if existsb (Z.eqb n) [0; 50151209; 50155007]
     then Returns tt else Raises BrickException,
     MkState w1 (log st ++ [Exec (sds_cli self "detach" volume)])).
Proof.
  intros Hrun Hd Hcode Hn.
  unfold disconnect_volume, getitem. rewrite has_volume.
  erewrite bind_returns by reflexivity. unfold _detach_volume.
  erewrite bind_returns
    by (rewrite (cli_cmd_runs "detach" volume st _ w1 eq_refl volume_named
                   Hrun); reflexivity).
  cbn [fst]. rewrite Hd.
  rewrite (rejected_code d code n _ Hcode Hn).
  erewrite bind_returns by reflexivity.
  unfold attached_success_code, vbs_unnormal_code, not_mount_node_code.
  destruct (existsb (Z.eqb n) [0; 50151209; 50155007]); cbn [negb].
  - reflexivity.
  - cbn [subscript]. rewrite Hcode.
    erewrite bind_returns by reflexivity. reflexivity.
Qed.

(** X22. [is_volume_connected] queries the device with the CLI and
    answers whether the return code of the output is 0; an output without
    any of the three keys (or no output at all) is answered with False. *)
Theorem is_volume_connected_return_code (st : State)
    (out err : option string) (w1 : World) :
  execute (sds_cli self "querydev" volume) (world st) = (Ok (out, err), w1) ->
  let st1 := MkState w1 (log st ++ [Exec (sds_cli self "querydev" volume)]) in
  (falsy (_analyze_output out) = true ->
   is_volume_connected self volume st = (Returns false, st1))
  /\ (forall (d : gmap string string) (code : string) (n : Z),
        _analyze_output out = Some d ->
        d !! "ret_code" = Some code ->
        py_int code = Ok n ->
        is_volume_connected self volume st = (Returns (n =? 0), st1)).
Proof.
  intros Hrun st1. unfold is_volume_connected, _query_attached_volume.
  erewrite bind_returns
    by (rewrite (cli_cmd_runs "querydev" volume st _ w1 eq_refl volume_named
                   Hrun); reflexivity).
  cbn [fst]. fold st1. split.
  - now intros ->.
  - intros d code n -> Hcode Hn. rewrite (not_falsy d _ _ Hcode).
    cbn [negb subscript]. rewrite Hcode.
    erewrite bind_returns by reflexivity. rewrite Hn.
    erewrite bind_returns by reflexivity. reflexivity.
Qed.

End Connector.

(** X23. A connector whose CLI file was not found when it was built
    raises BrickException from every operation, and runs nothing. *)
Theorem no_cli_no_command `{H : Host} (self : connector)
    (props : gmap string pyval) (volume : pyval) (st : State) :
  iscliexist self = false ->
  props !! "volume_id" = Some volume ->
  connect_volume self props st = (Raises BrickException, st)
  /\ disconnect_volume self props st = (Raises BrickException, st)
  /\ is_volume_connected self volume st = (Raises BrickException, st).
Proof.
  intros Hcli Hvolume.
  unfold connect_volume, disconnect_volume, is_volume_connected,
    _attach_volume, _detach_volume, _query_attached_volume, _cli_cmd, getitem.
  rewrite Hcli, Hvolume. cbn [negb]. run_monad. now destruct st.
Qed.

Lemma analyze_output_last_line_wins_witness :
  _analyze_output (Some "") = None
  /\ forall key : string,
       match _analyze_output
               (Some ("ret_code=50151401" +:+ String LF
                        ("ret_code=0" +:+ String LF "dev_addr=/dev/vdb")))
       with
       | Some d => d
       | None => (∅ : gmap string string)
       end !! key
       = if Factory.str_in key ["ret_code"; "ret_desc"; "dev_addr"]
         then reported key
                ("ret_code=50151401" +:+ String LF
                   ("ret_code=0" +:+ String LF "dev_addr=/dev/vdb"))
         else None.
Proof.
  split.
  - exact (proj2 (proj1 (analyze_output_last_line_wins (Some "")))
                 (or_intror eq_refl)).
  - exact (proj2 (analyze_output_last_line_wins
                    (Some ("ret_code=50151401" +:+ String LF
                             ("ret_code=0" +:+ String LF
                                "dev_addr=/dev/vdb"))))
                 ("ret_code=50151401" +:+ String LF
                    ("ret_code=0" +:+ String LF "dev_addr=/dev/vdb"))
                 (match _analyze_output
                          (Some ("ret_code=50151401" +:+ String LF
                                   ("ret_code=0" +:+ String LF
                                      "dev_addr=/dev/vdb")))
                  with
                  | Some d => d
                  | None => ∅
                  end)
                 eq_refl ltac:(vm_compute; reflexivity)).
Defined.

Example analyze_output_example :
  reported "ret_code"
    ("ret_code=50151401" +:+ String LF
       ("ret_code=0" +:+ String LF "dev_addr=/dev/vdb"))
  = Some "0".
Proof. vm_compute. reflexivity. Qed.

Lemma connect_volume_return_codes_witness :
  @connect_volume (fake_host sds_ok_fake) sds volume_props (fake_state 0 [])
  = (Returns (huawei_device_info "/dev/vdb"),
     fake_state 0
       (([] ++ [Exec (sds_cli sds "attach" (PStr "volume-0001"))])
        ++ [Exec (sds_cli sds "querydev" (PStr "volume-0001"))])).
Proof.
  exact (proj2 (proj2 (@connect_volume_return_codes (fake_host sds_ok_fake)
                         sds eq_refl volume_props (PStr "volume-0001")
                         ltac:(vm_compute; reflexivity) ltac:(discriminate)
                         (fake_state 0 [])
                         (Some (sds_ok (sds_cli sds "attach"
                                                (PStr "volume-0001"))))
                         (Some "") 0%nat
                         (match _analyze_output (Some (sds_ok (sds_cli sds "attach" (PStr "volume-0001")))) with
                          | Some d => d
                          | None => ∅
                          end)
                         "0" 0
                         ltac:(reflexivity) ltac:(vm_compute; reflexivity)
                         ltac:(vm_compute; reflexivity)
                         ltac:(vm_compute; reflexivity))
                      (or_introl eq_refl)
                      (Some (sds_ok (sds_cli sds "querydev"
                                             (PStr "volume-0001"))))
                      (Some "") 0%nat
                      (match _analyze_output (Some (sds_ok (sds_cli sds "attach" (PStr "volume-0001")))) with
                       | Some d => d
                       | None => ∅
                       end)
                      "0" 0
                      ltac:(reflexivity) ltac:(vm_compute; reflexivity)
                      ltac:(vm_compute; reflexivity)
                      ltac:(vm_compute; reflexivity))
               eq_refl "/dev/vdb" ltac:(vm_compute; reflexivity)).
Defined.

Lemma no_return_code_no_brick_exception_witness :
  @connect_volume (fake_host quiet_fake) sds volume_props (fake_state 0 [])
  = (Raises TypeError,
     fake_state 0 ([] ++ [Exec (sds_cli sds "attach" (PStr "volume-0001"))])).
Proof.
  exact (proj1 (@no_return_code_no_brick_exception (fake_host quiet_fake)
                  sds eq_refl volume_props (PStr "volume-0001")
                  ltac:(vm_compute; reflexivity) ltac:(discriminate)
                  (fake_state 0 []) "attach" (Some "") (Some "") 0%nat
                  ltac:(reflexivity) ltac:(reflexivity))
               eq_refl).
Defined.

Lemma disconnect_volume_return_codes_witness :
  @disconnect_volume (fake_host (sds_code_fake "50155007")) sds volume_props
     (fake_state 0 [])
  = (Returns tt,
     fake_state 0 ([] ++ [Exec (sds_cli sds "detach" (PStr "volume-0001"))])).
Proof.
  exact (@disconnect_volume_return_codes (fake_host (sds_code_fake "50155007"))
           sds eq_refl volume_props (PStr "volume-0001")
           ltac:(vm_compute; reflexivity) ltac:(discriminate)
           (fake_state 0 []) (Some "ret_code=50155007") (Some "") 0%nat
           (match _analyze_output (Some "ret_code=50155007") with
            | Some d => d
            | None => ∅
            end)
           "50155007" 50155007
           ltac:(reflexivity) ltac:(vm_compute; reflexivity)
           ltac:(vm_compute; reflexivity) ltac:(vm_compute; reflexivity)).
Defined.

Lemma is_volume_connected_return_code_witness :
  @is_volume_connected (fake_host (sds_code_fake "50151401")) sds
     (PStr "volume-0001") (fake_state 0 [])
  = (Returns false,
     fake_state 0
       ([] ++ [Exec (sds_cli sds "querydev" (PStr "volume-0001"))])).
Proof.
  exact (proj2 (@is_volume_connected_return_code
                  (fake_host (sds_code_fake "50151401")) sds eq_refl
                  (PStr "volume-0001") ltac:(discriminate)
                  (fake_state 0 []) (Some "ret_code=50151401") (Some "")
                  0%nat ltac:(reflexivity))
               (match _analyze_output (Some "ret_code=50151401") with
                | Some d => d
                | None => ∅
                end)
               "50151401" 50151401
               ltac:(vm_compute; reflexivity) ltac:(vm_compute; reflexivity)
               ltac:(vm_compute; reflexivity)).
Defined.

Lemma no_cli_no_command_witness :
  @connect_volume (fake_host quiet_fake) (Connector "/opt/sds_cli" false)
     volume_props (fake_state 0 [])
  = (Raises BrickException, fake_state 0 [])
  /\ @disconnect_volume (fake_host quiet_fake) (Connector "/opt/sds_cli" false)
       volume_props (fake_state 0 [])
     = (Raises BrickException, fake_state 0 [])
  /\ @is_volume_connected (fake_host quiet_fake)
       (Connector "/opt/sds_cli" false) (PStr "volume-0001") (fake_state 0 [])
     = (Raises BrickException, fake_state 0 []).
Proof.
  exact (@no_cli_no_command (fake_host quiet_fake)
           (Connector "/opt/sds_cli" false) volume_props (PStr "volume-0001")
           (fake_state 0 []) eq_refl ltac:(vm_compute; reflexivity)).
Defined.

End HuaweiFacts.
(** ** The StorPool connector *)

Module StorPoolFacts.

Import StorPool.

Lemma py_eqb_str (v : pyval) (s : string) :
  py_eqb v (PStr s) = true <-> v = PStr s.
Proof.
  destruct v as [[|b|n|t]|l]; cbn; try (split; discriminate).
  rewrite String.eqb_eq. split; [now intros -> | now intros [= ->]].
Qed.

Lemma is_none_given (props : gmap string pyval) (key : string) (v : pyval) :
  given props key v ->
  get_default props key (Atom ANone) = v /\ is_none v = false.
Proof.
  intros [Hkey Hv]. unfold get_default. rewrite Hkey. split; [reflexivity|].
  destruct v as [[]|]; try reflexivity. now destruct Hv.
Qed.

Lemma is_none_missing (props : gmap string pyval) (key : string) :
  props !! key = None \/ props !! key = Some (Atom ANone) ->
  is_none (get_default props key (Atom ANone)) = true.
Proof. unfold get_default. now intros [-> | ->]. Qed.

Section Connector.
Context {D : AttachDB}.
Variable props : gmap string pyval.

(** X24. Without a client id, or without a volume id (the key is not
    there, or its value is None), [connect_volume] and [disconnect_volume]
    raise BrickException before anything is asked of the attachment
    database.  [connect_volume] looks at the access mode only after it has
    asked for the name of the volume: an access mode that is neither "rw"
    nor "ro" (or none at all) is a BrickException after that one call,
    with no request filed. *)
Theorem storpool_invalid_connection_data (st : state) :
  (props !! "client_id" = None \/ props !! "client_id" = Some (Atom ANone) ->
   connect_volume props st = (Raise BrickException, st)
   /\ disconnect_volume props st = (Raise BrickException, st))
  /\ (forall client : pyval,
        given props "client_id" client ->
        props !! "volume" = None \/ props !! "volume" = Some (Atom ANone) ->
        connect_volume props st = (Raise BrickException, st)
        /\ disconnect_volume props st = (Raise BrickException, st))
  /\ (forall (client volume_id : pyval) (name : string) (d1 : Db),
        given props "client_id" client ->
        given props "volume" volume_id ->
        props !! "access_mode" <> Some (PStr "rw") ->
        props !! "access_mode" <> Some (PStr "ro") ->
        volumeName volume_id (db st) = (Ok name, d1) ->
        connect_volume props st
        = (Raise BrickException,
           MkState d1 (calls st ++ [VolumeName volume_id]))).
Proof.
  split; [|split].
  - intros Hclient. unfold connect_volume, disconnect_volume.
    now rewrite (is_none_missing _ _ Hclient).
  - intros client Hclient Hvolume. unfold connect_volume, disconnect_volume.
    destruct (is_none_given _ _ _ Hclient) as [-> ->].
    now rewrite (is_none_missing _ _ Hvolume).
  - intros client volume_id name d1 Hclient Hvolume Hrw Hro Hname.
    unfold connect_volume.
    destruct (is_none_given _ _ _ Hclient) as [-> ->].
    destruct (is_none_given _ _ _ Hvolume) as [-> ->].
    unfold bind at 1. unfold ask at 1. rewrite Hname.
    assert (is_none (get_default props "access_mode" (Atom ANone))
            || negb (py_eqb (get_default props "access_mode" (Atom ANone))
                            (PStr "rw")
                     || py_eqb (get_default props "access_mode" (Atom ANone))
                               (PStr "ro")) = true) as ->;
      [|reflexivity].
    unfold get_default.
    destruct (props !! "access_mode") as [mode|]; [|reflexivity].
    destruct (py_eqb mode (PStr "rw")) eqn:Erw.
    { apply py_eqb_str in Erw. now subst mode. }
    destruct (py_eqb mode (PStr "ro")) eqn:Ero.
    { apply py_eqb_str in Ero. now subst mode. }
    apply Bool.orb_true_r.
Qed.

Variables client volume_id : pyval.
Hypothesis has_client : given props "client_id" client.
Hypothesis has_volume : given props "volume" volume_id.

(** X25. With a client id, a volume id and the access mode "rw" or "ro",
    [connect_volume] asks for the name of the volume, files the request
    brick-{client id}-{volume id} for it (of type "brick", with rights 1
    for "ro" and 2 for "rw", and not a snapshot), has it synchronised and
    answers the block device /dev/storpool/{name}.  When filing the request
    fails, that failure is raised and nothing is synchronised; a failure
    of the synchronisation is raised with the request left filed. *)
Theorem storpool_connect_volume_attaches (mode name : string) (st : state)
    (d1 : Db) :
  props !! "access_mode" = Some (PStr mode) ->
  mode = "rw" \/ mode = "ro" ->
  volumeName volume_id (db st) = (Ok name, d1) ->
  let req_id := request_id client volume_id in
  let req := attach_request name req_id (if String.eqb mode "ro" then 1 else 2) in
  (forall d2 d3 : Db,
     add req_id req d1 = (Ok tt, d2) ->
     sync req_id None d2 = (Ok tt, d3) ->
     connect_volume props st
     = (Ok (storpool_device_info name),
        MkState d3 (calls st ++ [VolumeName volume_id; Add req_id req;
                                 Sync req_id None])))
  /\ (forall (e : exn) (d2 : Db),
        add req_id req d1 = (Raise e, d2) ->
        connect_volume props st
        = (Raise e,
           MkState d2 (calls st ++ [VolumeName volume_id; Add req_id req])))
  /\ (forall (d2 : Db) (e : exn) (d3 : Db),
        add req_id req d1 = (Ok tt, d2) ->
        sync req_id None d2 = (Raise e, d3) ->
        connect_volume props st
        = (Raise e,
           MkState d3 (calls st ++ [VolumeName volume_id; Add req_id req;
                                    Sync req_id None]))).
Proof.
  intros Hmode Hvalid Hname req_id req.
  assert (forall k : gmap string pyval -> A (gmap string pyval),
            True) as _ by trivial.
  assert (connect_volume props st
          = (ask (Add req_id req) (add req_id req);;;;
             ask (Sync req_id None) (sync req_id None);;;;
             ret (storpool_device_info name))
              (MkState d1 (calls st ++ [VolumeName volume_id]))) as ->.
  { unfold connect_volume.
    destruct (is_none_given _ _ _ has_client) as [-> ->].
    destruct (is_none_given _ _ _ has_volume) as [-> ->].
    unfold bind at 1. unfold ask at 1. rewrite Hname.
    unfold get_default. rewrite Hmode.
    fold req_id. unfold req, attach_request, storpool_device_info.
    destruct Hvalid as [-> | ->]; reflexivity. }
  split; [|split].
  - intros d2 d3 Hadd Hsync. unfold bind, ask, ret. cbn [db calls].
    rewrite Hadd. cbn [db calls]. rewrite Hsync.
    now rewrite <- !app_assoc.
  - intros e d2 Hadd. unfold bind, ask, ret. cbn [db calls].
    rewrite Hadd. now rewrite <- !app_assoc.
  - intros d2 e d3 Hadd Hsync. unfold bind, ask, ret. cbn [db calls].
    rewrite Hadd. cbn [db calls]. rewrite Hsync.
    now rewrite <- !app_assoc.
Qed.

(** X26. With a client id and a volume id, whatever the access mode,
    [disconnect_volume] asks for the name of the volume, has the request
    brick-{client id}-{volume id} synchronised with that volume detached,
    and then removes the request; when the synchronisation fails, that
    failure is raised and the request is not removed. *)
Theorem storpool_disconnect_volume_detaches (name : string) (st : state)
    (d1 : Db) :
  volumeName volume_id (db st) = (Ok name, d1) ->
  let req_id := request_id client volume_id in
  (forall (r : result unit) (d2 d3 : Db),
     sync req_id (Some name) d1 = (Ok tt, d2) ->
     remove req_id d2 = (r, d3) ->
     disconnect_volume props st
     = (r,
        MkState d3 (calls st ++ [VolumeName volume_id;
                                 Sync req_id (Some name); Remove req_id])))
  /\ (forall (e : exn) (d2 : Db),
        sync req_id (Some name) d1 = (Raise e, d2) ->
        disconnect_volume props st
        = (Raise e,
           MkState d2 (calls st ++ [VolumeName volume_id;
                                    Sync req_id (Some name)]))).
Proof.
  intros Hname req_id.
  assert (disconnect_volume props st
          = (ask (Sync req_id (Some name)) (sync req_id (Some name));;;;
             ask (Remove req_id) (remove req_id))
              (MkState d1 (calls st ++ [VolumeName volume_id]))) as ->.
  { unfold disconnect_volume.
    destruct (is_none_given _ _ _ has_client) as [-> ->].
    destruct (is_none_given _ _ _ has_volume) as [-> ->].
    unfold bind at 1. unfold ask at 1. now rewrite Hname. }
  split.
  - intros r d2 d3 Hsync Hremove. unfold bind, ask. cbn [db calls].
    rewrite Hsync. cbn [db calls]. rewrite Hremove.
    now rewrite <- !app_assoc.
  - intros e d2 Hsync. unfold bind, ask. cbn [db calls].
    rewrite Hsync. now rewrite <- !app_assoc.
Qed.

End Connector.

Ltac by_evaluation :=
  first [ split; [vm_compute; reflexivity | discriminate]
        | vm_compute; reflexivity
        | vm_compute; discriminate ].

Lemma storpool_invalid_connection_data_witness :
  @connect_volume requests_db no_client_props no_requests
  = (Raise BrickException, no_requests)
  /\ @disconnect_volume requests_db none_volume_props no_requests
     = (Raise BrickException, no_requests)
  /\ @connect_volume requests_db no_mode_props no_requests
     = (Raise BrickException,
        @MkState requests_db ∅ ([] ++ [VolumeName (PStr "0001")]))
  /\ @connect_volume requests_db (storpool_props "RW") no_requests
     = (Raise BrickException,
        @MkState requests_db ∅ ([] ++ [VolumeName (PStr "0001")])).
Proof.
  split; [|split; [|split]].
  - refine (proj1 (proj1 (@storpool_invalid_connection_data requests_db
                            no_client_props no_requests) _)).
    left. by_evaluation.
  - refine (proj2 (proj1 (proj2
              (@storpool_invalid_connection_data requests_db
                 none_volume_props no_requests))
              (PInt 7) _ _)); [by_evaluation|].
    right. by_evaluation.
  - refine (proj2 (proj2
              (@storpool_invalid_connection_data requests_db no_mode_props
                 no_requests))
              (PInt 7) (PStr "0001") "os--volume-0001" ∅ _ _ _ _ _);
      by_evaluation.
  - refine (proj2 (proj2
              (@storpool_invalid_connection_data requests_db
                 (storpool_props "RW") no_requests))
              (PInt 7) (PStr "0001") "os--volume-0001" ∅ _ _ _ _ _);
      by_evaluation.
Defined.

Lemma storpool_connect_volume_attaches_witness :
  @connect_volume requests_db (storpool_props "ro") no_requests
  = (Ok (storpool_device_info "os--volume-0001"),
     @MkState requests_db one_request
       ([] ++ [VolumeName (PStr "0001");
               Add "brick-7-0001"
                   (attach_request "os--volume-0001" "brick-7-0001" 1);
               Sync "brick-7-0001" None])).
Proof.
  refine (proj1 (@storpool_connect_volume_attaches requests_db
                   (storpool_props "ro") (PInt 7) (PStr "0001") _ _
                   "ro" "os--volume-0001" no_requests ∅ _
                   (or_intror eq_refl) _)
                one_request one_request _ _);
    by_evaluation.
Defined.

Lemma storpool_disconnect_volume_detaches_witness :
  @disconnect_volume requests_db no_mode_props
     (@MkState requests_db one_request [])
  = (Ok tt,
     @MkState requests_db (delete "brick-7-0001" one_request)
       ([] ++ [VolumeName (PStr "0001");
               Sync "brick-7-0001" (Some "os--volume-0001");
               Remove "brick-7-0001"])).
Proof.
  refine (proj1 (@storpool_disconnect_volume_detaches requests_db
                   no_mode_props (PInt 7) (PStr "0001") _ _
                   "os--volume-0001"
                   (@MkState requests_db one_request [])
                   one_request _)
                (Ok tt) one_request (delete "brick-7-0001" one_request)
                _ _);
    by_evaluation.
Defined.

(** Disconnecting a volume that was never connected: the request is not
    there, and what the database raises for that is raised. *)
Example storpool_disconnect_unknown :
  fst (@disconnect_volume requests_db no_mode_props no_requests)
  = Raise (KeyError "brick-7-0001").
Proof. vm_compute. reflexivity. Qed.

End StorPoolFacts.
(** ** The RBD connector *)

Module RBDFacts.

Import PyStr RBDConnector.

Lemma split_on_from_length (sep : ascii) (s : string) :
  forall cur : list ascii,
    length (split_on_from sep cur s) = S (count_char sep s).
Proof.
  induction s as [|c s IH]; intros cur; [reflexivity|].
  cbn [split_on_from count_char].
  destruct (Ascii.eqb c sep); cbn [length]; now rewrite IH.
Qed.

Lemma split_on_from_none (sep : ascii) (s : string) :
  count_char sep s = 0%nat ->
  forall cur : list ascii,
    split_on_from sep cur s = [rev_string_onto cur s].
Proof.
  induction s as [|c s IH]; intros Hnone cur; [reflexivity|].
  cbn [split_on_from count_char] in Hnone |- *.
  destruct (Ascii.eqb c sep); [discriminate|].
  now rewrite IH.
Qed.

Lemma split_on_from_one (sep : ascii) (a b : string) :
  count_char sep a = 0%nat ->
  forall cur : list ascii,
    split_on_from sep cur (a +:+ String sep b)
    = rev_string_onto cur a :: split_on_from sep [] b.
Proof.
  induction a as [|c a IH]; intros Hnone cur.
  - change ("" +:+ String sep b) with (String sep b).
    cbn [split_on_from]. now rewrite Ascii.eqb_refl.
  - cbn [count_char] in Hnone.
    change (String c a +:+ String sep b) with (String c (a +:+ String sep b)).
    cbn [split_on_from].
    destruct (Ascii.eqb c sep); [discriminate|].
    now rewrite IH.
Qed.

(** A name with one slash splits into what stands before and after it. *)
Lemma split_on_pool_volume (pool volume : string) :
  count_char "/" pool = 0%nat -> count_char "/" volume = 0%nat ->
  split_on "/" (pool +:+ String "/" volume) = [pool; volume].
Proof.
  intros Hpool Hvolume. unfold split_on.
  rewrite split_on_from_one by exact Hpool.
  now rewrite split_on_from_none by exact Hvolume.
Qed.

Section Connector.
Variable cluster : Type.
Variable handle : Type.
Variable open_volume :
  pyval -> string -> string -> cluster -> result handle * cluster.

(** X27. [connect_volume] opens the volume {pool}/{volume} of the name in
    the properties for the user of the properties, and its outcome is that
    of the opening.  Properties it cannot read never give the
    BrickException the code has for them, and open nothing: a missing
    [auth_username] or [name] is a KeyError, a name that is not a string
    an AttributeError, and a name without a slash, or with more than one,
    a ValueError (the handler waits for an IndexError, which nothing in
    the block raises). *)
Theorem rbd_connect_volume_name (props : gmap string pyval) (c : cluster) :
  (props !! "auth_username" = None ->
   connect_volume cluster handle open_volume props c
   = (Raise (KeyError "auth_username"), c))
  /\ (forall user : pyval,
        props !! "auth_username" = Some user ->
        (props !! "name" = None ->
         connect_volume cluster handle open_volume props c
         = (Raise (KeyError "name"), c))
        /\ (forall name : pyval,
              props !! "name" = Some name ->
              (forall s : string, name <> PStr s) ->
              connect_volume cluster handle open_volume props c
              = (Raise AttributeError, c))
        /\ (forall s : string,
              props !! "name" = Some (PStr s) ->
              count_char "/" s <> 1%nat ->
              exists msg : string,
                connect_volume cluster handle open_volume props c
                = (Raise (ValueError msg), c))
        /\ (forall pool volume : string,
              props !! "name" = Some (PStr (pool +:+ String "/" volume)) ->
              count_char "/" pool = 0%nat ->
              count_char "/" volume = 0%nat ->
              connect_volume cluster handle open_volume props c
              = open_volume user pool volume c))
  /\ user_pool_volume props <> Raise IndexError.
Proof.
  split; [|split].
  - intros Huser. unfold connect_volume, user_pool_volume, getitem.
    now rewrite Huser.
  - intros user Huser. split; [|split; [|split]].
    + intros Hname. unfold connect_volume, user_pool_volume, getitem.
      now rewrite Huser, Hname.
    + intros name Hname Hstr. unfold connect_volume, user_pool_volume, getitem.
      rewrite Huser, Hname. cbn [and_then].
      destruct name as [[| | |s]|]; try reflexivity.
      now destruct (Hstr s).
    + intros s Hname Hcount. unfold connect_volume, user_pool_volume, getitem.
      rewrite Huser, Hname. unfold PStr. cbn [and_then].
      pose proof (split_on_from_length "/" s []) as Hlen.
      fold (split_on "/" s) in Hlen.
      destruct (split_on "/" s) as [|a [|b [|x l]]]; cbn [length] in Hlen.
      * discriminate Hlen.
      * now eexists.
      * exfalso. apply Hcount. now injection Hlen as <-.
      * now eexists.
    + intros pool volume Hname Hpool Hvolume.
      unfold connect_volume, user_pool_volume, getitem.
      rewrite Huser, Hname. unfold PStr. cbn [and_then].
      now rewrite split_on_pool_volume.
  - unfold user_pool_volume, getitem.
    destruct (props !! "auth_username") as [user|]; [|discriminate].
    destruct (props !! "name") as [[[| | |s]|]|]; cbn [and_then];
      try discriminate.
    destruct (split_on "/" s) as [|a [|b [|x l]]]; discriminate.
Qed.

End Connector.

Lemma rbd_connect_volume_name_witness :
  connect_volume nat _ counting userless_props 0%nat
  = (Raise (KeyError "auth_username"), 0%nat)
  /\ connect_volume nat _ counting nameless_props 0%nat
     = (Raise (KeyError "name"), 0%nat)
  /\ connect_volume nat _ counting (rbd_props (PInt 1)) 0%nat
     = (Raise AttributeError, 0%nat)
  /\ (exists msg : string,
        connect_volume nat _ counting (rbd_props (PStr "volume-0001")) 0%nat
        = (Raise (ValueError msg), 0%nat))
  /\ connect_volume nat _ counting
       (rbd_props (PStr ("volumes" +:+ String "/" "volume-0001"))) 0%nat
     = counting (PStr "cinder") "volumes" "volume-0001" 0%nat.
Proof.
  split; [|split; [|split; [|split]]].
  - refine (proj1 (rbd_connect_volume_name nat _ counting userless_props
                     0%nat) _).
    vm_compute. reflexivity.
  - refine (proj1 (proj1 (proj2 (rbd_connect_volume_name nat _ counting
                                   nameless_props 0%nat))
                         (PStr "cinder") _) _);
      vm_compute; reflexivity.
  - refine (proj1 (proj2 (proj1 (proj2
              (rbd_connect_volume_name nat _ counting (rbd_props (PInt 1))
                 0%nat))
              (PStr "cinder") _)) (PInt 1) _ _);
      [vm_compute; reflexivity | vm_compute; reflexivity | discriminate].
  - refine (proj1 (proj2 (proj2 (proj1 (proj2
              (rbd_connect_volume_name nat _ counting
                 (rbd_props (PStr "volume-0001")) 0%nat))
              (PStr "cinder") _))) "volume-0001" _ _);
      [vm_compute; reflexivity | vm_compute; reflexivity
      | vm_compute; discriminate].
  - refine (proj2 (proj2 (proj2 (proj1 (proj2
              (rbd_connect_volume_name nat _ counting
                 (rbd_props (PStr ("volumes" +:+ String "/" "volume-0001")))
                 0%nat))
              (PStr "cinder") _))) "volumes" "volume-0001" _ _ _);
      vm_compute; reflexivity.
Defined.

(** A name with two slashes is refused too. *)
Example rbd_name_two_slashes :
  connect_volume nat _ counting (rbd_props (PStr "a/b/c")) 0%nat
  = (Raise (ValueError "too many values to unpack"), 0%nat).
Proof. vm_compute. reflexivity. Qed.

End RBDFacts.
(** ** S390X: which LUNs share a LUN string *)

Module S390XMoreFacts.

Import PyStr FibreChannelS390X PyStrFacts S390XFacts.

Lemma hex_fixed_sixteen (k : nat) (n : Z) (acc : string) :
  hex_fixed (S k) (16 * n) acc = hex_fixed k n (String "0"%char acc).
Proof.
  cbn [hex_fixed].
  rewrite (Z.mul_comm 16 n), Z.mod_mul, Z.div_mul by discriminate.
  reflexivity.
Qed.

(** The eight digits of [65536 * n] are the four digits of [n] and four
    zeros. *)
Lemma hex_fixed_shift (n : Z) (acc : string) :
  hex_fixed 8 (65536 * n) acc = hex_fixed 4 n ("0000" +:+ acc).
Proof.
  replace (65536 * n) with (16 * (16 * (16 * (16 * n)))) by lia.
  now rewrite !hex_fixed_sixteen.
Qed.

Lemma append_assoc (s t u : string) : (s +:+ t) +:+ u = s +:+ (t +:+ u).
Proof.
  induction s as [|c s IH]; [reflexivity|].
  change (String c s +:+ t) with (String c (s +:+ t)).
  change (String c (s +:+ t) +:+ u) with (String c ((s +:+ t) +:+ u)).
  now rewrite IH.
Qed.

Lemma hex_fixed_acc (k : nat) :
  forall (n : Z) (acc : string),
    hex_fixed k n acc = hex_fixed k n "" +:+ acc.
Proof.
  induction k as [|k IH]; intros n acc; [reflexivity|].
  cbn [hex_fixed]. rewrite IH.
  rewrite (IH _ (String _ "")), append_assoc. reflexivity.
Qed.

Lemma lun_string_low (lun : Z) :
  0 <= lun <= 0xffff ->
  _get_lun_string lun
  = PStr ("0x" +:+ hex_fixed 4 lun "" +:+ "000000000000").
Proof.
  intros Hlun. unfold _get_lun_string.
  destruct (lun <=? 65535) eqn:Hle; [|apply Z.leb_gt in Hle; lia].
  rewrite format_0x_fixed; [reflexivity | lia |].
  change (16 ^ Z.of_nat 4) with 65536. lia.
Qed.

Lemma hex_value_twelve_zeros (a : Z) :
  hex_value_from a "000000000000" = a * 16 ^ 12.
Proof.
  cbn [hex_value_from]. change (hex_digit_value "0") with 0. lia.
Qed.

(** X28. The LUN strings of the LUNs up to 0xffff differ from one
    another, but the encoding of the larger LUNs runs into them: for
    [1 <= k <= 0xffff] the LUN [65536 * k] has the LUN string of the LUN
    [k], and so the same device file path on every adapter and port. *)
Theorem lun_string_shared (k : Z) :
  1 <= k <= 0xffff ->
  _get_lun_string (65536 * k) = _get_lun_string k
  /\ (forall pci_num target_wwn : string,
        _get_device_file_path pci_num target_wwn (_get_lun_string (65536 * k))
        = _get_device_file_path pci_num target_wwn (_get_lun_string k))
  /\ (forall j : Z,
        0 <= j <= 0xffff -> _get_lun_string j = _get_lun_string k -> j = k).
Proof.
  intros Hk.
  assert (_get_lun_string (65536 * k) = _get_lun_string k) as Hsame.
  { rewrite (lun_string_low k) by lia. unfold _get_lun_string.
    destruct (65536 * k <=? 65535) eqn:Hlow; [apply Z.leb_le in Hlow; lia|].
    destruct (65536 * k <=? 4294967295) eqn:Hhigh;
      [|apply Z.leb_gt in Hhigh; lia].
    rewrite format_0x_fixed;
      [| lia | change (16 ^ Z.of_nat 8) with 4294967296; lia].
    rewrite hex_fixed_shift, hex_fixed_acc.
    rewrite append_assoc. reflexivity. }
  split; [exact Hsame|]. split.
  - intros pci_num target_wwn. now rewrite Hsame.
  - intros j Hj Heq.
    rewrite (lun_string_low j), (lun_string_low k) in Heq by lia.
    assert (forall s t : string, PStr s = PStr t -> s = t) as Hstr
      by (intros s t [= ->]; reflexivity).
    apply Hstr, (String.app_inj "0x") in Heq.
    apply (f_equal (hex_value_from 0)) in Heq.
    rewrite <- !hex_fixed_acc in Heq.
    rewrite !hex_value_fixed, !hex_value_twelve_zeros in Heq.
    change (16 ^ Z.of_nat 4) with 65536 in Heq.
    rewrite !Z.mod_small in Heq by lia. lia.
Qed.

Lemma lun_string_shared_witness :
  _get_lun_string 65536 = _get_lun_string 1
  /\ _get_device_file_path "0.0.1a00" "0x5005076300c213e9"
       (_get_lun_string 65536)
     = _get_device_file_path "0.0.1a00" "0x5005076300c213e9"
         (_get_lun_string 1).
Proof.
  split.
  - exact (proj1 (lun_string_shared 1 ltac:(lia))).
  - exact (proj1 (proj2 (lun_string_shared 1 ltac:(lia)))
                 "0.0.1a00" "0x5005076300c213e9").
Defined.

Example lun_string_shared_path :
  _get_device_file_path "0.0.1a00" "0x5005076300c213e9" (_get_lun_string 65536)
  = "/dev/disk/by-path/ccw-0.0.1a00-zfcp-0x5005076300c213e9:0x0001000000000000".
Proof. vm_compute. reflexivity. Qed.

End S390XMoreFacts.
